(** * OCR service: configuration snapshot, model artifact lifecycle and
      request pipeline

    A shallow embedding of [app/config.py], [app/model_store.py],
    [app/vllm_local_server.py], [app/bootstrap_model_store.py] and [main.py],
    the properties of the specification stated over it, and further
    properties of the code.

    Conventions.
    - Python [int] is [Z]; [str] is [string] (case mapping acts on the ASCII
      letters); a [float] of the settings is a [pyfloat], whose finite values
      are rationals, so that the comparisons of the validators are exact; a
      [float] the code computes with (the readings of the clock) is a binary64
      float of the kernel, with its rounding.
    - A call that may raise returns an [outcome]; code with effects runs in
      the monad [M W E] over an explicit world [W]. *)

From Stdlib Require Import Ascii String ZArith Lia QArith DecimalString.
From Stdlib Require Import Strings.Byte.
From Stdlib Require Floats.
From stdpp Require Import base gmap strings list.

Open Scope string_scope.
Open Scope Z_scope.

(** ** Results of fallible calls and the state-and-exception monad *)

Inductive outcome (E A : Type) : Type :=
| Returns (a : A)
| Raises (e : E).
Arguments Returns {E A} a.
Arguments Raises {E A} e.

Definition M (W E A : Type) : Type := W -> outcome E A * W.

Definition ret {W E A} (a : A) : M W E A := fun w => (Returns a, w).

Definition raise {W E A} (e : E) : M W E A := fun w => (Raises e, w).

Definition bind {W E A B} (m : M W E A) (k : A -> M W E B) : M W E B :=
  fun w =>
    match m w with
    | (Returns a, w') => k a w'
    | (Raises e, w') => (Raises e, w')
    end.

(** [try m except h]: the handler sees every exception and re-raises the
    ones its [except] clauses do not name. *)
Definition try_except {W E A} (m : M W E A) (h : E -> M W E A) : M W E A :=
  fun w =>
    match m w with
    | (Returns a, w') => (Returns a, w')
    | (Raises e, w') => h e w'
    end.

Definition gets {W E A} (f : W -> A) : M W E A := fun w => (Returns (f w), w).

Definition modify {W E} (f : W -> W) : M W E unit := fun w => (Returns tt, f w).

Notation "'let*' x ':=' m 'in' k" := (bind m (fun x => k))
  (at level 10, x name, m at level 100, k at level 200).

(** ** Python string helpers *)

Module PyStr.

(** [str.isspace] on the code points below 256. *)
Definition isspace (c : ascii) : bool :=
  let n := nat_of_ascii c in
  ((9 <=? n)%nat && (n <=? 13)%nat) || ((28 <=? n)%nat && (n <=? 32)%nat)
  || (n =? 133)%nat || (n =? 160)%nat.

Fixpoint lstrip_by (p : ascii -> bool) (s : string) : string :=
  match s with
  | EmptyString => EmptyString
  | String c r => if p c then lstrip_by p r else s
  end.

Fixpoint rstrip_by (p : ascii -> bool) (s : string) : string :=
  match s with
  | EmptyString => EmptyString
  | String c r =>
      match rstrip_by p r with
      | EmptyString => if p c then EmptyString else String c EmptyString
      | r' => String c r'
      end
  end.

(** [s.strip()] *)
Definition strip (s : string) : string := lstrip_by isspace (rstrip_by isspace s).

(** [s.rstrip("/")] *)
Definition rstrip_slash (s : string) : string :=
  rstrip_by (fun c => Ascii.eqb c "/"%char) s.

Definition upper_char (c : ascii) : ascii :=
  let n := nat_of_ascii c in
  if (97 <=? n)%nat && (n <=? 122)%nat then ascii_of_nat (n - 32) else c.

Definition lower_char (c : ascii) : ascii :=
  let n := nat_of_ascii c in
  if (65 <=? n)%nat && (n <=? 90)%nat then ascii_of_nat (n + 32) else c.

Fixpoint map_chars (f : ascii -> ascii) (s : string) : string :=
  match s with
  | EmptyString => EmptyString
  | String c r => String (f c) (map_chars f r)
  end.

Definition upper : string -> string := map_chars upper_char.
Definition lower : string -> string := map_chars lower_char.

(** [x in xs] for a collection of strings *)
Definition mem (x : string) (xs : list string) : bool :=
  existsb (String.eqb x) xs.

(** [s.replace(old, new)] for a one-character [old] *)
Fixpoint replace_char (old : ascii) (new : string) (s : string) : string :=
  match s with
  | EmptyString => EmptyString
  | String c r =>
      if Ascii.eqb c old then new ++ replace_char old new r
      else String c (replace_char old new r)
  end.

(** [old in s] for a one-character [old] *)
Fixpoint contains_char (c : ascii) (s : string) : bool :=
  match s with
  | EmptyString => false
  | String d r => Ascii.eqb c d || contains_char c r
  end.

(** [s.split(sep)] for a one-character [sep] *)
Fixpoint split_char (sep : ascii) (s : string) : list string :=
  match s with
  | EmptyString => [EmptyString]
  | String c r =>
      if Ascii.eqb c sep then EmptyString :: split_char sep r
      else match split_char sep r with
           | [] => [String c EmptyString]
           | w :: ws => String c w :: ws
           end
  end.

Fixpoint join (sep : string) (xs : list string) : string :=
  match xs with
  | [] => EmptyString
  | [x] => x
  | x :: rest => x ++ sep ++ join sep rest
  end.

(** [s.startswith(prefix)] *)
Fixpoint startswith (s prefix : string) : bool :=
  match prefix, s with
  | EmptyString, _ => true
  | String a p, String b r => Ascii.eqb a b && startswith r p
  | String _ _, EmptyString => false
  end.

(** [sub in s] *)
Fixpoint contains (s sub : string) : bool :=
  startswith s sub
  || match s with
     | String _ r => contains r sub
     | EmptyString => false
     end.

(** [s.endswith(suffix)] *)
Fixpoint endswith (s suffix : string) : bool :=
  String.eqb s suffix
  || match s with
     | String _ r => endswith r suffix
     | EmptyString => false
     end.

End PyStr.

(** [str(n)] of an integer *)
Definition str_int (n : Z) : string := NilZero.string_of_int (Z.to_int n).

(** ** Python floats: finite values as rationals, the infinities and NaN *)

Inductive pyfloat : Type :=
| Fnum (q : Q)
| Finf (negative : bool)
| Fnan.

Module PyFloat.

(** [x <= y] *)
Definition le (x y : pyfloat) : bool :=
  match x, y with
  | Fnan, _ | _, Fnan => false
  | Fnum a, Fnum b => Qle_bool a b
  | Finf true, _ => true
  | _, Finf false => true
  | Finf false, _ => false
  | _, Finf true => false
  end.

(** [x > y] *)
Definition gt (x y : pyfloat) : bool :=
  match x, y with
  | Fnan, _ | _, Fnan => false
  | Fnum a, Fnum b => negb (Qle_bool a b)
  | Finf true, _ => false
  | _, Finf false => false
  | Finf false, _ => true
  | _, Finf true => true
  end.

End PyFloat.

(** ** Configuration snapshot ([app/config.py]) *)

Module Config.

(** The fields of [Settings].  [F] is the identity for a constructed
    snapshot and [option] for the values handed to the constructor (keyword
    arguments and environment entries, after the parsing of their types);
    an absent value takes the field's default. *)
Record SettingsOf (F : Type -> Type) : Type := {
  app_name : F string;
  app_version : F string;
  log_level : F string;
  verbose_logs : F bool;
  model_name : F string;
  model_store_dir : F string;
  require_local_model_store : F bool;
  auto_download_model_store : F bool;
  model_force_download : F bool;
  model_repo_id : F string;
  model_filename : F (option string);
  hf_token : F (option string);
  startup_compat_check : F bool;
  vllm_base_url : F string;
  vllm_api_key : F string;
  vllm_model_id : F string;
  vllm_timeout_seconds : F Z;
  vllm_startup_timeout_seconds : F Z;
  vllm_host : F string;
  vllm_port : F Z;
  vllm_dtype : F string;
  vllm_max_model_len : F Z;
  vllm_tensor_parallel_size : F Z;
  vllm_gpu_memory_utilization : F pyfloat;
  vllm_trust_remote_code : F bool;
  vllm_enforce_eager : F bool;
  vllm_disable_mm_preprocessor_cache : F bool;
  vllm_additional_args : F (option string);
  temperature : F pyfloat;
  top_k : F Z;
  top_p : F pyfloat;
  max_tokens : F Z;
  inference_timeout_seconds : F Z;
  max_upload_megabytes : F Z;
  ocr_prompt : F string
}.

Arguments app_name {F} _.
Arguments app_version {F} _.
Arguments log_level {F} _.
Arguments verbose_logs {F} _.
Arguments model_name {F} _.
Arguments model_store_dir {F} _.
Arguments require_local_model_store {F} _.
Arguments auto_download_model_store {F} _.
Arguments model_force_download {F} _.
Arguments model_repo_id {F} _.
Arguments model_filename {F} _.
Arguments hf_token {F} _.
Arguments startup_compat_check {F} _.
Arguments vllm_base_url {F} _.
Arguments vllm_api_key {F} _.
Arguments vllm_model_id {F} _.
Arguments vllm_timeout_seconds {F} _.
Arguments vllm_startup_timeout_seconds {F} _.
Arguments vllm_host {F} _.
Arguments vllm_port {F} _.
Arguments vllm_dtype {F} _.
Arguments vllm_max_model_len {F} _.
Arguments vllm_tensor_parallel_size {F} _.
Arguments vllm_gpu_memory_utilization {F} _.
Arguments vllm_trust_remote_code {F} _.
Arguments vllm_enforce_eager {F} _.
Arguments vllm_disable_mm_preprocessor_cache {F} _.
Arguments vllm_additional_args {F} _.
Arguments temperature {F} _.
Arguments top_k {F} _.
Arguments top_p {F} _.
Arguments max_tokens {F} _.
Arguments inference_timeout_seconds {F} _.
Arguments max_upload_megabytes {F} _.
Arguments ocr_prompt {F} _.

Definition Settings : Type := SettingsOf (fun T => T).
Definition SettingsInput : Type := SettingsOf option.

(** No value given: every field takes its default. *)
Definition no_input : SettingsInput :=
  {| app_name := None; app_version := None; log_level := None;
     verbose_logs := None; model_name := None; model_store_dir := None;
     require_local_model_store := None; auto_download_model_store := None;
     model_force_download := None; model_repo_id := None;
     model_filename := None; hf_token := None; startup_compat_check := None;
     vllm_base_url := None; vllm_api_key := None; vllm_model_id := None;
     vllm_timeout_seconds := None; vllm_startup_timeout_seconds := None;
     vllm_host := None; vllm_port := None; vllm_dtype := None;
     vllm_max_model_len := None; vllm_tensor_parallel_size := None;
     vllm_gpu_memory_utilization := None; vllm_trust_remote_code := None;
     vllm_enforce_eager := None; vllm_disable_mm_preprocessor_cache := None;
     vllm_additional_args := None; temperature := None; top_k := None;
     top_p := None; max_tokens := None; inference_timeout_seconds := None;
     max_upload_megabytes := None; ocr_prompt := None |}.

(** Copies of a record with one field replaced, as
    [settings.model_copy(update=...)] makes them. *)

Definition with_require_local_model_store {F : Type -> Type} (v : F bool) (s : SettingsOf F)
  : SettingsOf F :=
  {| app_name := app_name s; app_version := app_version s;
     log_level := log_level s; verbose_logs := verbose_logs s;
     model_name := model_name s; model_store_dir := model_store_dir s;
     require_local_model_store := v;
     auto_download_model_store := auto_download_model_store s;
     model_force_download := model_force_download s;
     model_repo_id := model_repo_id s; model_filename := model_filename s;
     hf_token := hf_token s; startup_compat_check := startup_compat_check s;
     vllm_base_url := vllm_base_url s; vllm_api_key := vllm_api_key s;
     vllm_model_id := vllm_model_id s;
     vllm_timeout_seconds := vllm_timeout_seconds s;
     vllm_startup_timeout_seconds := vllm_startup_timeout_seconds s;
     vllm_host := vllm_host s; vllm_port := vllm_port s;
     vllm_dtype := vllm_dtype s; vllm_max_model_len := vllm_max_model_len s;
     vllm_tensor_parallel_size := vllm_tensor_parallel_size s;
     vllm_gpu_memory_utilization := vllm_gpu_memory_utilization s;
     vllm_trust_remote_code := vllm_trust_remote_code s;
     vllm_enforce_eager := vllm_enforce_eager s;
     vllm_disable_mm_preprocessor_cache := vllm_disable_mm_preprocessor_cache s;
     vllm_additional_args := vllm_additional_args s;
     temperature := temperature s; top_k := top_k s; top_p := top_p s;
     max_tokens := max_tokens s;
     inference_timeout_seconds := inference_timeout_seconds s;
     max_upload_megabytes := max_upload_megabytes s;
     ocr_prompt := ocr_prompt s |}.

Definition with_auto_download_model_store {F : Type -> Type} (v : F bool) (s : SettingsOf F)
  : SettingsOf F :=
  {| app_name := app_name s; app_version := app_version s;
     log_level := log_level s; verbose_logs := verbose_logs s;
     model_name := model_name s; model_store_dir := model_store_dir s;
     require_local_model_store := require_local_model_store s;
     auto_download_model_store := v;
     model_force_download := model_force_download s;
     model_repo_id := model_repo_id s; model_filename := model_filename s;
     hf_token := hf_token s; startup_compat_check := startup_compat_check s;
     vllm_base_url := vllm_base_url s; vllm_api_key := vllm_api_key s;
     vllm_model_id := vllm_model_id s;
     vllm_timeout_seconds := vllm_timeout_seconds s;
     vllm_startup_timeout_seconds := vllm_startup_timeout_seconds s;
     vllm_host := vllm_host s; vllm_port := vllm_port s;
     vllm_dtype := vllm_dtype s; vllm_max_model_len := vllm_max_model_len s;
     vllm_tensor_parallel_size := vllm_tensor_parallel_size s;
     vllm_gpu_memory_utilization := vllm_gpu_memory_utilization s;
     vllm_trust_remote_code := vllm_trust_remote_code s;
     vllm_enforce_eager := vllm_enforce_eager s;
     vllm_disable_mm_preprocessor_cache := vllm_disable_mm_preprocessor_cache s;
     vllm_additional_args := vllm_additional_args s;
     temperature := temperature s; top_k := top_k s; top_p := top_p s;
     max_tokens := max_tokens s;
     inference_timeout_seconds := inference_timeout_seconds s;
     max_upload_megabytes := max_upload_megabytes s;
     ocr_prompt := ocr_prompt s |}.

Definition with_model_force_download {F : Type -> Type} (v : F bool) (s : SettingsOf F)
  : SettingsOf F :=
  {| app_name := app_name s; app_version := app_version s;
     log_level := log_level s; verbose_logs := verbose_logs s;
     model_name := model_name s; model_store_dir := model_store_dir s;
     require_local_model_store := require_local_model_store s;
     auto_download_model_store := auto_download_model_store s;
     model_force_download := v; model_repo_id := model_repo_id s;
     model_filename := model_filename s; hf_token := hf_token s;
     startup_compat_check := startup_compat_check s;
     vllm_base_url := vllm_base_url s; vllm_api_key := vllm_api_key s;
     vllm_model_id := vllm_model_id s;
     vllm_timeout_seconds := vllm_timeout_seconds s;
     vllm_startup_timeout_seconds := vllm_startup_timeout_seconds s;
     vllm_host := vllm_host s; vllm_port := vllm_port s;
     vllm_dtype := vllm_dtype s; vllm_max_model_len := vllm_max_model_len s;
     vllm_tensor_parallel_size := vllm_tensor_parallel_size s;
     vllm_gpu_memory_utilization := vllm_gpu_memory_utilization s;
     vllm_trust_remote_code := vllm_trust_remote_code s;
     vllm_enforce_eager := vllm_enforce_eager s;
     vllm_disable_mm_preprocessor_cache := vllm_disable_mm_preprocessor_cache s;
     vllm_additional_args := vllm_additional_args s;
     temperature := temperature s; top_k := top_k s; top_p := top_p s;
     max_tokens := max_tokens s;
     inference_timeout_seconds := inference_timeout_seconds s;
     max_upload_megabytes := max_upload_megabytes s;
     ocr_prompt := ocr_prompt s |}.

Definition with_model_repo_id {F : Type -> Type} (v : F string) (s : SettingsOf F)
  : SettingsOf F :=
  {| app_name := app_name s; app_version := app_version s;
     log_level := log_level s; verbose_logs := verbose_logs s;
     model_name := model_name s; model_store_dir := model_store_dir s;
     require_local_model_store := require_local_model_store s;
     auto_download_model_store := auto_download_model_store s;
     model_force_download := model_force_download s; model_repo_id := v;
     model_filename := model_filename s; hf_token := hf_token s;
     startup_compat_check := startup_compat_check s;
     vllm_base_url := vllm_base_url s; vllm_api_key := vllm_api_key s;
     vllm_model_id := vllm_model_id s;
     vllm_timeout_seconds := vllm_timeout_seconds s;
     vllm_startup_timeout_seconds := vllm_startup_timeout_seconds s;
     vllm_host := vllm_host s; vllm_port := vllm_port s;
     vllm_dtype := vllm_dtype s; vllm_max_model_len := vllm_max_model_len s;
     vllm_tensor_parallel_size := vllm_tensor_parallel_size s;
     vllm_gpu_memory_utilization := vllm_gpu_memory_utilization s;
     vllm_trust_remote_code := vllm_trust_remote_code s;
     vllm_enforce_eager := vllm_enforce_eager s;
     vllm_disable_mm_preprocessor_cache := vllm_disable_mm_preprocessor_cache s;
     vllm_additional_args := vllm_additional_args s;
     temperature := temperature s; top_k := top_k s; top_p := top_p s;
     max_tokens := max_tokens s;
     inference_timeout_seconds := inference_timeout_seconds s;
     max_upload_megabytes := max_upload_megabytes s;
     ocr_prompt := ocr_prompt s |}.

Definition with_vllm_timeout_seconds {F : Type -> Type} (v : F Z) (s : SettingsOf F)
  : SettingsOf F :=
  {| app_name := app_name s; app_version := app_version s;
     log_level := log_level s; verbose_logs := verbose_logs s;
     model_name := model_name s; model_store_dir := model_store_dir s;
     require_local_model_store := require_local_model_store s;
     auto_download_model_store := auto_download_model_store s;
     model_force_download := model_force_download s;
     model_repo_id := model_repo_id s; model_filename := model_filename s;
     hf_token := hf_token s; startup_compat_check := startup_compat_check s;
     vllm_base_url := vllm_base_url s; vllm_api_key := vllm_api_key s;
     vllm_model_id := vllm_model_id s; vllm_timeout_seconds := v;
     vllm_startup_timeout_seconds := vllm_startup_timeout_seconds s;
     vllm_host := vllm_host s; vllm_port := vllm_port s;
     vllm_dtype := vllm_dtype s; vllm_max_model_len := vllm_max_model_len s;
     vllm_tensor_parallel_size := vllm_tensor_parallel_size s;
     vllm_gpu_memory_utilization := vllm_gpu_memory_utilization s;
     vllm_trust_remote_code := vllm_trust_remote_code s;
     vllm_enforce_eager := vllm_enforce_eager s;
     vllm_disable_mm_preprocessor_cache := vllm_disable_mm_preprocessor_cache s;
     vllm_additional_args := vllm_additional_args s;
     temperature := temperature s; top_k := top_k s; top_p := top_p s;
     max_tokens := max_tokens s;
     inference_timeout_seconds := inference_timeout_seconds s;
     max_upload_megabytes := max_upload_megabytes s;
     ocr_prompt := ocr_prompt s |}.

Definition with_vllm_startup_timeout_seconds {F : Type -> Type} (v : F Z) (s : SettingsOf F)
  : SettingsOf F :=
  {| app_name := app_name s; app_version := app_version s;
     log_level := log_level s; verbose_logs := verbose_logs s;
     model_name := model_name s; model_store_dir := model_store_dir s;
     require_local_model_store := require_local_model_store s;
     auto_download_model_store := auto_download_model_store s;
     model_force_download := model_force_download s;
     model_repo_id := model_repo_id s; model_filename := model_filename s;
     hf_token := hf_token s; startup_compat_check := startup_compat_check s;
     vllm_base_url := vllm_base_url s; vllm_api_key := vllm_api_key s;
     vllm_model_id := vllm_model_id s;
     vllm_timeout_seconds := vllm_timeout_seconds s;
     vllm_startup_timeout_seconds := v; vllm_host := vllm_host s;
     vllm_port := vllm_port s; vllm_dtype := vllm_dtype s;
     vllm_max_model_len := vllm_max_model_len s;
     vllm_tensor_parallel_size := vllm_tensor_parallel_size s;
     vllm_gpu_memory_utilization := vllm_gpu_memory_utilization s;
     vllm_trust_remote_code := vllm_trust_remote_code s;
     vllm_enforce_eager := vllm_enforce_eager s;
     vllm_disable_mm_preprocessor_cache := vllm_disable_mm_preprocessor_cache s;
     vllm_additional_args := vllm_additional_args s;
     temperature := temperature s; top_k := top_k s; top_p := top_p s;
     max_tokens := max_tokens s;
     inference_timeout_seconds := inference_timeout_seconds s;
     max_upload_megabytes := max_upload_megabytes s;
     ocr_prompt := ocr_prompt s |}.

Definition with_vllm_port {F : Type -> Type} (v : F Z) (s : SettingsOf F)
  : SettingsOf F :=
  {| app_name := app_name s; app_version := app_version s;
     log_level := log_level s; verbose_logs := verbose_logs s;
     model_name := model_name s; model_store_dir := model_store_dir s;
     require_local_model_store := require_local_model_store s;
     auto_download_model_store := auto_download_model_store s;
     model_force_download := model_force_download s;
     model_repo_id := model_repo_id s; model_filename := model_filename s;
     hf_token := hf_token s; startup_compat_check := startup_compat_check s;
     vllm_base_url := vllm_base_url s; vllm_api_key := vllm_api_key s;
     vllm_model_id := vllm_model_id s;
     vllm_timeout_seconds := vllm_timeout_seconds s;
     vllm_startup_timeout_seconds := vllm_startup_timeout_seconds s;
     vllm_host := vllm_host s; vllm_port := v; vllm_dtype := vllm_dtype s;
     vllm_max_model_len := vllm_max_model_len s;
     vllm_tensor_parallel_size := vllm_tensor_parallel_size s;
     vllm_gpu_memory_utilization := vllm_gpu_memory_utilization s;
     vllm_trust_remote_code := vllm_trust_remote_code s;
     vllm_enforce_eager := vllm_enforce_eager s;
     vllm_disable_mm_preprocessor_cache := vllm_disable_mm_preprocessor_cache s;
     vllm_additional_args := vllm_additional_args s;
     temperature := temperature s; top_k := top_k s; top_p := top_p s;
     max_tokens := max_tokens s;
     inference_timeout_seconds := inference_timeout_seconds s;
     max_upload_megabytes := max_upload_megabytes s;
     ocr_prompt := ocr_prompt s |}.

Definition with_inference_timeout_seconds {F : Type -> Type} (v : F Z) (s : SettingsOf F)
  : SettingsOf F :=
  {| app_name := app_name s; app_version := app_version s;
     log_level := log_level s; verbose_logs := verbose_logs s;
     model_name := model_name s; model_store_dir := model_store_dir s;
     require_local_model_store := require_local_model_store s;
     auto_download_model_store := auto_download_model_store s;
     model_force_download := model_force_download s;
     model_repo_id := model_repo_id s; model_filename := model_filename s;
     hf_token := hf_token s; startup_compat_check := startup_compat_check s;
     vllm_base_url := vllm_base_url s; vllm_api_key := vllm_api_key s;
     vllm_model_id := vllm_model_id s;
     vllm_timeout_seconds := vllm_timeout_seconds s;
     vllm_startup_timeout_seconds := vllm_startup_timeout_seconds s;
     vllm_host := vllm_host s; vllm_port := vllm_port s;
     vllm_dtype := vllm_dtype s; vllm_max_model_len := vllm_max_model_len s;
     vllm_tensor_parallel_size := vllm_tensor_parallel_size s;
     vllm_gpu_memory_utilization := vllm_gpu_memory_utilization s;
     vllm_trust_remote_code := vllm_trust_remote_code s;
     vllm_enforce_eager := vllm_enforce_eager s;
     vllm_disable_mm_preprocessor_cache := vllm_disable_mm_preprocessor_cache s;
     vllm_additional_args := vllm_additional_args s;
     temperature := temperature s; top_k := top_k s; top_p := top_p s;
     max_tokens := max_tokens s; inference_timeout_seconds := v;
     max_upload_megabytes := max_upload_megabytes s;
     ocr_prompt := ocr_prompt s |}.

Definition with_max_upload_megabytes {F : Type -> Type} (v : F Z) (s : SettingsOf F)
  : SettingsOf F :=
  {| app_name := app_name s; app_version := app_version s;
     log_level := log_level s; verbose_logs := verbose_logs s;
     model_name := model_name s; model_store_dir := model_store_dir s;
     require_local_model_store := require_local_model_store s;
     auto_download_model_store := auto_download_model_store s;
     model_force_download := model_force_download s;
     model_repo_id := model_repo_id s; model_filename := model_filename s;
     hf_token := hf_token s; startup_compat_check := startup_compat_check s;
     vllm_base_url := vllm_base_url s; vllm_api_key := vllm_api_key s;
     vllm_model_id := vllm_model_id s;
     vllm_timeout_seconds := vllm_timeout_seconds s;
     vllm_startup_timeout_seconds := vllm_startup_timeout_seconds s;
     vllm_host := vllm_host s; vllm_port := vllm_port s;
     vllm_dtype := vllm_dtype s; vllm_max_model_len := vllm_max_model_len s;
     vllm_tensor_parallel_size := vllm_tensor_parallel_size s;
     vllm_gpu_memory_utilization := vllm_gpu_memory_utilization s;
     vllm_trust_remote_code := vllm_trust_remote_code s;
     vllm_enforce_eager := vllm_enforce_eager s;
     vllm_disable_mm_preprocessor_cache := vllm_disable_mm_preprocessor_cache s;
     vllm_additional_args := vllm_additional_args s;
     temperature := temperature s; top_k := top_k s; top_p := top_p s;
     max_tokens := max_tokens s;
     inference_timeout_seconds := inference_timeout_seconds s;
     max_upload_megabytes := v; ocr_prompt := ocr_prompt s |}.

Definition with_model_store_dir {F : Type -> Type} (v : F string) (s : SettingsOf F)
  : SettingsOf F :=
  {| app_name := app_name s; app_version := app_version s;
     log_level := log_level s; verbose_logs := verbose_logs s;
     model_name := model_name s; model_store_dir := v;
     require_local_model_store := require_local_model_store s;
     auto_download_model_store := auto_download_model_store s;
     model_force_download := model_force_download s;
     model_repo_id := model_repo_id s;
     model_filename := model_filename s; hf_token := hf_token s;
     startup_compat_check := startup_compat_check s;
     vllm_base_url := vllm_base_url s; vllm_api_key := vllm_api_key s;
     vllm_model_id := vllm_model_id s;
     vllm_timeout_seconds := vllm_timeout_seconds s;
     vllm_startup_timeout_seconds := vllm_startup_timeout_seconds s;
     vllm_host := vllm_host s; vllm_port := vllm_port s;
     vllm_dtype := vllm_dtype s; vllm_max_model_len := vllm_max_model_len s;
     vllm_tensor_parallel_size := vllm_tensor_parallel_size s;
     vllm_gpu_memory_utilization := vllm_gpu_memory_utilization s;
     vllm_trust_remote_code := vllm_trust_remote_code s;
     vllm_enforce_eager := vllm_enforce_eager s;
     vllm_disable_mm_preprocessor_cache := vllm_disable_mm_preprocessor_cache s;
     vllm_additional_args := vllm_additional_args s;
     temperature := temperature s; top_k := top_k s; top_p := top_p s;
     max_tokens := max_tokens s;
     inference_timeout_seconds := inference_timeout_seconds s;
     max_upload_megabytes := max_upload_megabytes s;
     ocr_prompt := ocr_prompt s |}.

Definition with_hf_token {F : Type -> Type} (v : F (option string)) (s : SettingsOf F)
  : SettingsOf F :=
  {| app_name := app_name s; app_version := app_version s;
     log_level := log_level s; verbose_logs := verbose_logs s;
     model_name := model_name s; model_store_dir := model_store_dir s;
     require_local_model_store := require_local_model_store s;
     auto_download_model_store := auto_download_model_store s;
     model_force_download := model_force_download s;
     model_repo_id := model_repo_id s;
     model_filename := model_filename s; hf_token := v;
     startup_compat_check := startup_compat_check s;
     vllm_base_url := vllm_base_url s; vllm_api_key := vllm_api_key s;
     vllm_model_id := vllm_model_id s;
     vllm_timeout_seconds := vllm_timeout_seconds s;
     vllm_startup_timeout_seconds := vllm_startup_timeout_seconds s;
     vllm_host := vllm_host s; vllm_port := vllm_port s;
     vllm_dtype := vllm_dtype s; vllm_max_model_len := vllm_max_model_len s;
     vllm_tensor_parallel_size := vllm_tensor_parallel_size s;
     vllm_gpu_memory_utilization := vllm_gpu_memory_utilization s;
     vllm_trust_remote_code := vllm_trust_remote_code s;
     vllm_enforce_eager := vllm_enforce_eager s;
     vllm_disable_mm_preprocessor_cache := vllm_disable_mm_preprocessor_cache s;
     vllm_additional_args := vllm_additional_args s;
     temperature := temperature s; top_k := top_k s; top_p := top_p s;
     max_tokens := max_tokens s;
     inference_timeout_seconds := inference_timeout_seconds s;
     max_upload_megabytes := max_upload_megabytes s;
     ocr_prompt := ocr_prompt s |}.

Definition with_model_filename {F : Type -> Type} (v : F (option string)) (s : SettingsOf F)
  : SettingsOf F :=
  {| app_name := app_name s; app_version := app_version s;
     log_level := log_level s; verbose_logs := verbose_logs s;
     model_name := model_name s; model_store_dir := model_store_dir s;
     require_local_model_store := require_local_model_store s;
     auto_download_model_store := auto_download_model_store s;
     model_force_download := model_force_download s;
     model_repo_id := model_repo_id s;
     model_filename := v; hf_token := hf_token s;
     startup_compat_check := startup_compat_check s;
     vllm_base_url := vllm_base_url s; vllm_api_key := vllm_api_key s;
     vllm_model_id := vllm_model_id s;
     vllm_timeout_seconds := vllm_timeout_seconds s;
     vllm_startup_timeout_seconds := vllm_startup_timeout_seconds s;
     vllm_host := vllm_host s; vllm_port := vllm_port s;
     vllm_dtype := vllm_dtype s; vllm_max_model_len := vllm_max_model_len s;
     vllm_tensor_parallel_size := vllm_tensor_parallel_size s;
     vllm_gpu_memory_utilization := vllm_gpu_memory_utilization s;
     vllm_trust_remote_code := vllm_trust_remote_code s;
     vllm_enforce_eager := vllm_enforce_eager s;
     vllm_disable_mm_preprocessor_cache := vllm_disable_mm_preprocessor_cache s;
     vllm_additional_args := vllm_additional_args s;
     temperature := temperature s; top_k := top_k s; top_p := top_p s;
     max_tokens := max_tokens s;
     inference_timeout_seconds := inference_timeout_seconds s;
     max_upload_megabytes := max_upload_megabytes s;
     ocr_prompt := ocr_prompt s |}.

Definition with_vllm_additional_args {F : Type -> Type} (v : F (option string)) (s : SettingsOf F)
  : SettingsOf F :=
  {| app_name := app_name s; app_version := app_version s;
     log_level := log_level s; verbose_logs := verbose_logs s;
     model_name := model_name s; model_store_dir := model_store_dir s;
     require_local_model_store := require_local_model_store s;
     auto_download_model_store := auto_download_model_store s;
     model_force_download := model_force_download s;
     model_repo_id := model_repo_id s;
     model_filename := model_filename s; hf_token := hf_token s;
     startup_compat_check := startup_compat_check s;
     vllm_base_url := vllm_base_url s; vllm_api_key := vllm_api_key s;
     vllm_model_id := vllm_model_id s;
     vllm_timeout_seconds := vllm_timeout_seconds s;
     vllm_startup_timeout_seconds := vllm_startup_timeout_seconds s;
     vllm_host := vllm_host s; vllm_port := vllm_port s;
     vllm_dtype := vllm_dtype s; vllm_max_model_len := vllm_max_model_len s;
     vllm_tensor_parallel_size := vllm_tensor_parallel_size s;
     vllm_gpu_memory_utilization := vllm_gpu_memory_utilization s;
     vllm_trust_remote_code := vllm_trust_remote_code s;
     vllm_enforce_eager := vllm_enforce_eager s;
     vllm_disable_mm_preprocessor_cache := vllm_disable_mm_preprocessor_cache s;
     vllm_additional_args := v;
     temperature := temperature s; top_k := top_k s; top_p := top_p s;
     max_tokens := max_tokens s;
     inference_timeout_seconds := inference_timeout_seconds s;
     max_upload_megabytes := max_upload_megabytes s;
     ocr_prompt := ocr_prompt s |}.

Definition DISPLAY_MODEL_NAME : string := "Sharifsetup-OCR".

(** One entry of pydantic's [ValidationError]: the field and the message
    of the [ValueError] its validator raised. *)
Definition field_error : Type := string * string.

(** *** Field validators *)

Definition validate_log_level (value : string) : outcome string string :=
  let level := PyStr.strip (PyStr.upper value) in
  let valid := ["CRITICAL"; "ERROR"; "WARNING"; "INFO"; "DEBUG"] in
  if negb (PyStr.mem level valid)
  then Raises "log_level must be one of ['CRITICAL', 'DEBUG', 'ERROR', 'INFO', 'WARNING']"
  else Returns level.

Definition enforce_display_name (value : string) : outcome string string :=
  let normalized := PyStr.strip value in
  if negb (String.eqb normalized DISPLAY_MODEL_NAME)
  then Raises ("Display name must be '" ++ DISPLAY_MODEL_NAME ++ "'.")
  else Returns normalized.

Definition normalize_model_filename (value : option string)
  : outcome string (option string) :=
  match value with
  | None => Returns None
  | Some v =>
      let normalized := PyStr.strip v in
      if String.eqb normalized "" then Returns None
      else Returns (Some normalized)
  end.

Definition normalize_vllm_base_url (value : string) : outcome string string :=
  let normalized := PyStr.rstrip_slash (PyStr.strip value) in
  if String.eqb normalized "" then Raises "vllm base_url must not be empty"
  else Returns normalized.

Definition validate_vllm_port (value : Z) : outcome string Z :=
  if (value <? 1) || (value >? 65535)
  then Raises "vllm_port must be between 1 and 65535"
  else Returns value.

Definition validate_vllm_dtype (value : string) : outcome string string :=
  let normalized := PyStr.lower (PyStr.strip value) in
  let valid := ["auto"; "half"; "float16"; "bfloat16"; "float"; "float32"] in
  if negb (PyStr.mem normalized valid)
  then Raises "vllm_dtype must be one of: auto, bfloat16, float, float16, float32, half"
  else Returns normalized.

Definition validate_vllm_tensor_parallel_size (value : Z) : outcome string Z :=
  if value <? 1 then Raises "vllm_tensor_parallel_size must be >= 1"
  else Returns value.

Definition validate_vllm_gpu_memory_utilization (value : pyfloat)
  : outcome string pyfloat :=
  if PyFloat.le value (Fnum 0) || PyFloat.gt value (Fnum 1)
  then Raises "vllm_gpu_memory_utilization must be > 0 and <= 1"
  else Returns value.

Definition validate_top_k (value : Z) : outcome string Z :=
  if value <? 1 then Raises "top_k must be >= 1" else Returns value.

Definition validate_top_p (value : pyfloat) : outcome string pyfloat :=
  if PyFloat.le value (Fnum 0) || PyFloat.gt value (Fnum 1)
  then Raises "top_p must be > 0 and <= 1"
  else Returns value.

(** Truthiness of an optional string that is then stripped:
    [value and value.strip()]. *)
Definition stripped_nonempty (value : option string) : option string :=
  match value with
  | Some v => if String.eqb (PyStr.strip v) "" then None else Some (PyStr.strip v)
  | None => None
  end.

Section Platform.

(** What the process environment supplies. *)
Variable expanduser : string -> string.
  (* [str(Path(value).expanduser())] *)
Variable getenv_HF_TOKEN : option string.
  (* [os.getenv("HF_TOKEN")] *)
Variable DEFAULT_MODEL_STORE_DIR : string.
  (* [str(PROJECT_ROOT / "model_store")] *)
Variable GEMMA_3_4B_OCR_PROMPT : string.
  (* the instruction text, an opaque constant *)

Definition expand_model_store_dir (value : string) : outcome string string :=
  Returns (expanduser value).

Definition normalize_hf_token (value : option string)
  : outcome string (option string) :=
  match stripped_nonempty value with
  | Some v => Returns (Some v)
  | None =>
      match stripped_nonempty getenv_HF_TOKEN with
      | Some fallback => Returns (Some fallback)
      | None => Returns None
      end
  end.

(** A field with a validator: the validator runs on the value given or,
    where none is given, on the default ([BaseSettings] validates defaults);
    on failure the error is recorded. *)
Definition checked {A} (name : string) (default : A)
    (validator : A -> outcome string A) (given : option A)
  : list field_error * A :=
  let value := match given with Some x => x | None => default end in
  match validator value with
  | Returns y => ([], y)
  | Raises msg => ([(name, msg)], default)
  end.

(** A field without a validator. *)
Definition plain {A} (default : A) (given : option A) : list field_error * A :=
  ([], match given with Some x => x | None => default end).

(** The constructor [Settings]: every field is validated, the errors are collected in
    field order, and construction fails when there is any. *)
Definition Settings_init (kw : SettingsInput)
  : outcome (list field_error) Settings :=
  let f_app_name := checked "app_name" DISPLAY_MODEL_NAME enforce_display_name (app_name kw) in
  let f_app_version := plain "1.0.0" (app_version kw) in
  let f_log_level := checked "log_level" "INFO" validate_log_level (log_level kw) in
  let f_verbose_logs := plain false (verbose_logs kw) in
  let f_model_name := checked "model_name" DISPLAY_MODEL_NAME enforce_display_name (model_name kw) in
  let f_model_store_dir :=
    checked "model_store_dir" DEFAULT_MODEL_STORE_DIR expand_model_store_dir (model_store_dir kw) in
  let f_require_local := plain true (require_local_model_store kw) in
  let f_auto_download := plain false (auto_download_model_store kw) in
  let f_force_download := plain false (model_force_download kw) in
  let f_model_repo_id := plain "allenai/olmOCR-2-7B-1025-FP8" (model_repo_id kw) in
  let f_model_filename :=
    checked "model_filename" None normalize_model_filename (model_filename kw) in
  let f_hf_token := checked "hf_token" None normalize_hf_token (hf_token kw) in
  let f_startup_compat_check := plain true (startup_compat_check kw) in
  let f_vllm_base_url :=
    checked "vllm_base_url" "http://127.0.0.1:8001" normalize_vllm_base_url (vllm_base_url kw) in
  let f_vllm_api_key := plain "EMPTY" (vllm_api_key kw) in
  let f_vllm_model_id :=
    checked "vllm_model_id" DISPLAY_MODEL_NAME enforce_display_name (vllm_model_id kw) in
  let f_vllm_timeout := plain 120 (vllm_timeout_seconds kw) in
  let f_vllm_startup_timeout := plain 600 (vllm_startup_timeout_seconds kw) in
  let f_vllm_host := plain "0.0.0.0" (vllm_host kw) in
  let f_vllm_port := checked "vllm_port" 8001 validate_vllm_port (vllm_port kw) in
  let f_vllm_dtype := checked "vllm_dtype" "bfloat16" validate_vllm_dtype (vllm_dtype kw) in
  let f_vllm_max_model_len := plain 8192 (vllm_max_model_len kw) in
  let f_vllm_tp :=
    checked "vllm_tensor_parallel_size" 1 validate_vllm_tensor_parallel_size
      (vllm_tensor_parallel_size kw) in
  let f_vllm_gpu :=
    checked "vllm_gpu_memory_utilization" (Fnum (9 # 10))
      validate_vllm_gpu_memory_utilization (vllm_gpu_memory_utilization kw) in
  let f_trust_remote_code := plain false (vllm_trust_remote_code kw) in
  let f_enforce_eager := plain false (vllm_enforce_eager kw) in
  let f_disable_mm := plain false (vllm_disable_mm_preprocessor_cache kw) in
  let f_additional_args := plain None (vllm_additional_args kw) in
  let f_temperature := plain (Fnum 0) (temperature kw) in
  let f_top_k := checked "top_k" 1 validate_top_k (top_k kw) in
  let f_top_p := checked "top_p" (Fnum 1) validate_top_p (top_p kw) in
  let f_max_tokens := plain 4096 (max_tokens kw) in
  let f_inference_timeout := plain 90 (inference_timeout_seconds kw) in
  let f_max_upload := plain 15 (max_upload_megabytes kw) in
  let f_ocr_prompt := plain GEMMA_3_4B_OCR_PROMPT (ocr_prompt kw) in
  let errors :=
    (f_app_name.1 ++ f_app_version.1 ++ f_log_level.1 ++ f_verbose_logs.1
    ++ f_model_name.1 ++ f_model_store_dir.1 ++ f_require_local.1
    ++ f_auto_download.1 ++ f_force_download.1 ++ f_model_repo_id.1
    ++ f_model_filename.1 ++ f_hf_token.1 ++ f_startup_compat_check.1
    ++ f_vllm_base_url.1 ++ f_vllm_api_key.1 ++ f_vllm_model_id.1
    ++ f_vllm_timeout.1 ++ f_vllm_startup_timeout.1 ++ f_vllm_host.1
    ++ f_vllm_port.1 ++ f_vllm_dtype.1 ++ f_vllm_max_model_len.1
    ++ f_vllm_tp.1 ++ f_vllm_gpu.1 ++ f_trust_remote_code.1
    ++ f_enforce_eager.1 ++ f_disable_mm.1 ++ f_additional_args.1
    ++ f_temperature.1 ++ f_top_k.1 ++ f_top_p.1 ++ f_max_tokens.1
    ++ f_inference_timeout.1 ++ f_max_upload.1 ++ f_ocr_prompt.1)%list in
  match errors with
  | [] =>
      Returns
        {| app_name := f_app_name.2; app_version := f_app_version.2;
           log_level := f_log_level.2; verbose_logs := f_verbose_logs.2;
           model_name := f_model_name.2; model_store_dir := f_model_store_dir.2;
           require_local_model_store := f_require_local.2;
           auto_download_model_store := f_auto_download.2;
           model_force_download := f_force_download.2;
           model_repo_id := f_model_repo_id.2;
           model_filename := f_model_filename.2; hf_token := f_hf_token.2;
           startup_compat_check := f_startup_compat_check.2;
           vllm_base_url := f_vllm_base_url.2; vllm_api_key := f_vllm_api_key.2;
           vllm_model_id := f_vllm_model_id.2;
           vllm_timeout_seconds := f_vllm_timeout.2;
           vllm_startup_timeout_seconds := f_vllm_startup_timeout.2;
           vllm_host := f_vllm_host.2; vllm_port := f_vllm_port.2;
           vllm_dtype := f_vllm_dtype.2;
           vllm_max_model_len := f_vllm_max_model_len.2;
           vllm_tensor_parallel_size := f_vllm_tp.2;
           vllm_gpu_memory_utilization := f_vllm_gpu.2;
           vllm_trust_remote_code := f_trust_remote_code.2;
           vllm_enforce_eager := f_enforce_eager.2;
           vllm_disable_mm_preprocessor_cache := f_disable_mm.2;
           vllm_additional_args := f_additional_args.2;
           temperature := f_temperature.2; top_k := f_top_k.2;
           top_p := f_top_p.2; max_tokens := f_max_tokens.2;
           inference_timeout_seconds := f_inference_timeout.2;
           max_upload_megabytes := f_max_upload.2;
           ocr_prompt := f_ocr_prompt.2 |}
  | _ => Raises errors
  end.

(** [get_settings()]: the snapshot built from the values the process
    environment gives, [environ] below. *)
Definition get_settings (environ : SettingsInput)
  : outcome (list field_error) Settings :=
  Settings_init environ.

End Platform.

(** A value handed to the constructor lies outside the range its field's
    validator checks. *)
Inductive range_violation (kw : SettingsInput) : Prop :=
| port_out_of_range (p : Z) :
    vllm_port kw = Some p -> p < 1 \/ 65535 < p -> range_violation kw
| tensor_parallel_size_below_one (n : Z) :
    vllm_tensor_parallel_size kw = Some n -> n < 1 -> range_violation kw
| top_k_below_one (k : Z) :
    top_k kw = Some k -> k < 1 -> range_violation kw
| gpu_memory_utilization_out_of_range (x : pyfloat) :
    vllm_gpu_memory_utilization kw = Some x ->
    PyFloat.le x (Fnum 0) = true \/ PyFloat.gt x (Fnum 1) = true ->
    range_violation kw
| top_p_out_of_range (x : pyfloat) :
    top_p kw = Some x ->
    PyFloat.le x (Fnum 0) = true \/ PyFloat.gt x (Fnum 1) = true ->
    range_violation kw.

(** *** Properties of a snapshot *)

Definition effective_log_level (self : Settings) : string :=
  if verbose_logs self then "DEBUG" else "ERROR".

Definition resolved_vllm_model_id (self : Settings) : string :=
  vllm_model_id self.

Definition max_upload_bytes (self : Settings) : Z :=
  max_upload_megabytes self * 1024 * 1024.

End Config.

(** ** A file system of directories and regular files

    Paths are lists of components below the root.  The store maps the
    canonical path of every entry to its kind; an entry is reachable when
    all its proper prefixes are directories.  Symbolic links, time stamps
    and the platform's limits on the length of names are not modelled. *)

Module Fs.

Inductive kind : Type := KFile | KDir.

#[global] Instance kind_eq_dec : EqDecision kind.
Proof. solve_decision. Defined.

Abbreviation Path := (list string).
Abbreviation FS := (gmap (list string) kind).

(** The entry at a canonical path; the root is always a directory. *)
Definition node_at (fs : FS) (cur : Path) : option kind :=
  match cur with
  | [] => Some KDir
  | _ => fs !! cur
  end.

(** One component of a path lookup, from the directory [cur]. *)
Definition step (cur : Path) (c : string) : Path :=
  if String.eqb c "" || String.eqb c "." then cur
  else if String.eqb c ".." then removelast cur
  else cur ++ [c].

(** Path resolution as the kernel does it: every component is followed from
    a directory.  The result is the canonical path named, which may be
    absent from the store. *)
Fixpoint walk (fs : FS) (cur : Path) (comps : list string) : option Path :=
  match comps with
  | [] => Some cur
  | c :: rest =>
      match node_at fs cur with
      | Some KDir => walk fs (step cur c) rest
      | _ => None
      end
  end.

Definition stat (fs : FS) (p : Path) : option kind :=
  match walk fs [] p with
  | Some q => node_at fs q
  | None => None
  end.

(** [p.exists()], [p.is_dir()], [p.is_file()] *)
Definition exists_ (fs : FS) (p : Path) : bool :=
  match stat fs p with Some _ => true | None => false end.

Definition is_dir (fs : FS) (p : Path) : bool :=
  match stat fs p with Some KDir => true | _ => false end.

Definition is_file (fs : FS) (p : Path) : bool :=
  match stat fs p with Some KFile => true | _ => false end.

(** [str(p)] of an absolute path *)
Definition path_str (p : Path) : string := "/" ++ PyStr.join "/" p.

(** The components of a path written as a string. *)
Definition parts (s : string) : list string :=
  List.filter (fun c => negb (String.eqb c "" || String.eqb c "."))
    (PyStr.split_char "/" s).

Definition is_absolute (s : string) : bool :=
  match s with
  | String c _ => Ascii.eqb c "/"
  | EmptyString => false
  end.

(** [p / s] *)
Definition joinpath (p : Path) (s : string) : Path :=
  if is_absolute s then parts s else p ++ parts s.

(** [p.resolve()] of an absolute path: [..] is dropped with the component
    before it. *)
Definition resolve_lexical (p : Path) : Path := fold_left step p [].

Fixpoint is_prefix (d k : Path) : bool :=
  match d, k with
  | [], _ => true
  | x :: d', y :: k' => String.eqb x y && is_prefix d' k'
  | _ :: _, [] => false
  end.

(** The reachable entries strictly below the directory [dir], as paths
    relative to it. *)
Definition descendants (fs : FS) (dir : Path) : list Path :=
  match walk fs [] dir with
  | None => []
  | Some d =>
      omap (fun k =>
              if is_prefix d k && (length d <? length k)%nat
                 && bool_decide (walk fs [] k = Some k)
              then Some (drop (length d) k) else None)
           (elements (dom fs))
  end.

(** Order of paths: component by component. *)
Fixpoint path_leb (p q : Path) : bool :=
  match p, q with
  | [], _ => true
  | _ :: _, [] => false
  | x :: p', y :: q' =>
      match String.compare x y with
      | Lt => true
      | Gt => false
      | Eq => path_leb p' q'
      end
  end.

Fixpoint insert_sorted (p : Path) (l : list Path) : list Path :=
  match l with
  | [] => [p]
  | q :: l' => if path_leb p q then p :: l else q :: insert_sorted p l'
  end.

(** [sorted(paths)] *)
Definition sorted (l : list Path) : list Path := foldr insert_sorted [] l.

(** Outcome of [target.mkdir(parents=True, exist_ok=True)] at one level
    [cur] of the way to [target]: an existing directory is kept, a file in
    the way is an error of the [os.mkdir(target)] tried first, which names
    [target], and a missing directory is created unless the location refuses
    writes. *)
Definition ensure_dir (denied : Path -> bool) (target : Path) (last : bool)
    (fs : FS) (cur : Path) : outcome (string * Path) unit * FS :=
  match node_at fs cur with
  | Some KDir => (Returns tt, fs)
  | Some KFile =>
      (Raises (if last then "FileExistsError" else "NotADirectoryError", target),
       fs)
  | None =>
      if denied cur then (Raises ("PermissionError", cur), fs)
      else (Returns tt, <[cur := KDir]> fs)
  end.

Fixpoint mkdir_from (denied : Path -> bool) (target : Path) (fs : FS)
    (cur : Path) (comps : list string) : outcome (string * Path) unit * FS :=
  match comps with
  | [] => ensure_dir denied target true fs cur
  | c :: rest =>
      match ensure_dir denied target false fs cur with
      | (Returns _, fs') => mkdir_from denied target fs' (step cur c) rest
      | failed => failed
      end
  end.

(** [p.mkdir(parents=True, exist_ok=True)] *)
Definition mkdir_p (denied : Path -> bool) (fs : FS) (p : Path)
  : outcome (string * Path) unit * FS :=
  mkdir_from denied p fs [] p.

(** [p.touch(exist_ok=True)]: the entry is created as an empty file when it
    is missing; an [OSError] when its directory is missing or the location
    refuses writes. *)
Definition touch (denied : Path -> bool) (fs : FS) (p : Path)
  : outcome (string * Path) unit * FS :=
  match walk fs [] p with
  | None => (Raises ("FileNotFoundError", p), fs)
  | Some q =>
      if denied q then (Raises ("PermissionError", q), fs)
      else match node_at fs q with
           | Some _ => (Returns tt, fs)
           | None => (Returns tt, <[q := KFile]> fs)
           end
  end.

End Fs.

(** ** Model artifact lifecycle ([app/model_store.py]) *)

Module ModelStore.

Import Config Fs.

(** Values of the keyword arguments handed to [snapshot_download]. *)
Inductive pyval : Type :=
| VNone
| VStr (s : string)
| VBool (b : bool)
| VList (l : list string).

Abbreviation kwargs := (list (string * pyval)).

#[warnings="-register-all"]
Inductive exn : Type :=
| OSError (class_name : string) (p : Path)
| ImportError (module_name : string)
| HubError (description : string)
| NotImplementedError (msg : string)
| ValueError (msg : string)
| RuntimeError (msg : string) (cause : option exn).

(** The registry client, when it can be imported: the parameter names of
    [snapshot_download] and what a fetch does to the file system.  A fetch
    may depend on how many fetches came before it. *)
Record Hub : Type := {
  snapshot_download_params : list string;
  snapshot_download : nat -> kwargs -> FS -> outcome string unit * FS
}.

Inductive event : Type :=
| EvMkdir (p : Path)
| EvTouch (p : Path)
| EvSnapshotDownload (kw : kwargs)
| EvLog (level msg : string).

(** The world [ensure_model_store] runs in: the file system, the locations
    that refuse writes (a read-only mount, missing permissions), the
    registry client when [huggingface_hub] can be imported, and what has
    happened.  Only [fs] and [trace] change; the newest event is first. *)
Record World : Type := {
  fs : FS;
  denied : Path -> bool;
  hub : option Hub;
  trace : list event
}.

Definition set_fs (f : FS) (w : World) : World :=
  {| fs := f; denied := denied w; hub := hub w; trace := trace w |}.

Definition emit (e : event) : M World exn unit :=
  modify (fun w =>
    {| fs := fs w; denied := denied w; hub := hub w; trace := e :: trace w |}).

Definition is_fetch (e : event) : bool :=
  match e with EvSnapshotDownload _ => true | _ => false end.

(** Number of network fetches recorded in a trace. *)
Definition fetches (t : list event) : nat := length (List.filter is_fetch t).

(** The events a run from [w] to [w'] added to the trace. *)
Definition new_events (w w' : World) : list event :=
  take (length (trace w') - length (trace w)) (trace w').

Definition logger (level msg : string) : M World exn unit :=
  emit (EvLog level msg).

(** A file-system call of [Fs] run on the world. *)
Definition fs_call (op : (Path -> bool) -> FS -> Path -> outcome (string * Path) unit * FS)
    (p : Path) : M World exn unit :=
  fun w =>
    match op (denied w) (fs w) p with
    | (Returns _, f) => (Returns tt, set_fs f w)
    | (Raises (cls, q), f) => (Raises (OSError cls q), set_fs f w)
    end.

(** A check that reads the file system, and may raise. *)
Definition reads {A} (check : FS -> outcome exn A) : M World exn A :=
  fun w => (check (fs w), w).

(** The outcome of a file-system call as the exception it raises. *)
Definition os_outcome (r : outcome (string * Path) unit) : outcome exn unit :=
  match r with
  | Returns _ => Returns tt
  | Raises (cls, q) => Raises (OSError cls q)
  end.

(** The events a download can add to the trace. *)
Definition download_event (e : event) : bool :=
  match e with
  | EvMkdir _ | EvSnapshotDownload _ => true
  | EvLog level _ => String.eqb level "INFO"
  | EvTouch _ => false
  end.

Definition mkdir (p : Path) : M World exn unit :=
  let* _ := emit (EvMkdir p) in fs_call mkdir_p p.

(** The world a [mkdir] leaves, whether it succeeds or not. *)
Definition after_mkdir (p : Path) (w : World) : World :=
  {| fs := (mkdir_p (denied w) (fs w) p).2; denied := denied w; hub := hub w;
     trace := EvMkdir p :: trace w |}.

Definition touch_file (p : Path) : M World exn unit :=
  let* _ := emit (EvTouch p) in fs_call touch p.

Section Platform.

(** [Path(s).expanduser().resolve()] for the process's home and working
    directory. *)
Variable resolve : string -> Path.

(** Whether the entry at a path relative to the searched directory matches
    an [rglob] pattern. *)
Variable glob_match : string -> Path -> bool.

Definition resolve_repo_dir (settings : Settings) : Path :=
  let model_store_dir := resolve (model_store_dir settings) in
  joinpath model_store_dir (PyStr.replace_char "/" "--" (model_repo_id settings)).

(** What [rglob] refuses before it looks at the directory: a pattern that is
    not relative, and one in which [**] is only part of a component (pathlib
    of CPython 3.11 and 3.12). *)
Definition rglob_pattern (pattern : string) : outcome exn unit :=
  if is_absolute pattern
  then Raises (NotImplementedError "Non-relative patterns are unsupported")
  else if existsb (fun part => PyStr.contains part "**"
                               && negb (String.eqb part "**"))
            (parts pattern)
  then Raises (ValueError
                 "Invalid pattern: '**' can only be an entire path component")
  else Returns tt.

(** The entries below the directory that match a pattern. *)
Definition selected (f : FS) (repo_dir : Path) (pattern : string) : list Path :=
  map (fun rel => (repo_dir ++ rel)%list)
      (List.filter (glob_match pattern) (descendants f repo_dir)).

(** [repo_dir.rglob(pattern)], consumed *)
Definition rglob (f : FS) (repo_dir : Path) (pattern : string)
  : outcome exn (list Path) :=
  match rglob_pattern pattern with
  | Returns _ => Returns (selected f repo_dir pattern)
  | Raises e => Raises e
  end.

(** [repo_dir.rglob("*")]: every entry below the directory. *)
Definition rglob_all (f : FS) (repo_dir : Path) : list Path :=
  map (fun rel => (repo_dir ++ rel)%list) (descendants f repo_dir).

Definition _find_model_file (f : FS) (repo_dir : Path)
    (filename_pattern : string) : outcome exn (option Path) :=
  if negb (exists_ f repo_dir) || negb (is_dir f repo_dir) then Returns None
  else
    let normalized := PyStr.strip filename_pattern in
    if String.eqb normalized "" then Returns None
    else
      let wildcard_chars := ["*"; "?"; "["]%char in
      let direct := resolve_lexical (joinpath repo_dir normalized) in
      if negb (existsb (fun char => PyStr.contains_char char normalized) wildcard_chars)
         && (exists_ f direct && is_file f direct)
      then Returns (Some direct)
      else
        match rglob f repo_dir normalized with
        | Raises e => Raises e
        | Returns entries =>
            let matches := sorted (List.filter (is_file f) entries) in
            match matches with
            | first :: _ => Returns (Some first)
            | [] => Returns None
            end
        end.

Definition _has_expected_artifacts (f : FS) (repo_dir : Path)
    (model_filename : option string) : outcome exn bool :=
  if negb (exists_ f repo_dir) || negb (is_dir f repo_dir) then Returns false
  else
    match model_filename with
    | Some name =>
        if negb (String.eqb name "")
        then match _find_model_file f repo_dir name with
             | Returns (Some _) => Returns true
             | Returns None => Returns false
             | Raises e => Raises e
             end
        else Returns (existsb (is_file f) (rglob_all f repo_dir))
    | None => Returns (existsb (is_file f) (rglob_all f repo_dir))
    end.

Definition _model_store_has_files (f : FS) (model_store_dir : Path) : bool :=
  if negb (exists_ f model_store_dir) || negb (is_dir f model_store_dir) then false
  else existsb (is_file f) (rglob_all f model_store_dir).

Definition _write_bootstrap_marker (model_store_dir : Path) : M World exn unit :=
  let marker := joinpath model_store_dir ".model_store_ready" in
  try_except (touch_file marker)
    (fun e =>
       match e with
       | OSError _ _ =>
           logger "WARNING" "Failed to update model_store bootstrap marker"
       | _ => raise e
       end).

Definition marker_warning : event :=
  EvLog "WARNING" "Failed to update model_store bootstrap marker".

(** The world [_write_bootstrap_marker] leaves. *)
Definition after_marker (model_store_dir : Path) (w : World) : World :=
  let marker := joinpath model_store_dir ".model_store_ready" in
  {| fs := (touch (denied w) (fs w) marker).2; denied := denied w; hub := hub w;
     trace :=
       match (touch (denied w) (fs w) marker).1 with
       | Returns _ => EvTouch marker :: trace w
       | Raises _ => marker_warning :: EvTouch marker :: trace w
       end |}.

Definition is_none (v : pyval) : bool :=
  match v with VNone => true | _ => false end.

Definition opt_str (o : option string) : pyval :=
  match o with Some s => VStr s | None => VNone end.

(** Truthiness of an optional string. *)
Definition truthy (o : option string) : bool :=
  match o with
  | Some s => negb (String.eqb s "")
  | None => false
  end.

(** The call of the registry client: the fetch is recorded, then changes
    the file system or raises. *)
Definition call_snapshot_download (h : Hub) (kw : kwargs) : M World exn unit :=
  fun w =>
    let n := fetches (trace w) in
    let w1 := {| fs := fs w; denied := denied w; hub := hub w;
                 trace := EvSnapshotDownload kw :: trace w |} in
    match snapshot_download h n kw (fs w) with
    | (Returns _, f) => (Returns tt, set_fs f w1)
    | (Raises description, f) => (Raises (HubError description), set_fs f w1)
    end.

(** The messages of the errors raised below. *)
Definition hub_required_message : string :=
  "huggingface-hub is required for first-run model download. "
  ++ "Install dependencies from requirements.txt.".

Definition download_failed_message (settings : Settings) (repo_dir : Path)
  : string :=
  "Failed to download model '" ++ model_repo_id settings
  ++ "' into '" ++ path_str repo_dir ++ "'. "
  ++ "Check Hugging Face connectivity and OCR_HF_TOKEN/HF_TOKEN for gated models.".

Definition artifacts_missing_message (repo_dir : Path) : string :=
  "Model artifacts are required but missing in '" ++ path_str repo_dir ++ "'. "
  ++ "Set OCR_AUTO_DOWNLOAD_MODEL_STORE=true for initial bootstrap, "
  ++ "or download the model to OCR_MODEL_STORE_DIR before startup.".

Definition artifacts_not_found_message (repo_dir : Path) : string :=
  "Model bootstrap finished but expected artifacts were not found under '"
  ++ path_str repo_dir ++ "'.".

(** The keyword arguments of the fetch, before and after the filter on the
    client's signature. *)
Definition download_kwargs (settings : Settings) (repo_dir : Path) : kwargs :=
  ([("repo_id", VStr (model_repo_id settings));
    ("local_dir", VStr (path_str repo_dir));
    ("token", opt_str (hf_token settings));
    ("force_download", VBool (model_force_download settings))]
   ++ (if truthy (model_filename settings)
       then [("allow_patterns",
              VList (match model_filename settings with
                     | Some name => [name]
                     | None => []
                     end))]
       else []))%list.

Definition filter_kwargs (params : list string) (kw : kwargs) : kwargs :=
  List.filter (fun '(key, value) => PyStr.mem key params && negb (is_none value)) kw.

Definition _download_model_snapshot (settings : Settings)
    (model_store_dir : Path) : M World exn unit :=
  let* imported := gets hub in
  match imported with
  | None =>
      raise (RuntimeError hub_required_message
               (Some (ImportError "huggingface_hub")))
  | Some h =>
      let* _ := mkdir model_store_dir in
      let repo_dir := resolve_repo_dir settings in
      let* _ := mkdir repo_dir in
      let* _ := logger "INFO" "Downloading model snapshot into model_store" in
      let kw := download_kwargs settings repo_dir in
      let params := snapshot_download_params h in
      let filtered_kwargs := filter_kwargs params kw in
      let* _ :=
        try_except (call_snapshot_download h filtered_kwargs)
          (fun e =>
             raise (RuntimeError (download_failed_message settings repo_dir)
                      (Some e))) in
      logger "INFO" "Model snapshot ready"
  end.

Definition ensure_model_store (settings : Settings)
  : M World exn (option string) :=
  let should_bootstrap :=
    require_local_model_store settings
    || auto_download_model_store settings
    || model_force_download settings in
  if negb should_bootstrap then ret None
  else
    let model_store_dir := resolve (Config.model_store_dir settings) in
    let* _ := mkdir model_store_dir in
    let repo_dir := resolve_repo_dir settings in
    let* has_expected :=
      reads (fun f => _has_expected_artifacts f repo_dir (model_filename settings)) in
    if has_expected && negb (model_force_download settings)
    then
      let* _ := _write_bootstrap_marker model_store_dir in
      ret (Some (path_str model_store_dir))
    else
      let should_download :=
        model_force_download settings || auto_download_model_store settings in
      if negb should_download
      then
        if require_local_model_store settings
        then raise (RuntimeError (artifacts_missing_message repo_dir) None)
        else ret None
      else
        let* _ := _download_model_snapshot settings model_store_dir in
        let* still_has :=
          reads (fun f => _has_expected_artifacts f repo_dir (model_filename settings)) in
        if negb still_has
        then raise (RuntimeError (artifacts_not_found_message repo_dir) None)
        else
          let* _ := _write_bootstrap_marker model_store_dir in
          ret (Some (path_str model_store_dir)).

(** Two calls in sequence, as a caller at startup would make them:
    [a = ensure_model_store(settings); b = ensure_model_store(settings)]. *)
Definition ensure_twice (settings : Settings)
  : M World exn (option string * option string) :=
  let* a := ensure_model_store settings in
  let* b := ensure_model_store settings in
  ret (a, b).

End Platform.

(** *** The validator kept for older start-up code *)

(** An object a caller may hand to [validate_model_store]: [None], a path
    (a [str] or a [Path], by its string), a snapshot, a [bool], or any other
    object, which is no path and has a truth value. *)
Inductive pyobj : Type :=
| PNone
| PPath (s : string)
| PSettings (settings : Settings)
| PBool (b : bool)
| PObject (truth : bool).

(** [bool(o)] *)
Definition bool_of (o : pyobj) : bool :=
  match o with
  | PNone => false
  | PPath s => negb (String.eqb s "")
  | PSettings _ => true
  | PBool b => b
  | PObject truth => truth
  end.

(** What [validate_model_store] can raise: the exceptions of the functions
    above, the [TypeError] of [Path(o)] for an object that is no path, and
    the validation error of [get_settings()]. *)
Inductive failure : Type :=
| Raised (e : exn)
| TypeError
| ValidationError (errors : list field_error).

(** A computation of this module, run where the failures above can occur. *)
Definition lift_exn {A} (m : M World exn A) : M World failure A :=
  fun w =>
    match m w with
    | (Returns a, w') => (Returns a, w')
    | (Raises e, w') => (Raises (Raised e), w')
    end.

Definition store_empty_message (resolved : Path) : string :=
  "Model store directory '" ++ path_str resolved ++ "' is empty. "
  ++ "Enable OCR_AUTO_DOWNLOAD_MODEL_STORE=true or place model artifacts before startup.".

Section Legacy.

Variable resolve : string -> Path.
Variable glob_match : string -> Path -> bool.

(** [str(Path(value).expanduser())] *)
Variable expanduser : string -> string.

(** [get_settings()] of [app.config]: the snapshot of the process, or the
    validation error of its construction. *)
Variable get_settings : outcome (list field_error) Settings.

Definition validate_model_store (model_store_dir : pyobj)
    (path : option string) (require_non_empty : option bool)
    (legacy_kwargs : gmap string pyobj) : M World failure string :=
  let '(model_store_dir, legacy_kwargs) :=
    match legacy_kwargs !! "settings", model_store_dir with
    | Some given, PNone => (given, delete "settings" legacy_kwargs)
    | _, _ => (model_store_dir, legacy_kwargs)
    end in
  let '(path, legacy_kwargs) :=
    match legacy_kwargs !! "model_store_path", path with
    | Some maybe_path, None =>
        (match maybe_path with PPath p => Some p | _ => None end,
         delete "model_store_path" legacy_kwargs)
    | _, _ => (path, legacy_kwargs)
    end in
  let allow_empty := default PNone (legacy_kwargs !! "allow_empty") in
  let legacy_kwargs := delete "allow_empty" legacy_kwargs in
  let require_non_empty :=
    match require_non_empty with
    | Some given => given
    | None =>
        match allow_empty with
        | PNone => true
        | _ => negb (bool_of allow_empty)
        end
    end in
  let configured_path : pyobj :=
    match path with
    | Some p => PPath p
    | None =>
        match model_store_dir with
        | PSettings _ => PNone
        | _ => model_store_dir
        end
    end in
  let* settings :=
    match model_store_dir with
    | PSettings settings => ret settings
    | _ =>
        match get_settings with
        | Returns settings => ret settings
        | Raises errors => raise (ValidationError errors)
        end
    end in
  let* settings :=
    match configured_path with
    | PNone => ret settings
    | PPath p =>
        ret (with_model_store_dir (F := fun T => T) (expanduser p) settings)
    | _ => raise TypeError
    end in
  let* _ :=
    if bool_decide (legacy_kwargs = ∅) then ret tt
    else lift_exn
           (logger "DEBUG" "Ignoring unrecognized validate_model_store kwargs") in
  let* ensured_path := lift_exn (ensure_model_store resolve glob_match settings) in
  let resolved := resolve (Config.model_store_dir settings) in
  let* _ := lift_exn (mkdir resolved) in
  match ensured_path with
  | Some ensured => ret ensured
  | None =>
      let* has_files := gets (fun w => _model_store_has_files (fs w) resolved) in
      if require_non_empty && negb has_files
      then raise (Raised (RuntimeError (store_empty_message resolved) None))
      else
        let* _ := lift_exn (_write_bootstrap_marker resolved) in
        ret (path_str resolved)
  end.

End Legacy.

End ModelStore.

(** ** Inference request pipeline ([main.py]) *)

Module Pipeline.

Import Config PrimFloat.

Inductive exn : Type :=
| APIError (status_code : Z) (error_code message : string)
| RequestValidationError (detail : string)
| AsyncioTimeoutError
| VLLMTimeoutError (detail : string)
| VLLMError (backend_status_code backend_latency_ms : option Z)
    (backend_error_class detail : option string)
| OtherException (class_name : string).

(** The multipart part bound to the [file] parameter. *)
Record UploadFile : Type := {
  content_type : option string;
  filename : option string;
  content : list byte
}.

Record Request : Type := {
  method : string;
  path : string;
  headers : list (string * string);
  upload : option UploadFile;
  client_host : option string
}.

(** The bodies of the responses: the two models of [app/schemas.py], the
    answer of the health check, and a body of the framework's own, which has
    no field for a request identifier. *)
Inductive body : Type :=
| OCRResponse (request_id model markdown : string) (processing_ms : Z)
| ErrorResponse (request_id error_code message : string)
| HealthStatus (status : string)
| PlainDetail (detail : string).

(** A response: of its headers, those the code sets. *)
Record Response : Type := {
  status_code : Z;
  response_headers : list (string * string);
  response_body : body
}.

(** How one call of the gateway's [run_ocr] behaves: the time it needs and
    how it ends. *)
Inductive completion : Type :=
| Done (text : string)
| Failed (e : exn).

Record Coroutine : Type := {
  duration : Q;
  result : completion
}.

Inductive event : Type :=
| EvFileRead
| EvFileClose
| EvRunOcr (image_data_url : string)
| EvLog (level msg request_id : string).

(** The world of one process: the generator behind [uuid4], the clock
    behind [time.perf_counter], the gateway, the state object of the request
    being served, and what has happened (newest first). *)
Record World : Type := {
  uuid4 : nat -> string;
  uuid_count : nat;
  perf_counter : nat -> float;
  clock_count : nat;
  run_ocr : string -> Coroutine;
  state_request_id : option string;
  trace : list event
}.

Definition str_uuid4 : M World exn string :=
  fun w =>
    (Returns (uuid4 w (uuid_count w)),
     {| uuid4 := uuid4 w; uuid_count := S (uuid_count w);
        perf_counter := perf_counter w; clock_count := clock_count w;
        run_ocr := run_ocr w; state_request_id := state_request_id w;
        trace := trace w |}).

Definition time_perf_counter : M World exn float :=
  fun w =>
    (Returns (perf_counter w (clock_count w)),
     {| uuid4 := uuid4 w; uuid_count := uuid_count w;
        perf_counter := perf_counter w; clock_count := S (clock_count w);
        run_ocr := run_ocr w; state_request_id := state_request_id w;
        trace := trace w |}).

Definition set_state_request_id (v : option string) : M World exn unit :=
  modify (fun w =>
    {| uuid4 := uuid4 w; uuid_count := uuid_count w;
       perf_counter := perf_counter w; clock_count := clock_count w;
       run_ocr := run_ocr w; state_request_id := v; trace := trace w |}).

Definition emit (e : event) : M World exn unit :=
  modify (fun w =>
    {| uuid4 := uuid4 w; uuid_count := uuid_count w;
       perf_counter := perf_counter w; clock_count := clock_count w;
       run_ocr := run_ocr w; state_request_id := state_request_id w;
       trace := e :: trace w |}).

Definition logger (level msg request_id : string) : M World exn unit :=
  emit (EvLog level msg request_id).

Definition lift {A} (r : outcome exn A) : M World exn A :=
  fun w => (r, w).

(** [int(x)] of a float: truncation towards zero.  The clock's readings are
    finite, and so are the durations computed from them; [int] of an
    infinity or of NaN, which raises, is not reached. *)
Definition int_of_float (x : float) : Z :=
  match FloatOps.Prim2SF x with
  | SpecFloat.S754_finite negative mantissa exponent =>
      let magnitude :=
        if 0 <=? exponent then Z.shiftl (Z.pos mantissa) exponent
        else Z.shiftr (Z.pos mantissa) (- exponent) in
      if negative then - magnitude else magnitude
  | _ => 0
  end.

(** [int((t1 - t0) * 1000)], in binary64 arithmetic. *)
Definition elapsed_ms (t0 t1 : float) : Z :=
  int_of_float ((t1 - t0) * 1000)%float.

(** [await file.read()], [await file.close()] *)
Definition file_read (file : UploadFile) : M World exn (list byte) :=
  let* _ := emit EvFileRead in ret (content file).

Definition file_close : M World exn unit := emit EvFileClose.

(** [await asyncio.wait_for(coroutine, timeout=timeout)]: the coroutine is
    cancelled, and [asyncio.TimeoutError] raised, when the timeout is not
    positive or the coroutine needs longer. *)
Definition wait_for (c : Coroutine) (timeout : Z) : M World exn string :=
  if timeout <=? 0 then raise AsyncioTimeoutError
  else if Qle_bool (duration c) (inject_Z timeout)
       then match result c with
            | Done text => ret text
            | Failed e => raise e
            end
       else raise AsyncioTimeoutError.

(** [vllm_client.run_ocr(image_data_url)]: the coroutine the gateway
    hands back. *)
Definition call_run_ocr (image_data_url : string) : M World exn Coroutine :=
  let* _ := emit (EvRunOcr image_data_url) in
  gets (fun w => run_ocr w image_data_url).

(** The value of a header; header names compare without case. *)
Fixpoint headers_find (hs : list (string * string)) (name : string)
  : option string :=
  match hs with
  | [] => None
  | (k, v) :: rest =>
      if String.eqb (PyStr.lower k) name then Some v
      else headers_find rest name
  end.

(** [headers.get(name, default)] *)
Definition headers_get (hs : list (string * string)) (name default : string)
  : string :=
  match headers_find hs name with
  | Some v => v
  | None => default
  end.

Definition set_header (r : Response) (name value : string) : Response :=
  {| status_code := status_code r;
     response_headers :=
       (name, value)
       :: List.filter (fun '(k, _) => negb (String.eqb (PyStr.lower k) name))
            (response_headers r);
     response_body := response_body r |}.

(** [str(x)] of an optional string *)
Definition str_opt (o : option string) : string :=
  match o with Some s => s | None => "None" end.

Section Service.

(** Of [app/image_processing.py], which the handler imports. *)
Variable ALLOWED_CONTENT_TYPES : list string.
Variable normalize_image_mime_type : string -> outcome exn string.
Variable to_data_url : list byte -> string -> outcome exn string.

(** Of the framework: [str(exc)] of the [RequestValidationError] it raises
    for a request to the OCR route without a file part, and what it answers
    by itself where no handler of the application is reached (not found,
    method not allowed, a redirect for a trailing slash, one of its
    documentation pages): the status and the text. *)
Variable str_validation_error : Request -> string.
Variable framework_answer : Request -> Z * string.

(** [file.content_type in ALLOWED_CONTENT_TYPES] *)
Definition allowed (ct : option string) : bool :=
  match ct with
  | Some t => PyStr.mem t ALLOWED_CONTENT_TYPES
  | None => false
  end.

Definition ocr (runtime_settings : Settings) (file : UploadFile)
  : M World exn body :=
  let* state := gets state_request_id in
  match state with
  | None => raise (OtherException "AttributeError")
  | Some request_id =>
      let* started := time_perf_counter in
      if negb (allowed (content_type file))
      then raise (APIError 415 "unsupported_media_type"
                    ("Unsupported file type: " ++ str_opt (content_type file)))
      else
        let* payload := file_read file in
        let* _ := file_close in
        match payload with
        | [] => raise (APIError 400 "empty_file" "Uploaded file is empty.")
        | _ :: _ =>
            if Z.of_nat (length payload) >? max_upload_bytes runtime_settings
            then raise (APIError 413 "file_too_large"
                          ("File exceeds "
                           ++ str_int (max_upload_megabytes runtime_settings)
                           ++ "MB limit."))
            else
              let* _ := logger "INFO" "OCR request accepted" request_id in
              let declared :=
                match content_type file with
                | Some t => if String.eqb t "" then "image/jpeg" else t
                | None => "image/jpeg"
                end in
              let* mime_type := lift (normalize_image_mime_type declared) in
              let* image_data_url := lift (to_data_url payload mime_type) in
              let* markdown :=
                try_except
                  (let* coroutine := call_run_ocr image_data_url in
                   wait_for coroutine (inference_timeout_seconds runtime_settings))
                  (fun exc =>
                     match exc with
                     | AsyncioTimeoutError | VLLMTimeoutError _ =>
                         let* _ := logger "ERROR" "vLLM inference timeout" request_id in
                         raise (APIError 408 "inference_timeout" "Inference timed out.")
                     | VLLMError _ _ _ _ =>
                         let* _ := logger "ERROR" "vLLM inference failure" request_id in
                         raise (APIError 503 "inference_failure" "Model inference failed.")
                     | _ =>
                         let* _ := logger "ERROR" "Unexpected inference failure" request_id in
                         raise (APIError 503 "inference_failure" "Model inference failed.")
                     end) in
              let markdown_output := PyStr.strip markdown in
              let* finished := time_perf_counter in
              ret (OCRResponse request_id (model_name runtime_settings)
                     markdown_output (elapsed_ms started finished))
        end
  end.

Definition healthz : M World exn body := ret (HealthStatus "ok").

Definition request_context_middleware (request : Request)
    (call_next : M World exn Response) : M World exn Response :=
  let* generated := str_uuid4 in
  let request_id := headers_get (headers request) "x-request-id" generated in
  let* _ := set_state_request_id (Some request_id) in
  let* start := time_perf_counter in
  let* response :=
    try_except call_next
      (fun e =>
         let* now := time_perf_counter in
         let* _ := logger "ERROR" "Request failed" request_id in
         raise e) in
  let* now := time_perf_counter in
  let response := set_header response "x-request-id" request_id in
  let* _ := logger "INFO" "Request completed" request_id in
  ret response.

(** [getattr(request.state, "request_id", str(uuid4()))]: the default is
    evaluated before the attribute is looked up. *)
Definition state_request_id_or_uuid : M World exn string :=
  let* generated := str_uuid4 in
  let* state := gets state_request_id in
  ret (match state with Some v => v | None => generated end).

Definition api_error_handler (status : Z) (error_code message : string)
  : M World exn Response :=
  let* request_id := state_request_id_or_uuid in
  let* _ := logger "ERROR" "API error" request_id in
  ret {| status_code := status; response_headers := [];
         response_body := ErrorResponse request_id error_code message |}.

Definition validation_error_handler (detail : string) : M World exn Response :=
  let* request_id := state_request_id_or_uuid in
  let* _ := logger "ERROR" "Validation error" request_id in
  ret {| status_code := 422; response_headers := [];
         response_body := ErrorResponse request_id "validation_error" detail |}.

Definition generic_error_handler (exc : exn) : M World exn Response :=
  let* request_id := state_request_id_or_uuid in
  let* _ := logger "ERROR" "Unhandled server error" request_id in
  ret {| status_code := 500; response_headers := [];
         response_body :=
           ErrorResponse request_id "internal_server_error" "Unexpected server error." |}.

(** *** The framework's dispatch

    The routes and handlers above are registered on a FastAPI application,
    which runs them in this order, outermost first: the handler registered
    for [Exception], the [http] middleware, the handlers registered for the
    other exception classes, the router. *)

Definition ok (b : body) : Response :=
  {| status_code := 200; response_headers := []; response_body := b |}.

Definition router (runtime_settings : Settings) (request : Request)
  : M World exn Response :=
  if String.eqb (path request) "/healthz" && String.eqb (method request) "GET"
  then let* b := healthz in ret (ok b)
  else if String.eqb (path request) "/api/v1/ocr"
          && String.eqb (method request) "POST"
  then match upload request with
       | None => raise (RequestValidationError (str_validation_error request))
       | Some file => let* b := ocr runtime_settings file in ret (ok b)
       end
  else ret {| status_code := (framework_answer request).1;
              response_headers := [];
              response_body := PlainDetail (framework_answer request).2 |}.

Definition exception_handlers (inner : M World exn Response)
  : M World exn Response :=
  try_except inner
    (fun e =>
       match e with
       | APIError status error_code message =>
           api_error_handler status error_code message
       | RequestValidationError detail => validation_error_handler detail
       | _ => raise e
       end).

Definition server_error_handler (inner : M World exn Response)
  : M World exn Response :=
  try_except inner generic_error_handler.

(** One request served by the application; the request's state object
    starts empty. *)
Definition app (runtime_settings : Settings) (request : Request)
  : M World exn Response :=
  let* _ := set_state_request_id None in
  server_error_handler
    (request_context_middleware request
       (exception_handlers (router runtime_settings request))).

End Service.

(** The events a run added to the trace. *)
Definition new_events (w w' : World) : list event :=
  take (length (trace w') - length (trace w)) (trace w').

(** The correlation id of a request that arrives in the world [w]: the
    value of its [x-request-id] header, or else the identifier the
    generator yields next. *)
Definition correlation_id (request : Request) (w : World) : string :=
  headers_get (headers request) "x-request-id" (uuid4 w (uuid_count w)).

(** The world in which the route of a request starts, once the middleware
    has drawn an identifier, recorded the correlation id and read the
    clock. *)
Definition entered (request : Request) (w : World) : World :=
  {| uuid4 := uuid4 w; uuid_count := S (uuid_count w);
     perf_counter := perf_counter w; clock_count := S (clock_count w);
     run_ocr := run_ocr w;
     state_request_id := Some (correlation_id request w);
     trace := trace w |}.

(** The request identifier a response body carries, when it has one. *)
Definition body_request_id (b : body) : option string :=
  match b with
  | OCRResponse request_id _ _ _ => Some request_id
  | ErrorResponse request_id _ _ => Some request_id
  | HealthStatus _ | PlainDetail _ => None
  end.

(** The error code of an error body. *)
Definition body_error_code (b : body) : option string :=
  match b with
  | ErrorResponse _ error_code _ => Some error_code
  | _ => None
  end.

Definition is_file_read (e : event) : bool :=
  match e with EvFileRead => true | _ => false end.

Definition is_run_ocr (e : event) : bool :=
  match e with EvRunOcr _ => true | _ => false end.

(** A run from [w] to [w'] that leaves the generator, the gateway and the
    request's state object as they are, and only adds to the trace. *)
Definition frame (w w' : World) : Prop :=
  uuid4 w' = uuid4 w /\ uuid_count w' = uuid_count w
  /\ run_ocr w' = run_ocr w
  /\ state_request_id w' = state_request_id w
  /\ exists added, trace w' = (added ++ trace w)%list.

Definition framed {A} (m : M World exn A) : Prop :=
  forall w, frame w (m w).2.

Definition is_log (e : event) : bool :=
  match e with EvLog _ _ _ => true | _ => false end.

(** The response the application sends for the outcome of a route, for a
    request with correlation id [id]. *)
Definition respond (id : string) (r : outcome exn Response) : Response :=
  match r with
  | Returns response => set_header response "x-request-id" id
  | Raises (APIError status error_code message) =>
      {| status_code := status; response_headers := [("x-request-id", id)];
         response_body := ErrorResponse id error_code message |}
  | Raises (RequestValidationError detail) =>
      {| status_code := 422; response_headers := [("x-request-id", id)];
         response_body := ErrorResponse id "validation_error" detail |}
  | Raises _ =>
      {| status_code := 500; response_headers := [];
         response_body :=
           ErrorResponse id "internal_server_error" "Unexpected server error." |}
  end.

(** The coroutine needs longer than the timeout allows. *)
Definition exceeds_timeout (c : Coroutine) (timeout : Z) : bool :=
  negb (Qle_bool (duration c) (inject_Z timeout)).

(** The route of a request that reaches the [ocr] handler. *)
Definition ocr_request (request : Request) (file : UploadFile) : Prop :=
  path request = "/api/v1/ocr" /\ method request = "POST"
  /\ upload request = Some file.

(** [file.content_type or "image/jpeg"] *)
Definition declared_type (file : UploadFile) : string :=
  match content_type file with
  | Some t => if String.eqb t "" then "image/jpeg" else t
  | None => "image/jpeg"
  end.


End Pipeline.

(** ** The launcher of the local backend ([app/vllm_local_server.py]) *)

Module VllmLocalServer.

Import Config Fs ModelStore.

(** [os.execvpe(file, args, env)]: the process image that takes over. *)
Record Exec : Type := {
  exec_file : string;
  exec_args : list string;
  exec_env : list (string * string)
}.

(** [env.setdefault(key, value)] *)
Definition setdefault (env : list (string * string)) (key value : string)
  : list (string * string) :=
  if existsb (fun '(k, _) => String.eqb k key) env then env
  else (env ++ [(key, value)])%list.

(** [env.get(key)] *)
Fixpoint env_get (env : list (string * string)) (key : string)
  : option string :=
  match env with
  | [] => None
  | (k, v) :: rest => if String.eqb k key then Some v else env_get rest key
  end.

Section Platform.

Variable resolve : string -> Path.
Variable glob_match : string -> Path -> bool.
Variable sys_executable : string.
Variable str_float : pyfloat -> string.
Variable shlex_split : string -> outcome string (list string).
  (* [shlex.split(s)], or the message of its [ValueError] *)
Variable os_environ : list (string * string).

Definition main (settings : Settings) : M World exn Exec :=
  let* _ := ensure_model_store resolve glob_match settings in
  let model_path := resolve_repo_dir resolve settings in
  let* present :=
    gets (fun w => exists_ (fs w) model_path && is_dir (fs w) model_path) in
  if negb present
  then raise (RuntimeError
                ("Local model directory does not exist for vLLM: '"
                 ++ path_str model_path ++ "'.")
                None)
  else
    let cmd : list string :=
      ([sys_executable; "-m"; "app.vllm_no_flash_entrypoint";
        "--host"; vllm_host settings;
        "--port"; str_int (vllm_port settings);
        "--model"; path_str model_path;
        "--served-model-name"; resolved_vllm_model_id settings;
        "--dtype"; vllm_dtype settings;
        "--max-model-len"; str_int (vllm_max_model_len settings);
        "--tensor-parallel-size"; str_int (vllm_tensor_parallel_size settings);
        "--gpu-memory-utilization";
        str_float (vllm_gpu_memory_utilization settings)]
       ++ (if vllm_trust_remote_code settings then ["--trust-remote-code"] else [])
       ++ (if vllm_enforce_eager settings then ["--enforce-eager"] else [])
       ++ (if vllm_disable_mm_preprocessor_cache settings
           then ["--disable-mm-preprocessor-cache"] else []))%list in
    let* cmd :=
      match vllm_additional_args settings with
      | Some args =>
          if String.eqb args "" then ret cmd
          else match shlex_split args with
               | Returns words => ret (cmd ++ words)%list
               | Raises msg => raise (ValueError msg)
               end
      | None => ret cmd
      end in
    let env :=
      match hf_token settings with
      | Some token =>
          if String.eqb token "" then os_environ
          else setdefault (setdefault os_environ "HF_TOKEN" token)
                 "HUGGING_FACE_HUB_TOKEN" token
      | None => os_environ
      end in
    ret {| exec_file := sys_executable; exec_args := cmd; exec_env := env |}.

End Platform.

End VllmLocalServer.

(** ** The bootstrap command ([app/bootstrap_model_store.py]) *)

Module BootstrapModelStore.

Import Config Fs ModelStore.

Section Platform.

Variable resolve : string -> Path.
Variable glob_match : string -> Path -> bool.

(** The settings the command runs with: [args_force] is its [--force]
    flag. *)
Definition bootstrap_settings (args_force : bool) (settings : Settings)
  : Settings :=
  with_require_local_model_store (F := fun T => T) true
    (with_auto_download_model_store (F := fun T => T) true
       (with_model_force_download (F := fun T => T) args_force settings)).

(** [main()]: what it prints when it gets that far. *)
Definition main (args_force : bool) (settings : Settings)
  : M World exn string :=
  let bootstrap_settings := bootstrap_settings args_force settings in
  let* _ := ensure_model_store resolve glob_match bootstrap_settings in
  let repo_dir := resolve_repo_dir resolve bootstrap_settings in
  let* _ := logger "INFO" "Model bootstrap completed" in
  ret (path_str repo_dir).

End Platform.

End BootstrapModelStore.

(** ** A concrete platform, used to run the definitions on inputs *)

Module Sample.

Import Config Fs.

(** *** Configuration *)

Definition expanduser (value : string) : string := value.

Definition init (kw : SettingsInput) : outcome (list field_error) Settings :=
  Settings_init expanduser None "/srv/ocr/model_store" "Transcribe the image." kw.

(** The snapshot of a process that sets no parameter. *)
Definition defaults : Settings :=
  {| app_name := "Sharifsetup-OCR"; app_version := "1.0.0"; log_level := "INFO";
     verbose_logs := false; model_name := "Sharifsetup-OCR";
     model_store_dir := "/srv/ocr/model_store";
     require_local_model_store := true; auto_download_model_store := false;
     model_force_download := false;
     model_repo_id := "allenai/olmOCR-2-7B-1025-FP8";
     model_filename := None; hf_token := None; startup_compat_check := true;
     vllm_base_url := "http://127.0.0.1:8001"; vllm_api_key := "EMPTY";
     vllm_model_id := "Sharifsetup-OCR"; vllm_timeout_seconds := 120;
     vllm_startup_timeout_seconds := 600; vllm_host := "0.0.0.0";
     vllm_port := 8001; vllm_dtype := "bfloat16"; vllm_max_model_len := 8192;
     vllm_tensor_parallel_size := 1;
     vllm_gpu_memory_utilization := Fnum (9 # 10);
     vllm_trust_remote_code := false; vllm_enforce_eager := false;
     vllm_disable_mm_preprocessor_cache := false;
     vllm_additional_args := None; temperature := Fnum 0; top_k := 1;
     top_p := Fnum 1; max_tokens := 4096; inference_timeout_seconds := 90;
     max_upload_megabytes := 15; ocr_prompt := "Transcribe the image." |}.

(** *** Model store *)

Definition resolve (s : string) : Path := resolve_lexical (parts s).

(** A pattern without wildcards matches the entries of that name. *)
Definition glob_match (pattern : string) (rel : Path) : bool :=
  match last rel with
  | Some name => String.eqb name pattern
  | None => false
  end.

Definition store_root : Path := ["srv"; "ocr"; "model_store"].
Definition repo_dir : Path :=
  ["srv"; "ocr"; "model_store"; "allenai--olmOCR-2-7B-1025-FP8"].

Fixpoint local_dir (kw : ModelStore.kwargs) : Path :=
  match kw with
  | [] => []
  | (key, value) :: rest =>
      if String.eqb key "local_dir"
      then match value with ModelStore.VStr d => parts d | _ => [] end
      else local_dir rest
  end.

Definition all_params : list string :=
  ["repo_id"; "local_dir"; "token"; "force_download"; "allow_patterns"].

(** A registry whose snapshot holds one weights file. *)
Definition hub_with_weights : ModelStore.Hub :=
  {| ModelStore.snapshot_download_params := all_params;
     ModelStore.snapshot_download := fun _ kw f =>
       (Returns tt, <[(local_dir kw ++ ["model.safetensors"])%list := KFile]> f) |}.

(** A registry whose snapshot holds nothing that is asked for. *)
Definition hub_with_nothing : ModelStore.Hub :=
  {| ModelStore.snapshot_download_params := all_params;
     ModelStore.snapshot_download := fun _ _ f => (Returns tt, f) |}.

Definition empty_disk : FS := ∅.

(** A store that already holds the artifacts. *)
Definition stocked_disk : FS :=
  <[(repo_dir ++ ["model.safetensors"])%list := KFile]>
    (<[repo_dir := KDir]>
       (<[store_root := KDir]>
          (<[["srv"; "ocr"] := KDir]> (<[["srv"] := KDir]> ∅)))).

Definition world (disk : FS) (read_only : bool) (h : option ModelStore.Hub)
  : ModelStore.World :=
  {| ModelStore.fs := disk; ModelStore.denied := fun _ => read_only;
     ModelStore.hub := h; ModelStore.trace := [] |}.

Definition ensure_model_store := ModelStore.ensure_model_store resolve glob_match.
Definition ensure_twice := ModelStore.ensure_twice resolve glob_match.

(** The defaults with first-run download switched on, and with a forced
    refresh. *)
Definition auto_settings : Settings :=
  with_auto_download_model_store (F := fun T => T) true defaults.

Definition force_settings : Settings :=
  with_model_force_download (F := fun T => T) true defaults.

(** An empty disk and a registry that has the weights. *)
Definition fresh : ModelStore.World :=
  world empty_disk false (Some hub_with_weights).

(** An empty disk and a registry without the artifacts. *)
Definition barren : ModelStore.World :=
  world empty_disk false (Some hub_with_nothing).

(** A disk that holds the artifacts already. *)
Definition stocked : ModelStore.World :=
  world stocked_disk false (Some hub_with_weights).

(** The same disk mounted read-only, without a registry client. *)
Definition stocked_read_only : ModelStore.World :=
  world stocked_disk true None.

(** *** Request pipeline *)

Definition ALLOWED_CONTENT_TYPES : list string :=
  ["image/jpeg"; "image/png"; "image/webp"].

Definition normalize_image_mime_type (mime : string)
  : outcome Pipeline.exn string := Returns mime.

Definition to_data_url (image_bytes : list byte) (mime_type : string)
  : outcome Pipeline.exn string :=
  Returns ("data:" ++ mime_type ++ ";base64,"
           ++ str_int (Z.of_nat (length image_bytes)) ++ "-bytes").

(** The framework: the text of its validation error, and its answer where
    no handler is reached. *)
Definition str_validation_error (request : Pipeline.Request) : string :=
  "[{'type': 'missing', 'loc': ('body', 'file'), 'msg': 'Field required', 'input': None}]".

Definition framework_answer (request : Pipeline.Request) : Z * string :=
  if PyStr.mem (Pipeline.path request)
       ["/docs"; "/redoc"; "/openapi.json"; "/docs/oauth2-redirect"]
  then if PyStr.mem (Pipeline.method request) ["GET"; "HEAD"]
       then (200, "documentation")
       else (405, "Method Not Allowed")
  else if PyStr.mem (Pipeline.path request) ["/healthz"; "/api/v1/ocr"]
  then (405, "Method Not Allowed")
  else (404, "Not Found").

Definition app :=
  Pipeline.app ALLOWED_CONTENT_TYPES normalize_image_mime_type to_data_url
    str_validation_error framework_answer.

(** A gateway that answers after [seconds]. *)
Definition gateway (seconds : Z) (text : string) : string -> Pipeline.Coroutine :=
  fun _ => {| Pipeline.duration := inject_Z seconds; Pipeline.result := Pipeline.Done text |}.

Definition process (backend : string -> Pipeline.Coroutine) : Pipeline.World :=
  {| Pipeline.uuid4 := fun n => "generated-" ++ str_int (Z.of_nat n);
     Pipeline.uuid_count := 0;
     Pipeline.perf_counter := fun n => PrimFloat.of_uint63 (Uint63.of_Z (Z.of_nat n));
     Pipeline.clock_count := 0;
     Pipeline.run_ocr := backend;
     Pipeline.state_request_id := None;
     Pipeline.trace := [] |}.

(** A body of 20 MB. *)
Definition twenty_megabytes : list byte := replicate (Z.to_nat 20971520) x00.

Definition post_ocr (hs : list (string * string)) (ct : option string)
    (payload : list byte) : Pipeline.Request :=
  {| Pipeline.method := "POST"; Pipeline.path := "/api/v1/ocr";
     Pipeline.headers := hs;
     Pipeline.upload :=
       Some {| Pipeline.content_type := ct; Pipeline.filename := Some "scan";
               Pipeline.content := payload |};
     Pipeline.client_host := Some "203.0.113.7" |}.

(** A gateway whose call fails at once with [e]. *)
Definition failing_gateway (e : Pipeline.exn) : string -> Pipeline.Coroutine :=
  fun _ => {| Pipeline.duration := 0; Pipeline.result := Pipeline.Failed e |}.

(** An upload helper that cannot encode the image. *)
Definition broken_to_data_url (image_bytes : list byte) (mime_type : string)
  : outcome Pipeline.exn string :=
  Raises (Pipeline.OtherException "ValueError").

(** *** Older start-up code, the launcher and the bootstrap command *)

(** The defaults with every bootstrap switch off. *)
Definition offline_settings : Settings :=
  with_require_local_model_store (F := fun T => T) false defaults.

Definition validate_model_store :=
  ModelStore.validate_model_store resolve glob_match expanduser (Returns defaults).

(** The defaults with a registry token. *)
Definition token_settings : Settings :=
  with_hf_token (F := fun T => T) (Some "from-settings") defaults.

(** The launcher in a process that inherits a registry token. *)
Definition inherited_environ : list (string * string) :=
  [("PATH", "/usr/bin"); ("HF_TOKEN", "inherited")].

(** [shlex.split]: words are separated by white space; a single quote
    keeps everything up to the next one, a double quote too, but for a
    backslash before a double quote or a backslash; elsewhere a backslash
    keeps the character after it. *)
Inductive shlex_state : Type :=
| InSpace
| InWord
| InQuote (quote : ascii)
| InEscape (escapedstate : option ascii).

Fixpoint read_tokens (state : shlex_state) (token : string) (quoted : bool)
    (tokens : list string) (instream : string)
  : outcome string (list string) :=
  match instream with
  | EmptyString =>
      match state with
      | InSpace => Returns (rev tokens)
      | InWord =>
          Returns (rev (if negb (String.eqb token "") || quoted
                        then token :: tokens else tokens))
      | InQuote _ => Raises "No closing quotation"
      | InEscape _ => Raises "No escaped character"
      end
  | String nextchar rest =>
      let is_quote := Ascii.eqb nextchar "034" || Ascii.eqb nextchar "039" in
      let is_escape := Ascii.eqb nextchar "092" in
      let is_whitespace :=
        existsb (Ascii.eqb nextchar) [" "; "009"; "013"; "010"]%char in
      match state with
      | InSpace =>
          if is_whitespace then read_tokens InSpace "" false tokens rest
          else if is_escape then read_tokens (InEscape None) "" false tokens rest
          else if is_quote then read_tokens (InQuote nextchar) "" true tokens rest
          else read_tokens InWord (String nextchar "") false tokens rest
      | InWord =>
          if is_whitespace
          then read_tokens InSpace "" false
                 (if negb (String.eqb token "") || quoted
                  then token :: tokens else tokens) rest
          else if is_quote then read_tokens (InQuote nextchar) token true tokens rest
          else if is_escape then read_tokens (InEscape None) token quoted tokens rest
          else read_tokens InWord (token ++ String nextchar "") quoted tokens rest
      | InQuote quote =>
          if Ascii.eqb nextchar quote then read_tokens InWord token true tokens rest
          else if is_escape && Ascii.eqb quote "034"
          then read_tokens (InEscape (Some quote)) token true tokens rest
          else read_tokens (InQuote quote) (token ++ String nextchar "") true
                 tokens rest
      | InEscape None =>
          read_tokens InWord (token ++ String nextchar "") quoted tokens rest
      | InEscape (Some quote) =>
          read_tokens (InQuote quote)
            (if negb is_escape && negb (Ascii.eqb nextchar quote)
             then token ++ String "092" (String nextchar "")
             else token ++ String nextchar "")
            true tokens rest
      end
  end.

Definition shlex_split (args : string) : outcome string (list string) :=
  read_tokens InSpace "" false [] args.

Definition launch :=
  VllmLocalServer.main resolve glob_match "/usr/bin/python3"
    (fun _ => "0.9") shlex_split inherited_environ.

Definition bootstrap := BootstrapModelStore.main resolve glob_match.

End Sample.

(** * Properties *)

(** ** Configuration *)

Module ConfigSpec.

Import Config.

Example defaults_accepted : Sample.init no_input = Returns Sample.defaults.
Proof. reflexivity. Qed.

Example log_level_normalised : validate_log_level " debug " = Returns "DEBUG".
Proof. reflexivity. Qed.

Lemma raises_of_in {E A} (e : E) (errors : list E) (a : A) :
  In e errors ->
  match errors with [] => Returns a | _ => Raises errors end = Raises errors.
Proof. destruct errors; [intros [] | reflexivity]. Qed.

Lemma checked_raises {A} name (d : A) validator x msg :
  validator x = Raises msg ->
  checked name d validator (Some x) = ([(name, msg)], d).
Proof. intros H. unfold checked. now rewrite H. Qed.

Lemma checked_accepts {A} name (d : A) validator given :
  (checked name d validator given).1 = [] ->
  validator (match given with Some x => x | None => d end)
  = Returns (checked name d validator given).2.
Proof.
  unfold checked. cbv zeta.
  destruct (validator _); simpl; [reflexivity | discriminate].
Qed.

Lemma validate_vllm_port_raises p :
  p < 1 \/ 65535 < p ->
  validate_vllm_port p = Raises "vllm_port must be between 1 and 65535".
Proof.
  intros H. unfold validate_vllm_port.
  destruct (p <? 1) eqn:E1; [reflexivity|].
  destruct (p >? 65535) eqn:E2; [reflexivity|]. lia.
Qed.

Lemma validate_vllm_port_returns p q :
  validate_vllm_port p = Returns q -> q = p /\ 1 <= p <= 65535.
Proof.
  unfold validate_vllm_port.
  destruct (p <? 1) eqn:E1; [discriminate|].
  destruct (p >? 65535) eqn:E2; [discriminate|].
  intros [= <-]. lia.
Qed.

Lemma validate_vllm_tensor_parallel_size_raises n :
  n < 1 ->
  validate_vllm_tensor_parallel_size n
  = Raises "vllm_tensor_parallel_size must be >= 1".
Proof.
  intros H. unfold validate_vllm_tensor_parallel_size.
  destruct (n <? 1) eqn:E; [reflexivity | lia].
Qed.

Lemma validate_top_k_raises k :
  k < 1 -> validate_top_k k = Raises "top_k must be >= 1".
Proof.
  intros H. unfold validate_top_k. destruct (k <? 1) eqn:E; [reflexivity | lia].
Qed.

Lemma validate_vllm_gpu_memory_utilization_raises x :
  PyFloat.le x (Fnum 0) = true \/ PyFloat.gt x (Fnum 1) = true ->
  validate_vllm_gpu_memory_utilization x
  = Raises "vllm_gpu_memory_utilization must be > 0 and <= 1".
Proof.
  intros H. unfold validate_vllm_gpu_memory_utilization.
  destruct H as [-> | ->]; [reflexivity | now rewrite orb_true_r].
Qed.

Lemma validate_top_p_raises x :
  PyFloat.le x (Fnum 0) = true \/ PyFloat.gt x (Fnum 1) = true ->
  validate_top_p x = Raises "top_p must be > 0 and <= 1".
Proof.
  intros H. unfold validate_top_p.
  destruct H as [-> | ->]; [reflexivity | now rewrite orb_true_r].
Qed.

Section Platform.

Variable expanduser : string -> string.
Variable getenv_HF_TOKEN : option string.
Variable DEFAULT_MODEL_STORE_DIR : string.
Variable GEMMA_3_4B_OCR_PROMPT : string.

Local Abbreviation init :=
  (Settings_init expanduser getenv_HF_TOKEN DEFAULT_MODEL_STORE_DIR
     GEMMA_3_4B_OCR_PROMPT).

Local Ltac find_error :=
  repeat (apply in_or_app; first [ left; simpl; left; reflexivity | right ]).

Local Ltac reject name msg Hkw Hv :=
  exists name, msg; eexists; unfold Settings_init; cbv zeta;
  rewrite Hkw, (checked_raises _ _ _ _ _ Hv);
  split; [apply raises_of_in with (e := (name, msg))|]; find_error.

(** C2 (as amended).  Constructing the snapshot with an out-of-range value
    of a range-checked field (the port outside 1..65535, a tensor-parallel
    size or top-k below 1, a GPU-memory fraction or top-p that is at most 0
    or above 1) fails at construction: the constructor raises the
    validation error, which names the field. *)
Theorem out_of_range_value_rejected (kw : SettingsInput) :
  range_violation kw ->
  exists field msg errors, init kw = Raises errors /\ In (field, msg) errors.
Proof.
  intros [p Hkw Hp | n Hkw Hn | k Hkw Hk | x Hkw Hx | x Hkw Hx].
  - pose proof (validate_vllm_port_raises p Hp) as Hv.
    reject "vllm_port" "vllm_port must be between 1 and 65535" Hkw Hv.
  - pose proof (validate_vllm_tensor_parallel_size_raises n Hn) as Hv.
    reject "vllm_tensor_parallel_size" "vllm_tensor_parallel_size must be >= 1" Hkw Hv.
  - pose proof (validate_top_k_raises k Hk) as Hv.
    reject "top_k" "top_k must be >= 1" Hkw Hv.
  - pose proof (validate_vllm_gpu_memory_utilization_raises x Hx) as Hv.
    reject "vllm_gpu_memory_utilization"
      "vllm_gpu_memory_utilization must be > 0 and <= 1" Hkw Hv.
  - pose proof (validate_top_p_raises x Hx) as Hv.
    reject "top_p" "top_p must be > 0 and <= 1" Hkw Hv.
Qed.

Local Ltac split_errors H :=
  repeat match type of H with
         | (_ ++ _)%list = [] =>
             let H1 := fresh "Hnil" in
             apply app_eq_nil in H; destruct H as [H1 H]
         end.

(** A snapshot that was constructed holds a port in range, and holds the
    port it was given: no value is replaced by another. *)
Lemma accepted_port_in_range (kw : SettingsInput) (s : Settings) :
  init kw = Returns s ->
  1 <= vllm_port s <= 65535
  /\ (forall p, vllm_port kw = Some p -> vllm_port s = p).
Proof.
  unfold Settings_init; cbv zeta.
  match goal with
  | |- match ?errs with _ => _ end = _ -> _ => destruct errs eqn:Herrs
  end; [|discriminate].
  intros [= <-]. cbn [vllm_port].
  split_errors Herrs.
  match goal with
  | H : (checked "vllm_port" _ _ _).1 = [] |- _ =>
      pose proof (checked_accepts _ _ _ _ H) as Hport
  end.
  apply validate_vllm_port_returns in Hport. destruct Hport as [-> Hr].
  split; [exact Hr|]. now intros q ->.
Qed.

(** The timeouts have no validator: a snapshot that was constructed holds
    the timeouts it was given, whatever their sign. *)
Lemma timeouts_kept_as_given (kw : SettingsInput) (s : Settings) :
  init kw = Returns s ->
  (forall t, inference_timeout_seconds kw = Some t -> inference_timeout_seconds s = t)
  /\ (forall t, vllm_timeout_seconds kw = Some t -> vllm_timeout_seconds s = t)
  /\ (forall t, vllm_startup_timeout_seconds kw = Some t ->
                vllm_startup_timeout_seconds s = t).
Proof.
  unfold Settings_init; cbv zeta.
  match goal with
  | |- match ?errs with _ => _ end = _ -> _ => destruct errs
  end; [|discriminate].
  intros [= <-].
  cbn [inference_timeout_seconds vllm_timeout_seconds vllm_startup_timeout_seconds].
  unfold plain. cbn [snd].
  repeat split; intros t ->; reflexivity.
Qed.

End Platform.

(** The constructor refuses port 70000. *)
Lemma out_of_range_value_rejected_witness :
  range_violation (with_vllm_port (Some 70000) no_input)
  /\ exists field msg errors,
       Sample.init (with_vllm_port (Some 70000) no_input) = Raises errors
       /\ In (field, msg) errors.
Proof.
  assert (H : range_violation (with_vllm_port (Some 70000) no_input)).
  { apply port_out_of_range with (p := 70000); [reflexivity | lia]. }
  split; [exact H|].
  exact (out_of_range_value_rejected Sample.expanduser None
           "/srv/ocr/model_store" "Transcribe the image." _ H).
Defined.

(** C2, as stated, fails: a snapshot is constructed with an inference
    timeout of 0 seconds, a gateway timeout of -5 seconds and a start-up
    timeout of -1 second, and holds these values. *)
Lemma nonpositive_timeouts_accepted :
  exists s,
    Sample.init
      (with_inference_timeout_seconds (Some 0)
         (with_vllm_timeout_seconds (Some (-5))
            (with_vllm_startup_timeout_seconds (Some (-1)) no_input)))
    = Returns s
    /\ inference_timeout_seconds s = 0
    /\ vllm_timeout_seconds s = -5
    /\ vllm_startup_timeout_seconds s = -1.
Proof. eexists. repeat split. Qed.

End ConfigSpec.

(** ** File system *)

Module FsSpec.

Import Fs.

(** *** A store that only gains entries keeps what was reachable *)

Lemma node_at_mono (fs fs' : FS) (p : Path) (k : kind) :
  fs ⊆ fs' -> node_at fs p = Some k -> node_at fs' p = Some k.
Proof.
  intros Hsub. destruct p as [|c p]; simpl; [done|].
  intros H. eapply lookup_weaken; eauto.
Qed.

Lemma walk_mono (fs fs' : FS) (comps : Path) : forall cur q : Path,
  fs ⊆ fs' -> walk fs cur comps = Some q -> walk fs' cur comps = Some q.
Proof.
  induction comps as [|c rest IH]; intros cur q Hsub; simpl; [done|].
  destruct (node_at fs cur) as [[]|] eqn:Hn; try discriminate.
  rewrite (node_at_mono _ _ _ _ Hsub Hn). eauto.
Qed.

Lemma stat_mono (fs fs' : FS) (p : Path) (k : kind) :
  fs ⊆ fs' -> stat fs p = Some k -> stat fs' p = Some k.
Proof.
  intros Hsub. unfold stat.
  destruct (walk fs [] p) as [q|] eqn:Hw; [|discriminate].
  rewrite (walk_mono _ _ _ _ _ Hsub Hw). apply node_at_mono, Hsub.
Qed.

Lemma is_dir_mono (fs fs' : FS) (p : Path) :
  fs ⊆ fs' -> is_dir fs p = true -> is_dir fs' p = true.
Proof.
  intros Hsub. unfold is_dir.
  destruct (stat fs p) as [[]|] eqn:Hs; try discriminate.
  now rewrite (stat_mono _ _ _ _ Hsub Hs).
Qed.

Lemma is_file_mono (fs fs' : FS) (p : Path) :
  fs ⊆ fs' -> is_file fs p = true -> is_file fs' p = true.
Proof.
  intros Hsub. unfold is_file.
  destruct (stat fs p) as [[]|] eqn:Hs; try discriminate.
  now rewrite (stat_mono _ _ _ _ Hsub Hs).
Qed.

Lemma exists_mono (fs fs' : FS) (p : Path) :
  fs ⊆ fs' -> exists_ fs p = true -> exists_ fs' p = true.
Proof.
  intros Hsub. unfold exists_.
  destruct (stat fs p) as [k|] eqn:Hs; try discriminate.
  now rewrite (stat_mono _ _ _ _ Hsub Hs).
Qed.

Lemma walk_app (fs : FS) (p q : Path) : forall cur : Path,
  walk fs cur (p ++ q) =
  match walk fs cur p with Some d => walk fs d q | None => None end.
Proof.
  induction p as [|c p IH]; intros cur; simpl; [done|].
  destruct (node_at fs cur) as [[]|]; auto.
Qed.

Lemma is_dir_prefix (fs : FS) (p q : Path) :
  is_dir fs (p ++ q) = true -> is_dir fs p = true.
Proof.
  unfold is_dir, stat. rewrite walk_app.
  destruct (walk fs [] p) as [d|]; [|discriminate].
  destruct q as [|c q]; simpl; [done|].
  destruct (node_at fs d) as [[]|]; try discriminate. done.
Qed.

Lemma ensure_dir_ok (denied : Path -> bool) (target : Path) (last : bool)
    (fs fs' : FS) (cur : Path) :
  ensure_dir denied target last fs cur = (Returns tt, fs') ->
  fs ⊆ fs' /\ node_at fs' cur = Some KDir.
Proof.
  unfold ensure_dir. destruct (node_at fs cur) as [[]|] eqn:Hn.
  - discriminate.
  - intros [= <-]. done.
  - destruct (denied cur); [discriminate|]. intros [= <-].
    destruct cur as [|c cur]; [discriminate|]. simpl in *.
    split; [by apply insert_subseteq | by rewrite lookup_insert_eq].
Qed.

Lemma ensure_dir_subseteq (denied : Path -> bool) (target : Path) (last : bool)
    (fs fs' : FS) (cur : Path) r :
  ensure_dir denied target last fs cur = (r, fs') -> fs ⊆ fs'.
Proof.
  unfold ensure_dir. destruct (node_at fs cur) as [[]|] eqn:Hn.
  - by intros [= _ <-].
  - by intros [= _ <-].
  - destruct (denied cur); [by intros [= _ <-]|]. intros [= _ <-].
    destruct cur as [|c cur]; [discriminate|]. simpl in *.
    by apply insert_subseteq.
Qed.

Lemma mkdir_from_ok (denied : Path -> bool) (target comps : Path) :
  forall (fs fs' : FS) (cur : Path),
  mkdir_from denied target fs cur comps = (Returns tt, fs') ->
  fs ⊆ fs' /\ exists q, walk fs' cur comps = Some q /\ node_at fs' q = Some KDir.
Proof.
  induction comps as [|c rest IH]; intros fs fs' cur; simpl.
  - intros H. apply ensure_dir_ok in H as [? ?]. eauto.
  - destruct (ensure_dir denied target false fs cur) as [[[]|e] fs1] eqn:He;
      [|discriminate].
    apply ensure_dir_ok in He as [Hsub Hn].
    intros H. apply IH in H as (Hsub' & q & Hw & Hq).
    split; [by etrans|]. exists q.
    rewrite (node_at_mono _ _ _ _ Hsub' Hn). done.
Qed.

Lemma mkdir_from_subseteq (denied : Path -> bool) (target comps : Path) :
  forall (fs fs' : FS) (cur : Path) r,
  mkdir_from denied target fs cur comps = (r, fs') -> fs ⊆ fs'.
Proof.
  induction comps as [|c rest IH]; intros fs fs' cur r; simpl.
  - apply ensure_dir_subseteq.
  - destruct (ensure_dir denied target false fs cur) as [[[]|e] fs1] eqn:He.
    + apply ensure_dir_subseteq in He. intros H. apply IH in H. by etrans.
    + apply ensure_dir_subseteq in He. by intros [= _ <-].
Qed.

Lemma mkdir_from_dir (denied : Path -> bool) (target comps : Path) :
  forall (fs : FS) (cur q : Path),
  walk fs cur comps = Some q -> node_at fs q = Some KDir ->
  mkdir_from denied target fs cur comps = (Returns tt, fs).
Proof.
  induction comps as [|c rest IH]; intros fs cur q; simpl.
  - intros [= <-] Hn. unfold ensure_dir. by rewrite Hn.
  - destruct (node_at fs cur) as [[]|] eqn:Hn; try discriminate.
    intros Hw Hq. unfold ensure_dir. rewrite Hn. eauto.
Qed.

Lemma mkdir_p_ok (denied : Path -> bool) (fs fs' : FS) (p : Path) :
  mkdir_p denied fs p = (Returns tt, fs') -> fs ⊆ fs' /\ is_dir fs' p = true.
Proof.
  intros H. apply mkdir_from_ok in H as (Hsub & q & Hw & Hq).
  split; [done|]. unfold is_dir, stat. by rewrite Hw, Hq.
Qed.

Lemma mkdir_p_dir (denied : Path -> bool) (fs : FS) (p : Path) :
  is_dir fs p = true -> mkdir_p denied fs p = (Returns tt, fs).
Proof.
  unfold is_dir, stat. destruct (walk fs [] p) as [q|] eqn:Hw; [|discriminate].
  destruct (node_at fs q) as [[]|] eqn:Hq; try discriminate.
  intros _. eapply mkdir_from_dir; eauto.
Qed.

Lemma touch_subseteq (denied : Path -> bool) (fs fs' : FS) (p : Path) r :
  touch denied fs p = (r, fs') -> fs ⊆ fs'.
Proof.
  unfold touch. destruct (walk fs [] p) as [q|]; [|by intros [= _ <-]].
  destruct (denied q); [by intros [= _ <-]|].
  destruct (node_at fs q) eqn:Hn; [by intros [= _ <-]|].
  intros [= _ <-]. destruct q; [discriminate|]. by apply insert_subseteq.
Qed.

Lemma touch_again (denied : Path -> bool) (fs fs' : FS) (p : Path) r :
  touch denied fs p = (r, fs') -> touch denied fs' p = (r, fs').
Proof.
  intros H. pose proof (touch_subseteq _ _ _ _ _ H) as Hsub. revert H.
  unfold touch. destruct (walk fs [] p) as [q|] eqn:Hw.
  - rewrite (walk_mono _ _ _ _ _ Hsub Hw).
    destruct (denied q); [by intros [= <- <-]|].
    destruct (node_at fs q) eqn:Hn.
    + intros [= <- <-]. by rewrite Hn.
    + intros [= <- <-]. destruct q; [discriminate|]. simpl.
      by rewrite lookup_insert_eq.
  - intros [= <- <-]. by rewrite Hw.
Qed.

End FsSpec.

(** ** Model artifact lifecycle *)

Module ModelStoreSpec.

Import Config Fs ModelStore FsSpec.

Lemma descendants_mono (f f' : FS) (dir rel : Path) :
  f ⊆ f' -> In rel (descendants f dir) -> In rel (descendants f' dir).
Proof.
  intros Hsub. rewrite <- !list_elem_of_In. unfold descendants.
  destruct (walk f [] dir) as [d|] eqn:Hw; [|by intros ?%not_elem_of_nil].
  rewrite (walk_mono _ _ _ _ _ Hsub Hw).
  rewrite !list_elem_of_omap. intros (k & Hk & Hsome).
  exists k. split.
  - apply elem_of_elements. apply elem_of_elements in Hk.
    eapply subseteq_dom in Hsub. set_solver.
  - destruct (is_prefix d k); [|discriminate].
    destruct (length d <? length k)%nat; [|discriminate]. simpl in *.
    destruct (bool_decide (walk f [] k = Some k)) eqn:Hb; [|discriminate].
    apply bool_decide_eq_true in Hb.
    rewrite (bool_decide_eq_true_2 _ (walk_mono _ _ _ _ _ Hsub Hb)). done.
Qed.

Lemma insert_sorted_cons (p : Path) (l : list Path) : insert_sorted p l <> [].
Proof. destruct l as [|q l]; simpl; [done|]. by destruct (path_leb p q). Qed.

Lemma sorted_nil (l : list Path) : sorted l = [] -> l = [].
Proof.
  destruct l as [|p l]; [done|]. simpl. intros H.
  by apply insert_sorted_cons in H.
Qed.


Lemma string_length_app (a b : string) :
  String.length (a ++ b) = (String.length a + String.length b)%nat.
Proof.
  induction a as [|c a IH]; [done|].
  change (S (String.length (a ++ b)) = S (String.length a + String.length b)).
  by rewrite IH.
Qed.

Lemma join_snoc_length (p : Path) (c : string) :
  String.length (PyStr.join "/" (p ++ [c])) =
  match p with
  | [] => String.length c
  | _ => (String.length (PyStr.join "/" p) + 1 + String.length c)%nat
  end.
Proof.
  induction p as [|x p IH]; [done|].
  destruct p as [|y p].
  - change (String.length (x ++ "/" ++ c) =
            (String.length x + 1 + String.length c)%nat).
    rewrite !string_length_app. change (String.length "/") with 1%nat. lia.
  - change (String.length (x ++ "/" ++ PyStr.join "/" ((y :: p) ++ [c])) =
            (String.length (x ++ "/" ++ PyStr.join "/" (y :: p)) + 1
             + String.length c)%nat).
    rewrite !string_length_app, IH. lia.
Qed.

Lemma join_app_longer (q : Path) : forall p : Path,
  q <> [] -> Forall (fun c => c <> "") q ->
  (String.length (PyStr.join "/" p)
   < String.length (PyStr.join "/" (p ++ q)))%nat.
Proof.
  induction q as [|c q IH]; intros p Hne Hall; [done|].
  apply Forall_cons in Hall as [Hc Hall].
  assert (Hstep : (String.length (PyStr.join "/" p)
                   < String.length (PyStr.join "/" (p ++ [c])))%nat).
  { rewrite join_snoc_length.
    destruct c as [|a c]; [done|].
    destruct p; cbn [String.length PyStr.join]; lia. }
  destruct q as [|d q].
  - exact Hstep.
  - replace (p ++ c :: d :: q)%list with ((p ++ [c]) ++ d :: q)%list
      by (by rewrite <- app_assoc).
    etrans; [exact Hstep|]. by apply IH.
Qed.

Lemma parts_nonempty (s : string) : Forall (fun c => c <> "") (parts s).
Proof.
  apply Forall_forall. intros c Hin. apply list_elem_of_In in Hin.
  unfold parts in Hin. apply filter_In in Hin as [_ Hc].
  intros ->. discriminate.
Qed.

Lemma path_str_below (p q : Path) :
  q <> [] -> Forall (fun c => c <> "") q -> path_str (p ++ q) <> path_str p.
Proof.
  intros Hne Hall Heq. pose proof (join_app_longer q p Hne Hall) as Hlt.
  apply (f_equal String.length) in Heq. unfold path_str in Heq.
  rewrite !string_length_app in Heq. lia.
Qed.

Section Platform.

Variable resolve : string -> Path.
Variable glob_match : string -> Path -> bool.

Lemma any_file_mono (f f' : FS) (dir : Path) :
  f ⊆ f' ->
  existsb (is_file f) (rglob_all f dir) = true ->
  existsb (is_file f') (rglob_all f' dir) = true.
Proof.
  intros Hsub. rewrite !existsb_exists. intros (p & Hin & Hfile).
  exists p. split; [|by eapply is_file_mono].
  unfold rglob_all in *. apply in_map_iff in Hin as (rel & <- & Hrel).
  apply in_map_iff. exists rel. split; [done|]. by eapply descendants_mono.
Qed.

Lemma matches_mono (f f' : FS) (dir : Path) (pattern : string) (p : Path) :
  f ⊆ f' ->
  In p (List.filter (is_file f) (selected glob_match f dir pattern)) ->
  In p (List.filter (is_file f') (selected glob_match f' dir pattern)).
Proof.
  intros Hsub. rewrite !filter_In. intros [Hin Hfile].
  split; [|by eapply is_file_mono].
  unfold selected in *. apply in_map_iff in Hin as (rel & <- & Hrel).
  apply in_map_iff. exists rel. split; [done|].
  apply filter_In in Hrel as [Hrel Hm]. apply filter_In. split; [|done].
  by eapply descendants_mono.
Qed.

(** A pattern [rglob] accepts is searched for whatever the directory
    holds. *)
Lemma rglob_returns (f f' : FS) (dir : Path) (pattern : string)
    (entries : list Path) :
  rglob glob_match f dir pattern = Returns entries ->
  entries = selected glob_match f dir pattern
  /\ rglob glob_match f' dir pattern
     = Returns (selected glob_match f' dir pattern).
Proof.
  unfold rglob. destruct (rglob_pattern pattern); [|discriminate].
  by intros [= <-].
Qed.

Lemma _find_model_file_mono (f f' : FS) (dir : Path) (pattern : string) (p : Path) :
  f ⊆ f' ->
  _find_model_file glob_match f dir pattern = Returns (Some p) ->
  exists p', _find_model_file glob_match f' dir pattern = Returns (Some p').
Proof.
  intros Hsub. unfold _find_model_file.
  destruct (exists_ f dir) eqn:He; [|discriminate].
  destruct (is_dir f dir) eqn:Hd; [|discriminate].
  rewrite (exists_mono _ _ _ Hsub He), (is_dir_mono _ _ _ Hsub Hd).
  cbn [negb orb].
  destruct (String.eqb (PyStr.strip pattern) ""); [discriminate|].
  set (direct := resolve_lexical (joinpath dir (PyStr.strip pattern))).
  match goal with
  | |- context [negb (existsb ?a ?b)] => set (plain := negb (existsb a b))
  end.
  destruct (plain && (exists_ f' direct && is_file f' direct)) eqn:Hnew; [eauto|].
  destruct (plain && (exists_ f direct && is_file f direct)) eqn:Hold.
  - apply andb_true_iff in Hold as [Hp Hold].
    apply andb_true_iff in Hold as [H1 H2].
    rewrite Hp, (exists_mono _ _ _ Hsub H1), (is_file_mono _ _ _ Hsub H2) in Hnew.
    discriminate.
  - destruct (rglob glob_match f dir (PyStr.strip pattern)) as [entries|e] eqn:Hg;
      [|discriminate].
    destruct (rglob_returns _ f' _ _ _ Hg) as [-> ->].
    destruct (sorted (List.filter (is_file f) (selected glob_match f dir (PyStr.strip pattern))))
      as [|m ms] eqn:Hs; [discriminate|]. intros _.
    destruct (sorted (List.filter (is_file f') (selected glob_match f' dir (PyStr.strip pattern))))
      as [|m' ms'] eqn:Hs'; [|eauto].
    apply sorted_nil in Hs'.
    destruct (List.filter (is_file f) (selected glob_match f dir (PyStr.strip pattern)))
      as [|x xs] eqn:Hl; [discriminate|].
    assert (Hin : In x (List.filter (is_file f') (selected glob_match f' dir (PyStr.strip pattern)))).
    { eapply matches_mono; [done|]. rewrite Hl. by left. }
    rewrite Hs' in Hin. destruct Hin.
Qed.

Lemma _has_expected_artifacts_mono (f f' : FS) (dir : Path) (name : option string) :
  f ⊆ f' ->
  _has_expected_artifacts glob_match f dir name = Returns true ->
  _has_expected_artifacts glob_match f' dir name = Returns true.
Proof.
  intros Hsub. unfold _has_expected_artifacts.
  destruct (exists_ f dir) eqn:He; [|discriminate].
  destruct (is_dir f dir) eqn:Hd; [|discriminate].
  rewrite (exists_mono _ _ _ Hsub He), (is_dir_mono _ _ _ Hsub Hd). simpl.
  assert (Hany : Returns (E := exn) (existsb (is_file f) (rglob_all f dir)) = Returns true ->
                 Returns (E := exn) (existsb (is_file f') (rglob_all f' dir)) = Returns true).
  { intros [= H]. by rewrite (any_file_mono _ _ _ Hsub H). }
  destruct name as [n|]; [|exact Hany].
  destruct (negb (String.eqb n "")); [|exact Hany].
  destruct (_find_model_file glob_match f dir n) as [[p|]|e] eqn:Hf;
    [|discriminate..].
  destruct (_find_model_file_mono _ _ _ _ _ Hsub Hf) as [p' ->]. done.
Qed.

Lemma _has_expected_artifacts_is_dir (f : FS) (dir : Path) (name : option string) :
  _has_expected_artifacts glob_match f dir name = Returns true ->
  is_dir f dir = true.
Proof.
  unfold _has_expected_artifacts.
  destruct (exists_ f dir); [|discriminate].
  by destruct (is_dir f dir).
Qed.

Lemma replace_slash_relative (s : string) :
  is_absolute (PyStr.replace_char "/" "--" s) = false.
Proof.
  destruct s as [|c s]; [done|]. simpl.
  destruct (Ascii.eqb c "/") eqn:Hc; [done|]. simpl. exact Hc.
Qed.

Lemma resolve_repo_dir_below (settings : Settings) :
  exists comps,
    resolve_repo_dir resolve settings
    = (resolve (model_store_dir settings) ++ comps)%list.
Proof.
  unfold resolve_repo_dir, joinpath. rewrite replace_slash_relative. eauto.
Qed.


Local Abbreviation root s := (resolve (model_store_dir s)).
Local Abbreviation repo s := (resolve_repo_dir resolve s).
Local Abbreviation has_expected f s :=
  (_has_expected_artifacts glob_match f (resolve_repo_dir resolve s) (model_filename s)).

Lemma mkdir_run (p : Path) (w : World) :
  mkdir p w = (os_outcome (mkdir_p (denied w) (fs w) p).1, after_mkdir p w).
Proof.
  unfold mkdir, bind, emit, modify, fs_call, after_mkdir, set_fs. simpl.
  destruct (mkdir_p (denied w) (fs w) p) as [[[]|[c q]] f]; reflexivity.
Qed.

Lemma _write_bootstrap_marker_run (dir : Path) (w : World) :
  _write_bootstrap_marker dir w = (Returns tt, after_marker dir w).
Proof.
  unfold _write_bootstrap_marker, try_except, touch_file, bind, emit, modify,
    fs_call, after_marker, set_fs, logger, emit, modify, marker_warning. simpl.
  destruct (touch (denied w) (fs w) (joinpath dir ".model_store_ready"))
    as [[[]|[c q]] f]; reflexivity.
Qed.

Lemma ensure_model_store_unfold (s : Settings) (w : World) :
  ensure_model_store resolve glob_match s w =
  if negb (require_local_model_store s || auto_download_model_store s
           || model_force_download s)
  then (Returns None, w)
  else
    match os_outcome (mkdir_p (denied w) (fs w) (root s)).1 with
    | Raises e => (Raises e, after_mkdir (root s) w)
    | Returns _ =>
        let w1 := after_mkdir (root s) w in
        match has_expected (fs w1) s with
        | Raises e => (Raises e, w1)
        | Returns has =>
            if has && negb (model_force_download s)
            then (Returns (Some (path_str (root s))), after_marker (root s) w1)
            else if negb (model_force_download s || auto_download_model_store s)
            then if require_local_model_store s
                 then (Raises (RuntimeError (artifacts_missing_message (repo s)) None),
                       w1)
                 else (Returns None, w1)
            else
              match _download_model_snapshot resolve s (root s) w1 with
              | (Raises e, w2) => (Raises e, w2)
              | (Returns _, w2) =>
                  match has_expected (fs w2) s with
                  | Raises e => (Raises e, w2)
                  | Returns still =>
                      if negb still
                      then (Raises (RuntimeError
                                      (artifacts_not_found_message (repo s)) None),
                            w2)
                      else (Returns (Some (path_str (root s))),
                            after_marker (root s) w2)
                  end
              end
        end
    end.
Proof.
  unfold ensure_model_store.
  destruct (negb _); [reflexivity|].
  unfold bind at 1. rewrite mkdir_run.
  destruct (os_outcome _) as [[]|e]; [|reflexivity].
  unfold bind at 1, reads at 1. cbv zeta.
  destruct (has_expected _ s) as [has|e]; [|reflexivity].
  destruct (_ && _).
  - unfold bind, ret. now rewrite _write_bootstrap_marker_run.
  - destruct (negb _); [destruct (require_local_model_store s); reflexivity|].
    unfold bind at 1.
    destruct (_download_model_snapshot _ _ _ _) as [[[]|e] w2]; [|reflexivity].
    unfold bind at 1, reads at 1.
    destruct (has_expected _ s) as [still|e]; [|reflexivity].
    destruct (negb _); [reflexivity|].
    unfold bind, ret. now rewrite _write_bootstrap_marker_run.
Qed.


Lemma _download_model_snapshot_unfold (s : Settings) (w : World) :
  _download_model_snapshot resolve s (root s) w =
  match hub w with
  | None =>
      (Raises (RuntimeError hub_required_message
                 (Some (ImportError "huggingface_hub"))), w)
  | Some h =>
      match os_outcome (mkdir_p (denied w) (fs w) (root s)).1 with
      | Raises e => (Raises e, after_mkdir (root s) w)
      | Returns _ =>
          let w1 := after_mkdir (root s) w in
          match os_outcome (mkdir_p (denied w1) (fs w1) (repo s)).1 with
          | Raises e => (Raises e, after_mkdir (repo s) w1)
          | Returns _ =>
              let w2 := after_mkdir (repo s) w1 in
              let kw := filter_kwargs (snapshot_download_params h)
                          (download_kwargs s (repo s)) in
              let t3 :=
                EvSnapshotDownload kw
                :: EvLog "INFO" "Downloading model snapshot into model_store"
                :: trace w2 in
              match snapshot_download h (fetches (trace w2)) kw (fs w2) with
              | (Returns _, f) =>
                  (Returns tt,
                   {| fs := f; denied := denied w; hub := hub w;
                      trace := EvLog "INFO" "Model snapshot ready" :: t3 |})
              | (Raises d, f) =>
                  (Raises (RuntimeError (download_failed_message s (repo s))
                             (Some (HubError d))),
                   {| fs := f; denied := denied w; hub := hub w; trace := t3 |})
              end
          end
      end
  end.
Proof.
  unfold _download_model_snapshot. unfold bind at 1, gets at 1.
  destruct w as [f0 d0 [h|] t0]; [|reflexivity]. cbn [hub].
  unfold bind at 1. rewrite mkdir_run.
  destruct (os_outcome _) as [[]|e]; [|reflexivity].
  unfold bind at 1. rewrite mkdir_run.
  destruct (os_outcome _) as [[]|e]; [|reflexivity].
  unfold bind, logger, emit, modify, try_except, call_snapshot_download, raise, set_fs.
  cbn [fs denied hub trace after_mkdir fetches List.filter is_fetch].
  destruct (snapshot_download h _ _ _) as [[[]|d] f]; reflexivity.
Qed.

Lemma new_events_app (w w' : World) (added : list event) :
  trace w' = (added ++ trace w)%list -> new_events w w' = added.
Proof.
  intros H. unfold new_events. rewrite H, length_app.
  replace (length added + length (trace w) - length (trace w))%nat
    with (length added) by lia.
  apply take_app_length.
Qed.

Lemma fetches_app (t1 t2 : list event) :
  fetches (t1 ++ t2) = (fetches t1 + fetches t2)%nat.
Proof. unfold fetches. now rewrite List.filter_app, length_app. Qed.

(** What a download adds to the trace, and how it can end. *)
Lemma _download_model_snapshot_run (s : Settings) (w : World) r w' :
  _download_model_snapshot resolve s (root s) w = (r, w') ->
  denied w' = denied w /\ hub w' = hub w
  /\ exists added,
       trace w' = (added ++ trace w)%list
       /\ forallb download_event added = true
       /\ ((fetches added = 0%nat /\ exists e, r = Raises e)
           \/ (fetches added = 1%nat
               /\ (r = Returns tt
                   \/ exists d,
                        r = Raises (RuntimeError (download_failed_message s (repo s))
                                      (Some (HubError d)))))).
Proof.
  rewrite _download_model_snapshot_unfold.
  destruct w as [f0 d0 [h|] t0]; cbn [hub denied fs trace].
  2:{ intros [= <- <-]. do 2 (split; [reflexivity|]). exists [].
      do 2 (split; [reflexivity|]). left. eauto. }
  destruct (os_outcome _) as [[]|e].
  2:{ intros [= <- <-]. do 2 (split; [reflexivity|]).
      exists [EvMkdir (root s)]. do 2 (split; [reflexivity|]). left. eauto. }
  cbv zeta. destruct (os_outcome _) as [[]|e].
  2:{ intros [= <- <-]. do 2 (split; [reflexivity|]).
      exists [EvMkdir (repo s); EvMkdir (root s)].
      do 2 (split; [reflexivity|]). left. eauto. }
  destruct (snapshot_download h _ _ _) as [[[]|d] f]; intros [= <- <-];
    do 2 (split; [reflexivity|]).
  - eexists [_; _; _; _; _]. do 2 (split; [reflexivity|]). right. eauto.
  - eexists [_; _; _; _]. do 2 (split; [reflexivity|]). right. eauto.
Qed.


Local Abbreviation marker s := (joinpath (root s) ".model_store_ready").

Lemma os_outcome_returns (r : outcome (string * Path) unit) (f : FS) u :
  os_outcome (r, f).1 = Returns u -> (r, f) = (Returns tt, f).
Proof. destruct r as [[]|[c q]]; [reflexivity | discriminate]. Qed.

Lemma after_mkdir_ok (p : Path) (w : World) u :
  os_outcome (mkdir_p (denied w) (fs w) p).1 = Returns u ->
  fs w ⊆ fs (after_mkdir p w) /\ is_dir (fs (after_mkdir p w)) p = true.
Proof.
  destruct (mkdir_p (denied w) (fs w) p) as [r f] eqn:Hm. intros Hr.
  apply os_outcome_returns in Hr. rewrite Hr in Hm.
  unfold after_mkdir. rewrite Hm. cbn [fs snd]. by eapply mkdir_p_ok.
Qed.

Lemma after_marker_settled (dir : Path) (w : World) :
  fs w ⊆ fs (after_marker dir w)
  /\ exists rt,
       touch (denied w) (fs (after_marker dir w))
         (joinpath dir ".model_store_ready")
       = (rt, fs (after_marker dir w)).
Proof.
  unfold after_marker. cbn [fs].
  destruct (touch (denied w) (fs w) (joinpath dir ".model_store_ready"))
    as [rt f] eqn:Ht. cbn [snd].
  split; [by eapply touch_subseteq | exists rt; by eapply touch_again].
Qed.

Lemma is_dir_root_of_repo (s : Settings) (f : FS) :
  is_dir f (repo s) = true -> is_dir f (root s) = true.
Proof.
  destruct (resolve_repo_dir_below s) as [comps ->]. apply is_dir_prefix.
Qed.

(** What a call that returns a path has established. *)
Lemma ensure_model_store_returns_some (s : Settings) (w w' : World) v :
  ensure_model_store resolve glob_match s w = (Returns (Some v), w') ->
  v = path_str (root s)
  /\ (require_local_model_store s || auto_download_model_store s
      || model_force_download s) = true
  /\ denied w' = denied w
  /\ is_dir (fs w') (root s) = true
  /\ has_expected (fs w') s = Returns true
  /\ exists rt, touch (denied w') (fs w') (marker s) = (rt, fs w').
Proof.
  rewrite ensure_model_store_unfold.
  destruct (_ || _ || _) eqn:Hsb; cbn [negb]; [|discriminate].
  destruct (os_outcome _) as [[]|e] eqn:Hmk; [|discriminate].
  apply after_mkdir_ok in Hmk as [Hsub1 Hroot]. cbv zeta.
  destruct (has_expected _ s) as [has|e] eqn:Hfirst; [|discriminate].
  destruct (has && _) eqn:Hhit.
  - intros [= <- <-]. apply andb_true_iff in Hhit as [-> _].
    rename Hfirst into Hexp.
    destruct (after_marker_settled (root s) (after_mkdir (root s) w))
      as [Hsub2 Hrt].
    split; [done|]. split; [done|]. split; [done|].
    split; [by eapply is_dir_mono|].
    split; [by eapply _has_expected_artifacts_mono | done].
  - destruct (negb (_ || _)).
    { destruct (require_local_model_store s); discriminate. }
    destruct (_download_model_snapshot _ _ _ _) as [[[]|e] w2] eqn:Hd;
      [|discriminate].
    apply _download_model_snapshot_run in Hd as (Hden & _ & _).
    destruct (has_expected (fs w2) s) as [[|]|e'] eqn:Hexp; cbn [negb];
      [|discriminate..].
    intros [= <- <-].
    destruct (after_marker_settled (root s) w2) as [Hsub2 Hrt].
    split; [done|]. split; [done|]. split; [done|].
    split.
    { eapply is_dir_mono; [done|]. apply is_dir_root_of_repo.
      by eapply _has_expected_artifacts_is_dir. }
    split; [by eapply _has_expected_artifacts_mono | done].
Qed.

(** A call returns no path only when bootstrap is switched off, and then
    touches nothing. *)
Lemma ensure_model_store_returns_none (s : Settings) (w w' : World) :
  ensure_model_store resolve glob_match s w = (Returns None, w') ->
  (require_local_model_store s || auto_download_model_store s
   || model_force_download s) = false
  /\ w' = w.
Proof.
  rewrite ensure_model_store_unfold.
  destruct (_ || _ || _) eqn:Hsb; cbn [negb]; [|by intros [= <-]].
  destruct (os_outcome _) as [[]|e]; [|discriminate]. cbv zeta.
  destruct (has_expected _ s) as [has|e]; [|discriminate].
  destruct (has && _); [discriminate|].
  destruct (negb (_ || _)) eqn:Hdl.
  - destruct (require_local_model_store s) eqn:Hreq; [discriminate|].
    apply negb_true_iff, orb_false_iff in Hdl as [Hf Ha].
    rewrite Ha, Hf in Hsb. discriminate.
  - destruct (_download_model_snapshot _ _ _ _) as [[[]|e] w2]; [|discriminate].
    destruct (has_expected _ s) as [[|]|e]; discriminate.
Qed.

(** A call in a store that is already settled: nothing is fetched and the
    file system stays as it is. *)
Lemma ensure_model_store_settled (s : Settings) (w : World) rt :
  model_force_download s = false ->
  (require_local_model_store s || auto_download_model_store s
   || model_force_download s) = true ->
  is_dir (fs w) (root s) = true ->
  has_expected (fs w) s = Returns true ->
  touch (denied w) (fs w) (marker s) = (rt, fs w) ->
  exists w',
    ensure_model_store resolve glob_match s w
    = (Returns (Some (path_str (root s))), w')
    /\ fs w' = fs w
    /\ fetches (new_events w w') = 0%nat.
Proof.
  intros Hforce Hsb Hroot Hexp Htouch.
  rewrite ensure_model_store_unfold, Hsb. cbn [negb].
  pose proof (mkdir_p_dir (denied w) _ _ Hroot) as Hmk.
  assert (Hfs : fs (after_mkdir (root s) w) = fs w).
  { unfold after_mkdir. by rewrite Hmk. }
  rewrite Hmk. cbn [os_outcome fst]. cbv zeta.
  rewrite Hfs, Hexp, Hforce. cbn [negb andb].
  eexists. split; [reflexivity|]. split.
  - unfold after_marker. cbn [fs denied after_mkdir]. rewrite Hmk. cbn [snd].
    by rewrite Htouch.
  - assert (Ht : exists added,
               trace (after_marker (root s) (after_mkdir (root s) w))
               = (added ++ trace w)%list /\ fetches added = 0%nat).
    { unfold after_marker. cbn [trace denied fs after_mkdir].
      rewrite Hmk. cbn [snd]. rewrite Htouch. cbn [fst].
      destruct rt.
      - by exists [EvTouch (marker s); EvMkdir (root s)].
      - by exists [marker_warning; EvTouch (marker s); EvMkdir (root s)]. }
    destruct Ht as (added & Ht & Hn). by rewrite (new_events_app _ _ _ Ht).
Qed.



Lemma after_marker_trace (dir : Path) (w : World) :
  exists added,
    trace (after_marker dir w) = (added ++ trace w)%list
    /\ fetches added = 0%nat.
Proof.
  unfold after_marker. cbn [trace].
  destruct (touch _ _ _).1.
  - by exists [EvTouch (joinpath dir ".model_store_ready")].
  - by exists [marker_warning; EvTouch (joinpath dir ".model_store_ready")].
Qed.

Lemma not_download_event (added : list event) (e : event) :
  forallb download_event added = true -> download_event e = false ->
  ~ In e added.
Proof.
  intros Hall He Hin. rewrite forallb_forall in Hall.
  apply Hall in Hin. congruence.
Qed.

(** The paths through [ensure_model_store]: what a call adds to the trace,
    when the marker is written, and how a call that fetched can end. *)
Lemma ensure_model_store_paths (s : Settings) (w w' : World) r :
  ensure_model_store resolve glob_match s w = (r, w') ->
  exists added,
    trace w' = (added ++ trace w)%list
    /\ (fetches added <= 1)%nat
    /\ (In marker_warning added \/ In (EvTouch (marker s)) added ->
        r = Returns (Some (path_str (root s))))
    /\ (fetches added = 1%nat -> has_expected (fs w') s = Returns false ->
        r = Raises (RuntimeError (artifacts_not_found_message (repo s)) None)
        \/ exists d,
             r = Raises (RuntimeError (download_failed_message s (repo s))
                           (Some (HubError d)))).
Proof.
  rewrite ensure_model_store_unfold.
  destruct (negb _).
  { intros [= <- <-]. exists []. split; [done|]. split; [unfold fetches; simpl; lia|].
    split; [by intros [[]|[]] | discriminate]. }
  destruct (os_outcome _) as [[]|e] eqn:Hmk.
  2:{ intros [= <- <-]. exists [EvMkdir (root s)]. split; [done|].
      split; [unfold fetches; simpl; lia|].
      split; [by intros [[[=]|[]]|[[=]|[]]] | discriminate]. }
  cbv zeta. destruct (has_expected _ s) as [has|e] eqn:Hfirst.
  2:{ intros [= <- <-]. exists [EvMkdir (root s)]. split; [done|].
      split; [unfold fetches; simpl; lia|].
      split; [by intros [[[=]|[]]|[[=]|[]]] | discriminate]. }
  destruct (has && _) eqn:Hhit.
  { intros [= <- <-].
    destruct (after_marker_trace (root s) (after_mkdir (root s) w))
      as (added & Ht & Hn).
    exists (added ++ [EvMkdir (root s)])%list.
    split; [by rewrite Ht, <- app_assoc|].
    rewrite fetches_app, Hn. split; [unfold fetches; simpl; lia|].
    split; [done | discriminate]. }
  destruct (negb (_ || _)).
  { destruct (require_local_model_store s); intros [= <- <-];
      exists [EvMkdir (root s)]; (split; [done|]); (split; [unfold fetches; simpl; lia|]);
      (split; [by intros [[[=]|[]]|[[=]|[]]] | discriminate]). }
  destruct (_download_model_snapshot _ _ _ _) as [[[]|e] w2] eqn:Hd;
    apply _download_model_snapshot_run in Hd
      as (_ & _ & dl & Hdl & Hev & Hend).
  - destruct (has_expected (fs w2) s) as [[|]|e'] eqn:Hexp; cbn [negb].
    + intros [= <- <-].
      destruct (after_marker_trace (root s) w2) as (added & Ht & Hn).
      exists (added ++ dl ++ [EvMkdir (root s)])%list.
      split; [by rewrite Ht, Hdl, <- !app_assoc|].
      rewrite !fetches_app, Hn.
      split; [destruct Hend as [[-> _]|[-> _]]; unfold fetches; simpl; lia|].
      split; [done|]. intros _ Hmiss.
      destruct (after_marker_settled (root s) w2) as [Hsub _].
      by rewrite (_has_expected_artifacts_mono _ _ _ _ Hsub Hexp) in Hmiss.
    + intros [= <- <-].
      exists (dl ++ [EvMkdir (root s)])%list.
      split; [by rewrite Hdl, <- !app_assoc|].
      rewrite !fetches_app.
      split; [destruct Hend as [[-> _]|[-> _]]; unfold fetches; simpl; lia|].
      split; [|by left].
      intros [Hin|Hin]; apply in_app_or in Hin as [Hin|[[=]|[]]];
        by eapply not_download_event in Hin.
    + intros [= <- <-].
      exists (dl ++ [EvMkdir (root s)])%list.
      split; [by rewrite Hdl, <- !app_assoc|].
      rewrite !fetches_app.
      split; [destruct Hend as [[-> _]|[-> _]]; unfold fetches; simpl; lia|].
      split; [|congruence].
      intros [Hin|Hin]; apply in_app_or in Hin as [Hin|[[=]|[]]];
        by eapply not_download_event in Hin.
  - intros [= <- <-].
    exists (dl ++ [EvMkdir (root s)])%list.
    split; [by rewrite Hdl, <- !app_assoc|].
    rewrite !fetches_app.
    split; [destruct Hend as [[-> _]|[-> _]]; unfold fetches; simpl; lia|].
    split.
    + intros [Hin|Hin]; apply in_app_or in Hin as [Hin|[[=]|[]]];
        by eapply not_download_event in Hin.
    + intros Hone _. destruct Hend as [[Hz _]|[_ [[=]|Hend]]].
      * unfold fetches in *; simpl in *; lia.
      * destruct Hend as [d [= ->]]. right. by exists d.
Qed.


(** C3.  Two calls in sequence with force-refresh unset: each call fetches
    at most once; when the first call raises, the second is not made; when
    it returns, the second call returns the same value, fetches nothing and
    leaves the file system as it was, so that the two calls together fetch
    at most once. *)
Theorem ensure_model_store_idempotent (s : Settings) (w w1 : World) r1 :
  model_force_download s = false ->
  ensure_model_store resolve glob_match s w = (r1, w1) ->
  (fetches (new_events w w1) <= 1)%nat
  /\ match r1 with
     | Raises e => ensure_twice resolve glob_match s w = (Raises e, w1)
     | Returns a =>
         exists w2,
           ensure_model_store resolve glob_match s w1 = (Returns a, w2)
           /\ fs w2 = fs w1
           /\ fetches (new_events w1 w2) = 0%nat
           /\ ensure_twice resolve glob_match s w = (Returns (a, a), w2)
           /\ (fetches (new_events w w2) <= 1)%nat
     end.
Proof.
  intros Hforce Hrun.
  destruct (ensure_model_store_paths _ _ _ _ Hrun) as (added & Ht & Hn & _).
  rewrite (new_events_app _ _ _ Ht). split; [exact Hn|].
  destruct r1 as [[v|]|e].
  - destruct (ensure_model_store_returns_some _ _ _ _ Hrun)
      as (-> & Hsb & _ & Hroot & Hexp & rt & Htouch).
    destruct (ensure_model_store_settled s w1 rt Hforce Hsb Hroot Hexp Htouch)
      as (w2 & Hrun2 & Hfs & Hn2).
    exists w2. split; [exact Hrun2|]. split; [exact Hfs|]. split; [exact Hn2|].
    split.
    + unfold ensure_twice, bind, ret. by rewrite Hrun, Hrun2.
    + destruct (ensure_model_store_paths _ _ _ _ Hrun2) as (added2 & Ht2 & _).
      rewrite (new_events_app _ _ _ Ht2) in Hn2.
      rewrite Ht, app_assoc in Ht2.
      rewrite (new_events_app _ _ _ Ht2), fetches_app. lia.
  - destruct (ensure_model_store_returns_none _ _ _ Hrun) as [Hsb ->].
    exists w. rewrite Hrun. split; [done|]. split; [done|].
    assert (Hnil : new_events w w = []).
    { apply new_events_app. done. }
    rewrite Hnil. split; [done|]. split; [|unfold fetches; simpl; lia].
    unfold ensure_twice, bind, ret. rewrite Hrun. cbn beta iota. by rewrite Hrun.
  - unfold ensure_twice, bind. by rewrite Hrun.
Qed.




(** C7.  A call that fetched and ends with the expected artifacts still
    missing raises: the error that the artifacts were not found after the
    fetch or, when the fetch itself raised, the error that wraps its cause.
    It does not return. *)
Theorem fetch_without_artifacts_fails (s : Settings) (w w' : World) r :
  ensure_model_store resolve glob_match s w = (r, w') ->
  (0 < fetches (new_events w w'))%nat ->
  has_expected (fs w') s = Returns false ->
  r = Raises (RuntimeError (artifacts_not_found_message (repo s)) None)
  \/ exists d,
       r = Raises (RuntimeError (download_failed_message s (repo s))
                     (Some (HubError d))).
Proof.
  intros Hrun Hfetched Hmissing.
  destruct (ensure_model_store_paths _ _ _ _ Hrun)
    as (added & Ht & Hn & _ & Hend).
  rewrite (new_events_app _ _ _ Ht) in Hfetched.
  apply Hend; [lia | exact Hmissing].
Qed.

(** C8.  A call in which the marker write was attempted returns the store
    path, and so does a call in which the write failed and the warning was
    logged: the failure changes nothing in what is returned. *)
Theorem marker_failure_not_fatal (s : Settings) (w w' : World) r :
  ensure_model_store resolve glob_match s w = (r, w') ->
  (In marker_warning (new_events w w') ->
   r = Returns (Some (path_str (root s))))
  /\ (In (EvTouch (marker s)) (new_events w w') ->
      r = Returns (Some (path_str (root s)))).
Proof.
  intros Hrun.
  destruct (ensure_model_store_paths _ _ _ _ Hrun)
    as (added & Ht & _ & Hmarker & _).
  rewrite (new_events_app _ _ _ Ht). split; intros Hin; apply Hmarker; tauto.
Qed.

(** C10.  The value a call returns is the string of the resolved store
    root, and is not the string of the artifact directory whenever that is
    a directory of its own. *)
Theorem ensure_model_store_returns_root (s : Settings) (w w' : World) v :
  ensure_model_store resolve glob_match s w = (Returns (Some v), w') ->
  v = path_str (root s)
  /\ (repo s <> root s -> v <> path_str (repo s)).
Proof.
  intros Hrun.
  destruct (ensure_model_store_returns_some _ _ _ _ Hrun) as (-> & _).
  split; [reflexivity|]. intros Hne Heq.
  unfold resolve_repo_dir, joinpath in *.
  rewrite replace_slash_relative in *.
  symmetry in Heq. revert Heq. apply path_str_below.
  - intros Hq. rewrite Hq, app_nil_r in Hne. done.
  - apply parts_nonempty.
Qed.

End Platform.

Lemma run_pair {A} (m : M World exn A) (w : World) : m w = ((m w).1, (m w).2).
Proof. by destruct (m w). Qed.

(** On an empty disk with first-run download switched on, the first call
    fetches the weights; the second call returns the same path, fetches
    nothing and changes nothing. *)
Lemma ensure_model_store_idempotent_witness :
  model_force_download Sample.auto_settings = false
  /\ Sample.ensure_model_store Sample.auto_settings Sample.fresh
     = (Returns (Some "/srv/ocr/model_store"),
        (Sample.ensure_model_store Sample.auto_settings Sample.fresh).2)
  /\ (fetches (new_events Sample.fresh
                 (Sample.ensure_model_store Sample.auto_settings Sample.fresh).2)
      <= 1)%nat
  /\ exists w2,
       Sample.ensure_model_store Sample.auto_settings
         (Sample.ensure_model_store Sample.auto_settings Sample.fresh).2
       = (Returns (Some "/srv/ocr/model_store"), w2)
       /\ fs w2 = fs (Sample.ensure_model_store Sample.auto_settings Sample.fresh).2
       /\ fetches (new_events
                     (Sample.ensure_model_store Sample.auto_settings Sample.fresh).2 w2)
          = 0%nat
       /\ Sample.ensure_twice Sample.auto_settings Sample.fresh
          = (Returns (Some "/srv/ocr/model_store", Some "/srv/ocr/model_store"), w2)
       /\ (fetches (new_events Sample.fresh w2) <= 1)%nat.
Proof.
  assert (Hforce : model_force_download Sample.auto_settings = false)
    by reflexivity.
  assert (Hr : (Sample.ensure_model_store Sample.auto_settings Sample.fresh).1
               = Returns (Some "/srv/ocr/model_store"))
    by (vm_compute; reflexivity).
  assert (Hrun : Sample.ensure_model_store Sample.auto_settings Sample.fresh
                 = (Returns (Some "/srv/ocr/model_store"),
                    (Sample.ensure_model_store Sample.auto_settings Sample.fresh).2)).
  { rewrite <- Hr. apply run_pair. }
  split; [exact Hforce|]. split; [exact Hrun|].
  exact (ensure_model_store_idempotent Sample.resolve Sample.glob_match
           _ _ _ _ Hforce Hrun).
Defined.


(** The check of the artifact directory runs before the fetch, also with
    force-refresh set.  A file name that is an absolute path and names no
    file makes [rglob] refuse the pattern: the call ends with that error,
    before any fetch, although the registry is at hand. *)
Example forced_refresh_with_refused_pattern :
  (Sample.ensure_model_store
     (with_model_filename (F := fun T => T) (Some "/nonexistent/model.bin")
        Sample.force_settings)
     Sample.stocked).1
  = Raises (NotImplementedError "Non-relative patterns are unsupported")
  /\ fetches
       (new_events Sample.stocked
          (Sample.ensure_model_store
             (with_model_filename (F := fun T => T) (Some "/nonexistent/model.bin")
                Sample.force_settings)
             Sample.stocked).2)
     = 0%nat.
Proof. split; vm_compute; reflexivity. Qed.

(** The keyword arguments of that fetch. *)
Example forced_fetch_kwargs :
  filter_kwargs (snapshot_download_params Sample.hub_with_weights)
    (download_kwargs Sample.force_settings
       (resolve_repo_dir Sample.resolve Sample.force_settings))
  = [("repo_id", VStr "allenai/olmOCR-2-7B-1025-FP8");
     ("local_dir", VStr "/srv/ocr/model_store/allenai--olmOCR-2-7B-1025-FP8");
     ("force_download", VBool true)].
Proof. reflexivity. Qed.

(** A registry that holds none of the artifacts: the call fetches, finds
    the artifact directory still empty, and raises. *)
Lemma fetch_without_artifacts_fails_witness :
  (0 < fetches (new_events Sample.barren
                  (Sample.ensure_model_store Sample.auto_settings Sample.barren).2))%nat
  /\ _has_expected_artifacts Sample.glob_match
       (fs (Sample.ensure_model_store Sample.auto_settings Sample.barren).2)
       (resolve_repo_dir Sample.resolve Sample.auto_settings)
       (model_filename Sample.auto_settings) = Returns false
  /\ ((Sample.ensure_model_store Sample.auto_settings Sample.barren).1
      = Raises (RuntimeError
                  (artifacts_not_found_message
                     (resolve_repo_dir Sample.resolve Sample.auto_settings))
                  None)
      \/ exists d,
           (Sample.ensure_model_store Sample.auto_settings Sample.barren).1
           = Raises (RuntimeError
                       (download_failed_message Sample.auto_settings
                          (resolve_repo_dir Sample.resolve Sample.auto_settings))
                       (Some (HubError d)))).
Proof.
  assert (Hfetched :
    (0 < fetches (new_events Sample.barren
                    (Sample.ensure_model_store Sample.auto_settings Sample.barren).2))%nat)
    by (vm_compute; lia).
  assert (Hmissing :
    _has_expected_artifacts Sample.glob_match
      (fs (Sample.ensure_model_store Sample.auto_settings Sample.barren).2)
      (resolve_repo_dir Sample.resolve Sample.auto_settings)
      (model_filename Sample.auto_settings) = Returns false)
    by (vm_compute; reflexivity).
  split; [exact Hfetched|]. split; [exact Hmissing|].
  exact (fetch_without_artifacts_fails Sample.resolve Sample.glob_match
           Sample.auto_settings Sample.barren _ _
           (run_pair (Sample.ensure_model_store Sample.auto_settings) Sample.barren)
           Hfetched Hmissing).
Defined.

(** A caller that catches that error and calls again fetches again. *)
Example retry_after_failed_bootstrap_fetches_again :
  fetches
    (new_events
       (Sample.ensure_model_store Sample.auto_settings Sample.barren).2
       (Sample.ensure_model_store Sample.auto_settings
          (Sample.ensure_model_store Sample.auto_settings Sample.barren).2).2)
  = 1%nat.
Proof. vm_compute. reflexivity. Qed.

(** What that call raises. *)
Example fetch_of_nothing_raises :
  (Sample.ensure_model_store Sample.auto_settings Sample.barren).1
  = Raises
      (RuntimeError
         "Model bootstrap finished but expected artifacts were not found under '/srv/ocr/model_store/allenai--olmOCR-2-7B-1025-FP8'."
         None).
Proof. vm_compute. reflexivity. Qed.

(** A store mounted read-only: the marker cannot be written, the warning
    is logged, and the call returns the store path. *)
Lemma marker_failure_not_fatal_witness :
  In marker_warning
    (new_events Sample.stocked_read_only
       (Sample.ensure_model_store Sample.defaults Sample.stocked_read_only).2)
  /\ (Sample.ensure_model_store Sample.defaults Sample.stocked_read_only).1
     = Returns (Some (path_str (Sample.resolve (model_store_dir Sample.defaults)))).
Proof.
  assert (Hin :
    In marker_warning
      (new_events Sample.stocked_read_only
         (Sample.ensure_model_store Sample.defaults Sample.stocked_read_only).2))
    by (vm_compute; left; reflexivity).
  split; [exact Hin|].
  exact (proj1 (marker_failure_not_fatal Sample.resolve Sample.glob_match
                  Sample.defaults Sample.stocked_read_only _ _
                  (run_pair (Sample.ensure_model_store Sample.defaults)
                     Sample.stocked_read_only))
           Hin).
Defined.

(** The store that holds the artifacts: the call returns the store root,
    which is not the artifact directory. *)
Lemma ensure_model_store_returns_root_witness :
  Sample.ensure_model_store Sample.defaults Sample.stocked
  = (Returns (Some "/srv/ocr/model_store"),
     (Sample.ensure_model_store Sample.defaults Sample.stocked).2)
  /\ "/srv/ocr/model_store"
     = path_str (Sample.resolve (model_store_dir Sample.defaults))
  /\ (resolve_repo_dir Sample.resolve Sample.defaults
      <> Sample.resolve (model_store_dir Sample.defaults) ->
      "/srv/ocr/model_store"
      <> path_str (resolve_repo_dir Sample.resolve Sample.defaults)).
Proof.
  assert (Hr : (Sample.ensure_model_store Sample.defaults Sample.stocked).1
               = Returns (Some "/srv/ocr/model_store"))
    by (vm_compute; reflexivity).
  assert (Hrun :
    Sample.ensure_model_store Sample.defaults Sample.stocked
    = (Returns (Some "/srv/ocr/model_store"),
       (Sample.ensure_model_store Sample.defaults Sample.stocked).2)).
  { rewrite <- Hr. apply run_pair. }
  split; [exact Hrun|].
  exact (ensure_model_store_returns_root Sample.resolve Sample.glob_match
           Sample.defaults Sample.stocked _ _ Hrun).
Defined.

(** With an empty repo identifier the artifact directory is the store
    root itself. *)
Example artifact_directory_of_empty_repo_id :
  resolve_repo_dir Sample.resolve
    (with_model_repo_id (F := fun T => T) "" Sample.defaults)
  = Sample.resolve (model_store_dir Sample.defaults).
Proof. reflexivity. Qed.

(** A file name pattern: the artifacts are there when an entry of that
    name is. *)
Example expected_artifacts_by_name :
  _has_expected_artifacts Sample.glob_match Sample.stocked_disk
    Sample.repo_dir (Some "model.safetensors") = Returns true
  /\ _has_expected_artifacts Sample.glob_match Sample.stocked_disk
       Sample.repo_dir (Some "model.gguf") = Returns false.
Proof. split; vm_compute; reflexivity. Qed.

(** An absolute file name is found when it names a file, and refused by
    [rglob] when it does not; so is a pattern in which [**] is part of a
    component. *)
Example expected_artifacts_by_absolute_name :
  _has_expected_artifacts Sample.glob_match Sample.stocked_disk Sample.repo_dir
    (Some "/srv/ocr/model_store/allenai--olmOCR-2-7B-1025-FP8/model.safetensors")
  = Returns true
  /\ _has_expected_artifacts Sample.glob_match Sample.stocked_disk
       Sample.repo_dir (Some "/nonexistent/model.bin")
     = Raises (NotImplementedError "Non-relative patterns are unsupported")
  /\ _has_expected_artifacts Sample.glob_match Sample.stocked_disk
       Sample.repo_dir (Some "model**")
     = Raises (ValueError
                 "Invalid pattern: '**' can only be an entire path component").
Proof. repeat split; vm_compute; reflexivity. Qed.

(** Required artifacts that are missing, with download switched off. *)
Example missing_artifacts_without_download :
  (Sample.ensure_model_store Sample.defaults
     (Sample.world Sample.empty_disk false None)).1
  = Raises
      (RuntimeError
         (artifacts_missing_message
            (resolve_repo_dir Sample.resolve Sample.defaults))
         None).
Proof. vm_compute. reflexivity. Qed.

(** The bootstrap command run with [--force] runs with force-refresh
    set, and prints the artifact directory. *)
Lemma bootstrap_force_sets_force_download (settings : Settings) :
  model_force_download (BootstrapModelStore.bootstrap_settings true settings)
  = true
  /\ model_repo_id (BootstrapModelStore.bootstrap_settings true settings)
     = model_repo_id settings
  /\ model_store_dir (BootstrapModelStore.bootstrap_settings true settings)
     = model_store_dir settings.
Proof. repeat split. Qed.

Example bootstrap_prints_repo_dir :
  (BootstrapModelStore.main Sample.resolve Sample.glob_match false
     Sample.defaults Sample.fresh).1
  = Returns "/srv/ocr/model_store/allenai--olmOCR-2-7B-1025-FP8".
Proof. vm_compute. reflexivity. Qed.

End ModelStoreSpec.

(** ** The launcher of the local backend *)

Module VllmLocalServerSpec.

Import Config Fs ModelStore VllmLocalServer.

Section Platform.

Variable resolve : string -> Path.
Variable glob_match : string -> Path -> bool.
Variable sys_executable : string.
Variable str_float : pyfloat -> string.
Variable shlex_split : string -> outcome string (list string).
Variable os_environ : list (string * string).

(** The launcher discards what [ensure_model_store] returns: the model
    path it hands to the backend is the artifact directory, computed again
    by [resolve_repo_dir], and the launcher goes on only when that is a
    directory. *)
Lemma main_launches_from_repo_dir (settings : Settings) (w w' : World)
    (e : Exec) :
  main resolve glob_match sys_executable str_float shlex_split os_environ
    settings w = (Returns e, w') ->
  is_dir (fs w') (resolve_repo_dir resolve settings) = true
  /\ exists rest,
       exec_args e
       = ([sys_executable; "-m"; "app.vllm_no_flash_entrypoint";
           "--host"; vllm_host settings;
           "--port"; str_int (vllm_port settings);
           "--model"; path_str (resolve_repo_dir resolve settings)]
          ++ rest)%list.
Proof.
  unfold main, bind, gets.
  destruct (ensure_model_store resolve glob_match settings w) as [[a|x] w1];
    [|discriminate].
  destruct (exists_ (fs w1) _ && is_dir (fs w1) _) eqn:Hpresent;
    cbn [negb]; [|discriminate].
  apply andb_true_iff in Hpresent as [_ Hdir].
  destruct (vllm_additional_args settings) as [args|];
    [destruct (String.eqb args ""); [|destruct (shlex_split args)]|];
    unfold ret, raise; intros [= <- <-];
    (split; [exact Hdir|]); cbn [exec_args];
    rewrite <- ?app_assoc; eexists; reflexivity.
Qed.

End Platform.

End VllmLocalServerSpec.

(** ** Inference request pipeline *)

Module PipelineSpec.

Import Config Pipeline.

Lemma frame_refl (w : World) : frame w w.
Proof. repeat split. by exists []. Qed.

Lemma frame_trans (w1 w2 w3 : World) : frame w1 w2 -> frame w2 w3 -> frame w1 w3.
Proof.
  intros (A1 & B1 & C1 & D1 & t1 & E1) (A2 & B2 & C2 & D2 & t2 & E2).
  repeat split; try congruence.
  exists (t2 ++ t1)%list. by rewrite E2, E1, app_assoc.
Qed.

Lemma framed_ret {A} (a : A) : framed (ret a).
Proof. intros w. apply frame_refl. Qed.

Lemma framed_raise {A} (e : exn) : framed (raise (A := A) e).
Proof. intros w. apply frame_refl. Qed.

Lemma framed_lift {A} (r : outcome exn A) : framed (lift r).
Proof. intros w. apply frame_refl. Qed.

Lemma framed_gets {A} (f : World -> A) : framed (gets f).
Proof. intros w. apply frame_refl. Qed.

Lemma framed_emit (e : event) : framed (emit e).
Proof. intros w. repeat split. by exists [e]. Qed.

Lemma framed_time_perf_counter : framed time_perf_counter.
Proof. intros w. repeat split. by exists []. Qed.

Lemma framed_bind {A B} (m : M World exn A) (k : A -> M World exn B) :
  framed m -> (forall a, framed (k a)) -> framed (bind m k).
Proof.
  intros Hm Hk w. unfold bind. specialize (Hm w).
  destruct (m w) as [[a|e] w1]; [|exact Hm].
  eapply frame_trans; [exact Hm | apply Hk].
Qed.

Lemma framed_try_except {A} (m : M World exn A) (h : exn -> M World exn A) :
  framed m -> (forall e, framed (h e)) -> framed (try_except m h).
Proof.
  intros Hm Hh w. unfold try_except. specialize (Hm w).
  destruct (m w) as [[a|e] w1]; [exact Hm|].
  eapply frame_trans; [exact Hm | apply Hh].
Qed.

Lemma framed_wait_for (c : Coroutine) (timeout : Z) : framed (wait_for c timeout).
Proof.
  unfold wait_for. destruct (timeout <=? 0); [apply framed_raise|].
  destruct (Qle_bool _ _); [|apply framed_raise].
  destruct (result c); [apply framed_ret | apply framed_raise].
Qed.


Lemma bind_returns {A B} (m : M World exn A) (k : A -> M World exn B)
    (w w' : World) (b : B) :
  bind m k w = (Returns b, w') ->
  exists a w1, m w = (Returns a, w1) /\ k a w1 = (Returns b, w').
Proof.
  unfold bind. destruct (m w) as [[a|e] w1]; [eauto | discriminate].
Qed.

Lemma logs_hold_no_call (logs : list event) :
  forallb is_log logs = true ->
  existsb is_file_read logs = false /\ existsb is_run_ocr logs = false.
Proof.
  induction logs as [|e logs IH]; [done|]. simpl.
  intros [He Hl]%andb_true_iff. destruct (IH Hl) as [-> ->].
  by destruct e.
Qed.

Lemma new_request_events_app (w w' : World) (added : list event) :
  trace w' = (added ++ trace w)%list -> new_events w w' = added.
Proof.
  intros H. unfold new_events. rewrite H, length_app.
  replace (length added + length (trace w) - length (trace w))%nat
    with (length added) by lia.
  apply take_app_length.
Qed.

Lemma wait_for_exceeds (c : Coroutine) (timeout : Z) (w : World) :
  exceeds_timeout c timeout = true ->
  wait_for c timeout w = (Raises AsyncioTimeoutError, w).
Proof.
  unfold exceeds_timeout, wait_for. intros H%negb_true_iff.
  destruct (timeout <=? 0); [reflexivity|]. by rewrite H.
Qed.

Ltac framed_step :=
  first
    [ apply framed_ret | apply framed_raise | apply framed_lift
    | apply framed_gets | apply framed_emit | apply framed_time_perf_counter
    | apply framed_wait_for
    | apply framed_bind; [|intros ?]
    | apply framed_try_except; [|intros ?]
    | match goal with
      | |- framed (match ?x with _ => _ end) => destruct x
      end ].

Section Service.

Variable ALLOWED_CONTENT_TYPES : list string.
Variable normalize_image_mime_type : string -> outcome exn string.
Variable to_data_url : list byte -> string -> outcome exn string.
Variable str_validation_error : Request -> string.
Variable framework_answer : Request -> Z * string.

Local Abbreviation ocr :=
  (Pipeline.ocr ALLOWED_CONTENT_TYPES normalize_image_mime_type to_data_url).
Local Abbreviation router :=
  (Pipeline.router ALLOWED_CONTENT_TYPES normalize_image_mime_type to_data_url
     str_validation_error framework_answer).
Local Abbreviation app :=
  (Pipeline.app ALLOWED_CONTENT_TYPES normalize_image_mime_type to_data_url
     str_validation_error framework_answer).
Local Abbreviation allowed := (Pipeline.allowed ALLOWED_CONTENT_TYPES).

Lemma framed_ocr (s : Settings) (file : UploadFile) : framed (ocr s file).
Proof.
  unfold Pipeline.ocr, file_read, file_close, logger, call_run_ocr.
  repeat framed_step.
Qed.

Lemma framed_router (s : Settings) (request : Request) : framed (router s request).
Proof.
  unfold Pipeline.router, healthz.
  repeat framed_step; apply framed_ocr.
Qed.

Lemma router_ocr (s : Settings) (request : Request) (file : UploadFile) :
  ocr_request request file ->
  router s request = (let* b := ocr s file in ret (ok b)).
Proof. intros (Hp & Hm & Hu). unfold Pipeline.router. by rewrite Hp, Hm, Hu. Qed.

(** The application answers every request: what it sends is determined by
    the outcome of the route, and it adds only log entries of its own. *)
Lemma app_run (s : Settings) (request : Request) (w w4 : World) r :
  router s request (entered request w) = (r, w4) ->
  exists w' logs,
    app s request w = (Returns (respond (correlation_id request w) r), w')
    /\ trace w' = (logs ++ trace w4)%list
    /\ forallb is_log logs = true.
Proof.
  intros Hr.
  pose proof (framed_router s request (entered request w)) as Hf.
  rewrite Hr in Hf. destruct Hf as (_ & _ & _ & Hstate & _).
  cbn [snd state_request_id entered] in Hstate.
  unfold Pipeline.app, server_error_handler, request_context_middleware,
    exception_handlers, api_error_handler, validation_error_handler,
    generic_error_handler, state_request_id_or_uuid, logger.
  unfold bind, try_except, set_state_request_id, modify, str_uuid4,
    time_perf_counter, emit, gets, ret, raise.
  cbn [uuid4 uuid_count perf_counter clock_count run_ocr state_request_id trace].
  fold (correlation_id request w). fold (entered request w).
  rewrite Hr.
  destruct r as [resp|[st c m|d| |d|a b c d|n]];
    cbn [uuid4 uuid_count perf_counter clock_count run_ocr state_request_id trace];
    rewrite ?Hstate; unfold respond, set_header; cbn [response_headers List.filter];
    eexists _, _; (split; [reflexivity|]); cbn [trace];
    first [ by instantiate (1 := [_]) | by instantiate (1 := [_; _]) ].
Qed.


Local Ltac run_ocr_to_gate Hstate :=
  unfold Pipeline.ocr; unfold bind at 1, gets at 1; rewrite Hstate;
  unfold bind at 1, time_perf_counter at 1.

(** The content-type gate: the handler raises before it reads the body. *)
Lemma ocr_unsupported_media_type (s : Settings) (file : UploadFile)
    (w : World) (rid : string) :
  state_request_id w = Some rid ->
  allowed (content_type file) = false ->
  exists w',
    ocr s file w
    = (Raises (APIError 415 "unsupported_media_type"
                 ("Unsupported file type: " ++ str_opt (content_type file))),
       w')
    /\ trace w' = trace w.
Proof.
  intros Hstate Hct. run_ocr_to_gate Hstate. rewrite Hct. cbn [negb].
  eexists. split; reflexivity.
Qed.

(** The size gate: the handler raises once the body is read, before it
    encodes it or calls the gateway. *)
Lemma ocr_file_too_large (s : Settings) (file : UploadFile) (w : World)
    (rid : string) :
  state_request_id w = Some rid ->
  allowed (content_type file) = true ->
  content file <> [] ->
  Z.of_nat (length (content file)) > max_upload_bytes s ->
  exists w',
    ocr s file w
    = (Raises (APIError 413 "file_too_large"
                 ("File exceeds " ++ str_int (max_upload_megabytes s)
                  ++ "MB limit.")),
       w')
    /\ trace w' = EvFileClose :: EvFileRead :: trace w.
Proof.
  intros Hstate Hct Hne Hlen. run_ocr_to_gate Hstate. rewrite Hct. cbn [negb].
  unfold file_read, file_close, bind, emit, modify, ret, raise.
  destruct (content file) as [|b bs] eqn:Hc; [done|].
  apply Z.gt_lt, Z.ltb_lt in Hlen. rewrite Z.gtb_ltb, Hlen.
  eexists. split; reflexivity.
Qed.

(** The empty-body gate. *)
Lemma ocr_empty_file (s : Settings) (file : UploadFile) (w : World)
    (rid : string) :
  state_request_id w = Some rid ->
  allowed (content_type file) = true ->
  content file = [] ->
  exists w',
    ocr s file w
    = (Raises (APIError 400 "empty_file" "Uploaded file is empty."), w')
    /\ trace w' = EvFileClose :: EvFileRead :: trace w.
Proof.
  intros Hstate Hct Hc. run_ocr_to_gate Hstate. rewrite Hct. cbn [negb].
  unfold file_read, file_close, bind, emit, modify, ret, raise. rewrite Hc.
  eexists. split; reflexivity.
Qed.

(** The deadline: a gateway call that needs longer than the inference
    timeout ends the request with [inference_timeout]. *)
Lemma ocr_inference_timeout (s : Settings) (file : UploadFile) (w : World)
    (rid mime url : string) :
  state_request_id w = Some rid ->
  allowed (content_type file) = true ->
  content file <> [] ->
  Z.of_nat (length (content file)) <= max_upload_bytes s ->
  normalize_image_mime_type (declared_type file) = Returns mime ->
  to_data_url (content file) mime = Returns url ->
  exceeds_timeout (run_ocr w url) (inference_timeout_seconds s) = true ->
  exists w',
    ocr s file w
    = (Raises (APIError 408 "inference_timeout" "Inference timed out."), w')
    /\ trace w'
       = EvLog "ERROR" "vLLM inference timeout" rid :: EvRunOcr url
         :: EvLog "INFO" "OCR request accepted" rid
         :: EvFileClose :: EvFileRead :: trace w.
Proof.
  intros Hstate Hct Hne Hlen Hmime Hurl Hslow.
  run_ocr_to_gate Hstate. rewrite Hct. cbn [negb].
  unfold file_read, file_close, logger, call_run_ocr, lift, bind, try_except,
    emit, modify, gets, ret, raise.
  destruct (content file) as [|b bs] eqn:Hc; [done|].
  assert (Hle : (Z.of_nat (length (b :: bs)) >? max_upload_bytes s) = false).
  { rewrite Z.gtb_ltb. apply Z.ltb_ge. exact Hlen. }
  rewrite Hle. fold (declared_type file). rewrite Hmime, Hurl.
  cbn [run_ocr trace]. rewrite wait_for_exceeds by exact Hslow.
  eexists. split; reflexivity.
Qed.

(** A gateway call that ends with the gateway's own timeout error is
    answered in the same way. *)
Lemma ocr_gateway_timeout (s : Settings) (file : UploadFile) (w : World)
    (rid mime url detail : string) :
  state_request_id w = Some rid ->
  allowed (content_type file) = true ->
  content file <> [] ->
  Z.of_nat (length (content file)) <= max_upload_bytes s ->
  normalize_image_mime_type (declared_type file) = Returns mime ->
  to_data_url (content file) mime = Returns url ->
  result (run_ocr w url) = Failed (VLLMTimeoutError detail) ->
  exists w',
    ocr s file w
    = (Raises (APIError 408 "inference_timeout" "Inference timed out."), w').
Proof.
  intros Hstate Hct Hne Hlen Hmime Hurl Hres.
  run_ocr_to_gate Hstate. rewrite Hct. cbn [negb].
  unfold file_read, file_close, logger, call_run_ocr, lift, bind, try_except,
    emit, modify, gets, ret, raise.
  destruct (content file) as [|b bs] eqn:Hc; [done|].
  assert (Hle : (Z.of_nat (length (b :: bs)) >? max_upload_bytes s) = false).
  { rewrite Z.gtb_ltb. apply Z.ltb_ge. exact Hlen. }
  rewrite Hle. fold (declared_type file). rewrite Hmime, Hurl.
  cbn [run_ocr trace]. unfold wait_for, raise, ret.
  destruct (_ <=? 0); [eexists; reflexivity|].
  destruct (Qle_bool _ _); [|eexists; reflexivity].
  rewrite Hres. eexists; reflexivity.
Qed.

(** A body the handler returns carries the request's identifier. *)
Lemma ocr_returns (s : Settings) (file : UploadFile) (w w' : World) (b : body) :
  ocr s file w = (Returns b, w') ->
  exists rid markdown ms,
    state_request_id w = Some rid
    /\ b = OCRResponse rid (model_name s) markdown ms.
Proof.
  unfold Pipeline.ocr. unfold bind at 1, gets at 1.
  destruct (state_request_id w) as [rid|]; [|discriminate].
  intros H. exists rid.
  repeat first
    [ discriminate H
    | apply bind_returns in H as (? & ? & _ & H)
    | match type of H with
      | (if ?c then _ else _) _ = _ => destruct c
      | (match ?x with _ => _ end) _ = _ => destruct x
      end ].
  injection H as <- _. eauto.
Qed.

Lemma router_returns (s : Settings) (request : Request) (w w' : World)
    (resp : Response) :
  router s request w = (Returns resp, w') ->
  match response_body resp with
  | OCRResponse rid _ _ _ => state_request_id w = Some rid
  | ErrorResponse _ _ _ => False
  | HealthStatus _ | PlainDetail _ => response_headers resp = []
  end.
Proof.
  unfold Pipeline.router, healthz.
  destruct (String.eqb (path request) "/healthz" && _); [by intros [= <- _]|].
  destruct (String.eqb (path request) "/api/v1/ocr" && _);
    [|by intros [= <- _]].
  destruct (upload request) as [file|]; [|discriminate].
  intros H. apply bind_returns in H as (b & w1 & Hocr & H).
  injection H as <- _.
  apply ocr_returns in Hocr as (rid & md & ms & Hs & ->). exact Hs.
Qed.


(** How the application answers a request whose route raises an
    [APIError]. *)
Lemma app_answers_api_error (s : Settings) (request : Request)
    (file : UploadFile) (w w4 : World) (status : Z) (code message : string)
    (added : list event) :
  ocr_request request file ->
  ocr s file (entered request w) = (Raises (APIError status code message), w4) ->
  trace w4 = (added ++ trace w)%list ->
  exists w' logs,
    app s request w
    = (Returns
         {| status_code := status;
            response_headers := [("x-request-id", correlation_id request w)];
            response_body :=
              ErrorResponse (correlation_id request w) code message |},
       w')
    /\ new_events w w' = (logs ++ added)%list
    /\ forallb is_log logs = true.
Proof.
  intros Hroute Hocr Htrace.
  assert (Hr : router s request (entered request w)
               = (Raises (APIError status code message), w4)).
  { rewrite (router_ocr _ _ _ Hroute). unfold bind. by rewrite Hocr. }
  destruct (app_run _ _ _ _ _ Hr) as (w' & logs & Happ & Ht & Hlogs).
  exists w', logs. split; [exact Happ|]. split; [|exact Hlogs].
  apply new_request_events_app. by rewrite Ht, Htrace, app_assoc.
Qed.

Lemma existsb_app_false {A} (f : A -> bool) (l1 l2 : list A) :
  existsb f l1 = false -> existsb f l2 = false -> existsb f (l1 ++ l2) = false.
Proof. intros H1 H2. by rewrite existsb_app, H1, H2. Qed.

(** C5.  An upload whose declared content type is not in the allow-list is
    answered with status 415 and error code [unsupported_media_type]; the
    body is not read and the gateway is not called. *)
Theorem unsupported_media_type_rejected (s : Settings) (request : Request)
    (file : UploadFile) (w : World) :
  ocr_request request file ->
  allowed (content_type file) = false ->
  exists w',
    app s request w
    = (Returns
         {| status_code := 415;
            response_headers := [("x-request-id", correlation_id request w)];
            response_body :=
              ErrorResponse (correlation_id request w) "unsupported_media_type"
                ("Unsupported file type: " ++ str_opt (content_type file)) |},
       w')
    /\ existsb is_file_read (new_events w w') = false
    /\ existsb is_run_ocr (new_events w w') = false.
Proof.
  intros Hroute Hct.
  destruct (ocr_unsupported_media_type s file (entered request w)
              (correlation_id request w) eq_refl Hct) as (w4 & Hocr & Ht).
  destruct (app_answers_api_error s request file w w4 _ _ _ [] Hroute Hocr Ht)
    as (w' & logs & Happ & Hnew & Hlogs).
  exists w'. split; [exact Happ|]. rewrite Hnew, app_nil_r.
  by apply logs_hold_no_call.
Qed.

(** C1 (as amended).  An upload of an allowed content type whose non-empty
    body is longer than the configured ceiling is answered with status 413
    and error code [file_too_large], whatever the gateway would do: the
    gateway is not called. *)
Theorem file_too_large_rejected (s : Settings) (request : Request)
    (file : UploadFile) (w : World) :
  ocr_request request file ->
  allowed (content_type file) = true ->
  content file <> [] ->
  Z.of_nat (length (content file)) > max_upload_bytes s ->
  exists w',
    app s request w
    = (Returns
         {| status_code := 413;
            response_headers := [("x-request-id", correlation_id request w)];
            response_body :=
              ErrorResponse (correlation_id request w) "file_too_large"
                ("File exceeds " ++ str_int (max_upload_megabytes s)
                 ++ "MB limit.") |},
       w')
    /\ existsb is_run_ocr (new_events w w') = false.
Proof.
  intros Hroute Hct Hne Hlen.
  destruct (ocr_file_too_large s file (entered request w)
              (correlation_id request w) eq_refl Hct Hne Hlen)
    as (w4 & Hocr & Ht).
  destruct (app_answers_api_error s request file w w4 _ _ _
              [EvFileClose; EvFileRead] Hroute Hocr Ht)
    as (w' & logs & Happ & Hnew & Hlogs).
  exists w'. split; [exact Happ|]. rewrite Hnew.
  apply existsb_app_false; [by apply logs_hold_no_call | reflexivity].
Qed.

(** C6.  A gateway call that needs longer than the configured inference
    timeout is answered with status 408 and error code
    [inference_timeout], which is neither 500 nor 503. *)
Theorem inference_timeout_answered (s : Settings) (request : Request)
    (file : UploadFile) (w : World) (mime url : string) :
  ocr_request request file ->
  allowed (content_type file) = true ->
  content file <> [] ->
  Z.of_nat (length (content file)) <= max_upload_bytes s ->
  normalize_image_mime_type (declared_type file) = Returns mime ->
  to_data_url (content file) mime = Returns url ->
  exceeds_timeout (run_ocr w url) (inference_timeout_seconds s) = true ->
  exists resp w',
    app s request w = (Returns resp, w')
    /\ resp
       = {| status_code := 408;
            response_headers := [("x-request-id", correlation_id request w)];
            response_body :=
              ErrorResponse (correlation_id request w) "inference_timeout"
                "Inference timed out." |}
    /\ status_code resp <> 500 /\ status_code resp <> 503
    /\ existsb is_run_ocr (new_events w w') = true.
Proof.
  intros Hroute Hct Hne Hlen Hmime Hurl Hslow.
  destruct (ocr_inference_timeout s file (entered request w)
              (correlation_id request w) mime url eq_refl Hct Hne Hlen Hmime
              Hurl Hslow) as (w4 & Hocr & Ht).
  destruct (app_answers_api_error s request file w w4 _ _ _
              [EvLog "ERROR" "vLLM inference timeout" (correlation_id request w);
               EvRunOcr url;
               EvLog "INFO" "OCR request accepted" (correlation_id request w);
               EvFileClose; EvFileRead] Hroute Hocr Ht)
    as (w' & logs & Happ & Hnew & Hlogs).
  eexists _, w'. split; [exact Happ|]. split; [reflexivity|].
  cbn [status_code]. split; [discriminate|]. split; [discriminate|].
  rewrite Hnew, existsb_app. apply orb_true_iff. by right.
Qed.

Lemma headers_find_set_header (resp : Response) (id : string) :
  headers_find (response_headers (set_header resp "x-request-id" id))
    "x-request-id" = Some id.
Proof. reflexivity. Qed.

(** C9.  Every request is answered; the correlation id is the value of the
    inbound [x-request-id] header when there is one and else the identifier
    the generator yields for this request; every success body and every
    error body carries it, and so does the header of every response that
    has no such body. *)
Theorem correlation_id_in_every_response (s : Settings) (request : Request)
    (w : World) :
  exists resp w',
    app s request w = (Returns resp, w')
    /\ (forall v, headers_find (headers request) "x-request-id" = Some v ->
                  correlation_id request w = v)
    /\ (headers_find (headers request) "x-request-id" = None ->
        correlation_id request w = uuid4 w (uuid_count w))
    /\ match response_body resp with
       | OCRResponse rid _ _ _ | ErrorResponse rid _ _ =>
           rid = correlation_id request w
       | HealthStatus _ | PlainDetail _ =>
           response_headers resp = [("x-request-id", correlation_id request w)]
       end
    /\ (status_code resp <> 500 ->
        headers_find (response_headers resp) "x-request-id"
        = Some (correlation_id request w)).
Proof.
  destruct (router s request (entered request w)) as [r w4] eqn:Hr.
  destruct (app_run _ _ _ _ _ Hr) as (w' & logs & Happ & _ & _).
  eexists _, w'. split; [exact Happ|].
  split; [intros v Hv; unfold correlation_id, headers_get; by rewrite Hv|].
  split; [intros Hv; unfold correlation_id, headers_get; by rewrite Hv|].
  destruct r as [resp|e].
  - apply router_returns in Hr. unfold respond.
    split; [|intros _; apply headers_find_set_header].
    cbn [response_body set_header].
    destruct (response_body resp) as [rid ? ? ?|? ? ?|?|?].
    + cbn [state_request_id entered] in Hr. by injection Hr.
    + destruct Hr.
    + unfold set_header. cbn [response_headers]. by rewrite Hr.
    + unfold set_header. cbn [response_headers]. by rewrite Hr.
  - destruct e; cbn [respond response_body status_code response_headers];
      (split; [reflexivity|]); first [ done | reflexivity | intros _; reflexivity ].
Qed.

End Service.


Lemma twenty_megabytes_length : Z.of_nat (length Sample.twenty_megabytes) = 20971520.
Proof. unfold Sample.twenty_megabytes. rewrite length_replicate. lia. Qed.

Lemma twenty_megabytes_nonempty : Sample.twenty_megabytes <> [].
Proof.
  intros H. pose proof twenty_megabytes_length as Hlen. rewrite H in Hlen.
  discriminate Hlen.
Qed.

Lemma sample_ocr_request hs ct payload :
  ocr_request (Sample.post_ocr hs ct payload)
    {| content_type := ct; filename := Some "scan"; content := payload |}.
Proof. repeat split. Qed.

(** C1, as stated, fails: a 20 MB upload declared as [application/pdf],
    against a ceiling of 15 MB, is answered with 415, not 413. *)
Lemma oversized_upload_of_disallowed_type :
  Z.of_nat (length Sample.twenty_megabytes) > max_upload_bytes Sample.defaults
  /\ exists w',
       Sample.app Sample.defaults
         (Sample.post_ocr [] (Some "application/pdf") Sample.twenty_megabytes)
         (Sample.process (Sample.gateway 2 "Hello World"))
       = (Returns
            {| status_code := 415;
               response_headers := [("x-request-id", "generated-0")];
               response_body :=
                 ErrorResponse "generated-0" "unsupported_media_type"
                   "Unsupported file type: application/pdf" |},
          w').
Proof.
  split; [rewrite twenty_megabytes_length; reflexivity|].
  set (request := Sample.post_ocr [] (Some "application/pdf")
                    Sample.twenty_megabytes).
  set (w := Sample.process (Sample.gateway 2 "Hello World")).
  destruct (ocr_unsupported_media_type Sample.ALLOWED_CONTENT_TYPES
              Sample.normalize_image_mime_type Sample.to_data_url
              Sample.defaults
              {| content_type := Some "application/pdf";
                 filename := Some "scan";
                 content := Sample.twenty_megabytes |}
              (entered request w) "generated-0" eq_refl eq_refl)
    as (w4 & Hocr & Ht).
  destruct (app_answers_api_error Sample.ALLOWED_CONTENT_TYPES
              Sample.normalize_image_mime_type Sample.to_data_url
              Sample.str_validation_error Sample.framework_answer
              Sample.defaults request _ w w4 _ _ _ []
              (sample_ocr_request _ _ _) Hocr Ht)
    as (w' & logs & Happ & _).
  exists w'. exact Happ.
Qed.

(** A 20 MB JPEG against a ceiling of 15 MB. *)
Lemma file_too_large_rejected_witness :
  Pipeline.allowed Sample.ALLOWED_CONTENT_TYPES (Some "image/jpeg") = true
  /\ Sample.twenty_megabytes <> []
  /\ Z.of_nat (length Sample.twenty_megabytes) > max_upload_bytes Sample.defaults
  /\ exists w',
       Sample.app Sample.defaults
         (Sample.post_ocr [] (Some "image/jpeg") Sample.twenty_megabytes)
         (Sample.process (Sample.gateway 2 "Hello World"))
       = (Returns
            {| status_code := 413;
               response_headers := [("x-request-id", "generated-0")];
               response_body :=
                 ErrorResponse "generated-0" "file_too_large"
                   "File exceeds 15MB limit." |},
          w')
       /\ existsb is_run_ocr
            (new_events (Sample.process (Sample.gateway 2 "Hello World")) w')
          = false.
Proof.
  assert (Hct : Pipeline.allowed Sample.ALLOWED_CONTENT_TYPES (Some "image/jpeg")
                = true) by reflexivity.
  assert (Hlen : Z.of_nat (length Sample.twenty_megabytes)
                 > max_upload_bytes Sample.defaults)
    by (rewrite twenty_megabytes_length; reflexivity).
  split; [exact Hct|]. split; [exact twenty_megabytes_nonempty|].
  split; [exact Hlen|].
  exact (file_too_large_rejected Sample.ALLOWED_CONTENT_TYPES
           Sample.normalize_image_mime_type Sample.to_data_url
           Sample.str_validation_error Sample.framework_answer Sample.defaults
           (Sample.post_ocr [] (Some "image/jpeg") Sample.twenty_megabytes) _
           (Sample.process (Sample.gateway 2 "Hello World"))
           (sample_ocr_request _ _ _) Hct twenty_megabytes_nonempty Hlen).
Defined.


(** An upload declared as [application/pdf]. *)
Lemma unsupported_media_type_rejected_witness :
  ocr_request (Sample.post_ocr [("X-Request-ID", "req-7")] (Some "application/pdf") [x25; x50])
    {| content_type := Some "application/pdf"; filename := Some "scan";
       content := [x25; x50] |}
  /\ Pipeline.allowed Sample.ALLOWED_CONTENT_TYPES (Some "application/pdf")
     = false
  /\ exists w',
       Sample.app Sample.defaults
         (Sample.post_ocr [("X-Request-ID", "req-7")] (Some "application/pdf")
            [x25; x50])
         (Sample.process (Sample.gateway 2 "Hello World"))
       = (Returns
            {| status_code := 415;
               response_headers := [("x-request-id", "req-7")];
               response_body :=
                 ErrorResponse "req-7" "unsupported_media_type"
                   "Unsupported file type: application/pdf" |},
          w')
       /\ existsb is_file_read
            (new_events (Sample.process (Sample.gateway 2 "Hello World")) w')
          = false
       /\ existsb is_run_ocr
            (new_events (Sample.process (Sample.gateway 2 "Hello World")) w')
          = false.
Proof.
  assert (Hct : Pipeline.allowed Sample.ALLOWED_CONTENT_TYPES
                  (Some "application/pdf") = false) by reflexivity.
  split; [apply sample_ocr_request|]. split; [exact Hct|].
  exact (unsupported_media_type_rejected Sample.ALLOWED_CONTENT_TYPES
           Sample.normalize_image_mime_type Sample.to_data_url
           Sample.str_validation_error Sample.framework_answer Sample.defaults
           (Sample.post_ocr [("X-Request-ID", "req-7")] (Some "application/pdf")
              [x25; x50])
           _ (Sample.process (Sample.gateway 2 "Hello World"))
           (sample_ocr_request _ _ _) Hct).
Defined.

(** A gateway that needs 200 seconds, against the default timeout of 90
    seconds. *)
Lemma inference_timeout_answered_witness :
  exceeds_timeout
    (run_ocr (Sample.process (Sample.gateway 200 "Hello World"))
       "data:image/png;base64,2-bytes")
    (inference_timeout_seconds Sample.defaults) = true
  /\ exists resp w',
       Sample.app Sample.defaults
         (Sample.post_ocr [] (Some "image/png") [x89; x50])
         (Sample.process (Sample.gateway 200 "Hello World"))
       = (Returns resp, w')
       /\ resp
          = {| status_code := 408;
               response_headers := [("x-request-id", "generated-0")];
               response_body :=
                 ErrorResponse "generated-0" "inference_timeout"
                   "Inference timed out." |}
       /\ status_code resp <> 500 /\ status_code resp <> 503
       /\ existsb is_run_ocr
            (new_events (Sample.process (Sample.gateway 200 "Hello World")) w')
          = true.
Proof.
  assert (Hslow :
    exceeds_timeout
      (run_ocr (Sample.process (Sample.gateway 200 "Hello World"))
         "data:image/png;base64,2-bytes")
      (inference_timeout_seconds Sample.defaults) = true) by reflexivity.
  split; [exact Hslow|].
  refine (inference_timeout_answered Sample.ALLOWED_CONTENT_TYPES
            Sample.normalize_image_mime_type Sample.to_data_url
            Sample.str_validation_error Sample.framework_answer Sample.defaults
            (Sample.post_ocr [] (Some "image/png") [x89; x50]) _
            (Sample.process (Sample.gateway 200 "Hello World"))
            "image/png" "data:image/png;base64,2-bytes"
            (sample_ocr_request _ _ _) eq_refl _ _ eq_refl eq_refl Hslow).
  - discriminate.
  - vm_compute. discriminate.
Defined.

(** The scenarios of the specification, run on the sample platform. *)
Example scenario_success :
  (Sample.app Sample.defaults
     (Sample.post_ocr [] (Some "image/jpeg") [xff; xd8; xff])
     (Sample.process (Sample.gateway 2 "  Hello World  "))).1
  = Returns
      {| status_code := 200;
         response_headers := [("x-request-id", "generated-0")];
         response_body :=
           OCRResponse "generated-0" "Sharifsetup-OCR" "Hello World" 1000 |}.
Proof. vm_compute. reflexivity. Qed.

Example scenario_empty_file :
  (Sample.app Sample.defaults (Sample.post_ocr [] (Some "image/png") [])
     (Sample.process (Sample.gateway 2 "Hello World"))).1
  = Returns
      {| status_code := 400;
         response_headers := [("x-request-id", "generated-0")];
         response_body :=
           ErrorResponse "generated-0" "empty_file" "Uploaded file is empty." |}.
Proof. vm_compute. reflexivity. Qed.

(** With a negative ceiling an empty body is longer than the ceiling, and
    is still answered as an empty file. *)
Example empty_file_under_negative_ceiling :
  Z.of_nat (length (@nil byte))
  > max_upload_bytes
      (with_max_upload_megabytes (F := fun T => T) (-1) Sample.defaults)
  /\ (Sample.app
        (with_max_upload_megabytes (F := fun T => T) (-1) Sample.defaults)
        (Sample.post_ocr [] (Some "image/png") [])
        (Sample.process (Sample.gateway 2 "Hello World"))).1
     = Returns
         {| status_code := 400;
            response_headers := [("x-request-id", "generated-0")];
            response_body :=
              ErrorResponse "generated-0" "empty_file" "Uploaded file is empty." |}.
Proof. split; vm_compute; reflexivity. Qed.

(** A timeout of 0 seconds, which the constructor accepts, makes every
    inference time out. *)
Example zero_timeout_times_out :
  (Sample.app
     (with_inference_timeout_seconds (F := fun T => T) 0 Sample.defaults)
     (Sample.post_ocr [] (Some "image/png") [x89; x50])
     (Sample.process (Sample.gateway 0 "Hello World"))).1
  = Returns
      {| status_code := 408;
         response_headers := [("x-request-id", "generated-0")];
         response_body :=
           ErrorResponse "generated-0" "inference_timeout"
             "Inference timed out." |}.
Proof. vm_compute. reflexivity. Qed.

(** A route that fails outside the handler's [try] is answered by the
    handler for [Exception]: the body carries the correlation id, the
    response has no correlation header. *)
Example unexpected_failure_answered_500 :
  (Pipeline.app Sample.ALLOWED_CONTENT_TYPES Sample.normalize_image_mime_type
     (fun _ _ => Raises (OtherException "ValueError"))
     Sample.str_validation_error Sample.framework_answer Sample.defaults
     (Sample.post_ocr [("x-request-id", "req-9")] (Some "image/png") [x89])
     (Sample.process (Sample.gateway 2 "Hello World"))).1
  = Returns
      {| status_code := 500; response_headers := [];
         response_body :=
           ErrorResponse "req-9" "internal_server_error"
             "Unexpected server error." |}.
Proof. vm_compute. reflexivity. Qed.

End PipelineSpec.

(** * Further properties of the code

    What the functions guarantee beyond the sentences of the specification. *)

(** ** Configuration *)

Module ConfigProps.
Import Config PyStr.

Lemma rstrip_by_idem (p : ascii -> bool) (s : string) :
  rstrip_by p (rstrip_by p s) = rstrip_by p s.
Proof.
  induction s as [|c r IH]; [reflexivity|].
  simpl. destruct (rstrip_by p r) as [|d r'] eqn:Hr.
  - destruct (p c) eqn:Hc; [reflexivity|]. simpl. by rewrite Hc.
  - simpl in *. rewrite IH. reflexivity.
Qed.

Lemma lstrip_by_idem (p : ascii -> bool) (s : string) :
  lstrip_by p (lstrip_by p s) = lstrip_by p s.
Proof.
  induction s as [|c r IH]; [reflexivity|].
  simpl. destruct (p c) eqn:Hc; [exact IH|]. simpl. by rewrite Hc.
Qed.

Lemma rstrip_by_lstrip_by (p : ascii -> bool) (s : string) :
  rstrip_by p s = s -> rstrip_by p (lstrip_by p s) = lstrip_by p s.
Proof.
  induction s as [|c r IH]; [reflexivity|].
  intros H. simpl. destruct (p c) eqn:Hc; [|exact H].
  apply IH. simpl in H. rewrite Hc in H.
  destruct (rstrip_by p r) as [|d r'] eqn:Hr; [discriminate|].
  by injection H.
Qed.

Lemma strip_idem (s : string) : strip (strip s) = strip s.
Proof.
  unfold strip.
  rewrite (rstrip_by_lstrip_by _ _ (rstrip_by_idem _ s)).
  apply lstrip_by_idem.
Qed.

Lemma rstrip_by_last (p : ascii -> bool) (s : string) (c : ascii) :
  p c = true -> endswith (rstrip_by p s) (String c "") = false.
Proof.
  intros Hc. induction s as [|d r IH]; [reflexivity|].
  simpl. destruct (rstrip_by p r) as [|e r'] eqn:Hr.
  - destruct (p d) eqn:Hd; [reflexivity|].
    simpl. destruct (Ascii.eqb_spec d c) as [->|]; [congruence|reflexivity].
  - change (endswith (String d (String e r')) (String c ""))
      with (String.eqb (String d (String e r')) (String c "")
            || endswith (String e r') (String c "")).
    rewrite IH. simpl. by destruct (Ascii.eqb d c).
Qed.

Lemma mem_In (x : string) (xs : list string) : mem x xs = true -> In x xs.
Proof.
  unfold mem. rewrite existsb_exists. intros (y & Hy & Heq).
  apply String.eqb_eq in Heq. by subst.
Qed.

Lemma validate_log_level_returns (value level : string) :
  validate_log_level value = Returns level ->
  In level ["CRITICAL"; "ERROR"; "WARNING"; "INFO"; "DEBUG"].
Proof.
  unfold validate_log_level.
  destruct (mem _ _) eqn:Hm; [|discriminate].
  cbn [negb]. intros [= <-]. by apply mem_In.
Qed.

Lemma validate_vllm_dtype_returns (value dtype : string) :
  validate_vllm_dtype value = Returns dtype ->
  In dtype ["auto"; "half"; "float16"; "bfloat16"; "float"; "float32"].
Proof.
  unfold validate_vllm_dtype.
  destruct (mem _ _) eqn:Hm; [|discriminate].
  cbn [negb]. intros [= <-]. by apply mem_In.
Qed.

(** X2.  The validators of the log level and of the tensor type return only
    members of their sets, in canonical spelling (upper case for levels,
    lower case for types), and a value they return is a fixed point: it
    validates to itself. *)
Theorem enumerated_values_canonical (value : string) :
  (forall level, validate_log_level value = Returns level ->
     In level ["CRITICAL"; "ERROR"; "WARNING"; "INFO"; "DEBUG"]
     /\ validate_log_level level = Returns level)
  /\ (forall dtype, validate_vllm_dtype value = Returns dtype ->
        In dtype ["auto"; "half"; "float16"; "bfloat16"; "float"; "float32"]
        /\ validate_vllm_dtype dtype = Returns dtype).
Proof.
  split.
  - intros level. unfold validate_log_level.
    destruct (mem _ _) eqn:Hm; [|discriminate].
    cbn [negb]. intros [= <-]. apply mem_In in Hm.
    split; [exact Hm|].
    revert Hm. generalize (strip (upper value)). intros l Hl.
    repeat (destruct Hl as [<-|Hl]; [reflexivity|]). destruct Hl.
  - intros dtype. unfold validate_vllm_dtype.
    destruct (mem _ _) eqn:Hm; [|discriminate].
    cbn [negb]. intros [= <-]. apply mem_In in Hm.
    split; [exact Hm|].
    revert Hm. generalize (lower (strip value)). intros l Hl.
    repeat (destruct Hl as [<-|Hl]; [reflexivity|]). destruct Hl.
Qed.

Lemma validate_float_accepts (x : pyfloat) :
  PyFloat.le x (Fnum 0) || PyFloat.gt x (Fnum 1) = false <->
  x = Fnan \/ exists q, x = Fnum q /\ (0 < q)%Q /\ (q <= 1)%Q.
Proof.
  destruct x as [q| [|] |]; simpl.
  - rewrite orb_false_iff, negb_false_iff.
    split.
    + intros [H0 H1]. right. exists q. split; [reflexivity|].
      split.
      * apply Qnot_le_lt. intros Hle. apply Qle_bool_iff in Hle. congruence.
      * by apply Qle_bool_iff.
    + intros [|(q' & [= <-] & H0 & H1)]; [discriminate|].
      split.
      * destruct (Qle_bool q 0) eqn:Hle; [|reflexivity].
        apply Qle_bool_iff in Hle. exfalso. eapply Qlt_not_le; eauto.
      * by apply Qle_bool_iff.
  - split; [discriminate|]. intros [|(q & ? & _)]; discriminate.
  - split; [discriminate|]. intros [|(q & ? & _)]; discriminate.
  - split; [by left|reflexivity].
Qed.

(** X3.  The validators of the two fractions ([top_p] and the GPU-memory
    fraction) return the value unchanged, and accept exactly the finite
    values above 0 and at most 1 and, since both comparisons are false for
    it, NaN; both infinities are refused. *)
Theorem fraction_validators_accept (value : pyfloat) :
  (validate_top_p value = Returns value
   <-> value = Fnan \/ exists q, value = Fnum q /\ (0 < q)%Q /\ (q <= 1)%Q)
  /\ (validate_vllm_gpu_memory_utilization value = Returns value
      <-> value = Fnan \/ exists q, value = Fnum q /\ (0 < q)%Q /\ (q <= 1)%Q)
  /\ (forall accepted,
        validate_top_p value = Returns accepted
        \/ validate_vllm_gpu_memory_utilization value = Returns accepted ->
        accepted = value).
Proof.
  pose proof (validate_float_accepts value) as H.
  unfold validate_top_p, validate_vllm_gpu_memory_utilization.
  destruct (PyFloat.le value (Fnum 0) || PyFloat.gt value (Fnum 1)).
  - repeat split; try discriminate.
    + intros Hx. apply H in Hx. discriminate.
    + intros Hx. apply H in Hx. discriminate.
    + intros a [|]; discriminate.
  - repeat split; try (intros _; by apply H).
    intros a [[= <-]|[= <-]]; reflexivity.
Qed.

Lemma normalize_vllm_base_url_returns (value url : string) :
  normalize_vllm_base_url value = Returns url ->
  url = rstrip_slash (strip value) /\ url <> "".
Proof.
  unfold normalize_vllm_base_url.
  destruct (String.eqb_spec (rstrip_slash (strip value)) "") as [|Hne];
    [discriminate|].
  by intros [= <-].
Qed.

(** X4.  A base URL that passes its validator is not empty and does not
    end in a slash. *)
Theorem base_url_without_trailing_slash (value url : string) :
  normalize_vllm_base_url value = Returns url ->
  url <> "" /\ endswith url "/" = false.
Proof.
  intros H. apply normalize_vllm_base_url_returns in H. destruct H as [-> Hne].
  split; [exact Hne|]. by apply rstrip_by_last.
Qed.


Lemma stripped_nonempty_canonical (value : option string) (t : string) :
  stripped_nonempty value = Some t -> t <> "" /\ strip t = t.
Proof.
  destruct value as [v|]; [|discriminate]. simpl.
  destruct (String.eqb_spec (strip v) "") as [|Hne]; [discriminate|].
  intros [= <-]. split; [exact Hne | apply strip_idem].
Qed.

(** The file name pattern is stored stripped; a blank pattern is stored as
    [None]; the stored value validates to itself. *)
Lemma model_filename_normalised (value : option string) :
  exists normalized,
    normalize_model_filename value = Returns normalized
    /\ normalize_model_filename normalized = Returns normalized
    /\ (forall name, normalized = Some name -> name <> "" /\ strip name = name)
    /\ (normalized = None <->
        value = None \/ exists v, value = Some v /\ strip v = "").
Proof.
  destruct value as [v|]; simpl.
  - destruct (String.eqb_spec (strip v) "") as [He|Hne].
    + exists None. repeat split; try discriminate.
      right. by exists v.
    + exists (Some (strip v)). split; [reflexivity|]. split.
      * simpl. rewrite strip_idem.
        by destruct (String.eqb_spec (strip v) "").
      * split.
        -- intros name [= <-]. split; [exact Hne | apply strip_idem].
        -- split; [discriminate|].
           intros [|(v' & [= <-] & He)]; [discriminate | contradiction].
  - exists None. repeat split; try discriminate. by left.
Qed.

Section Platform.

Variable expanduser : string -> string.
Variable getenv_HF_TOKEN : option string.
Variable DEFAULT_MODEL_STORE_DIR : string.
Variable GEMMA_3_4B_OCR_PROMPT : string.

Local Abbreviation init :=
  (Settings_init expanduser getenv_HF_TOKEN DEFAULT_MODEL_STORE_DIR
     GEMMA_3_4B_OCR_PROMPT).

(** X5.  The registry token: the validator never raises; a token that is
    given and not blank wins over the environment, whatever [HF_TOKEN] holds;
    a missing or blank one falls back to [HF_TOKEN]; the stored token is
    never blank and carries no surrounding white space. *)
Theorem hf_token_precedence (value : option string) :
  exists token,
    normalize_hf_token getenv_HF_TOKEN value = Returns token
    /\ (forall t, token = Some t -> t <> "" /\ strip t = t)
    /\ (forall v, value = Some v -> strip v <> "" -> token = Some (strip v))
    /\ (forall e, (value = None \/ exists v, value = Some v /\ strip v = "") ->
          getenv_HF_TOKEN = Some e -> strip e <> "" -> token = Some (strip e))
    /\ (token = None ->
        stripped_nonempty value = None
        /\ stripped_nonempty getenv_HF_TOKEN = None).
Proof.
  unfold normalize_hf_token.
  destruct (stripped_nonempty value) as [t|] eqn:Hv.
  - exists (Some t). split; [reflexivity|].
    split; [intros t' [= <-]; by eapply stripped_nonempty_canonical|].
    split.
    + intros v -> Hne. simpl in Hv.
      destruct (String.eqb_spec (strip v) ""); [contradiction|].
      by injection Hv as <-.
    + split; [|discriminate].
      intros e [->|(v & -> & He)]; [discriminate|].
      simpl in Hv. rewrite He in Hv. discriminate.
  - destruct (stripped_nonempty getenv_HF_TOKEN) as [t|] eqn:He.
    + exists (Some t). split; [reflexivity|].
      split; [intros t' [= <-]; by eapply stripped_nonempty_canonical|].
      split.
      * intros v -> Hne. simpl in Hv.
        destruct (String.eqb_spec (strip v) ""); [contradiction|discriminate].
      * split; [|discriminate].
        intros e _ Henv Hne. rewrite Henv in He. simpl in He.
        destruct (String.eqb_spec (strip e) ""); [contradiction|].
        by injection He as <-.
    + exists None. split; [reflexivity|].
      split; [discriminate|]. split.
      * intros v -> Hne. simpl in Hv.
        destruct (String.eqb_spec (strip v) ""); [contradiction|discriminate].
      * split; [|done].
        intros e _ Henv Hne. rewrite Henv in He. simpl in He.
        destruct (String.eqb_spec (strip e) ""); [contradiction|discriminate].
Qed.


Lemma checked_invariant {A} (P : A -> Prop) (name : string) (d : A)
    (validator : A -> outcome string A) (given : option A) :
  P d -> (forall x y, validator x = Returns y -> P y) ->
  (checked name d validator given).1 = [] ->
  P (checked name d validator given).2.
Proof.
  intros Hd Hv. unfold checked. cbv zeta.
  destruct (validator _) as [y|msg] eqn:Hx; [|discriminate].
  intros _. eapply Hv, Hx.
Qed.

Local Ltac split_errors H :=
  repeat match type of H with
         | (_ ++ _)%list = [] =>
             let H1 := fresh "Hnil" in
             apply app_eq_nil in H; destruct H as [H1 H]
         end.

Local Ltac by_validator name :=
  match goal with
  | H : (checked name ?d ?v ?g).1 = [] |- _ =>
      pattern (checked name d v g).2;
      match goal with
      | |- ?P _ => revert H; apply (checked_invariant P); cbv beta
      end
  end.

Lemma enforce_display_name_returns (value name : string) :
  enforce_display_name value = Returns name -> name = DISPLAY_MODEL_NAME.
Proof.
  unfold enforce_display_name.
  destruct (String.eqb_spec (strip value) DISPLAY_MODEL_NAME) as [->|];
    [|discriminate].
  by intros [= <-].
Qed.

(** X1.  Every snapshot the constructor returns is valid: the three display
    names are the fixed display name, the log level and the tensor type are
    members of their sets, the port lies in 1..65535, the tensor-parallel
    size and top-k are at least 1, neither fraction is at most 0 or above 1,
    the base URL is not empty and has no trailing slash, and neither the
    file name pattern nor the registry token is an empty string. *)
Theorem constructed_snapshot_valid (kw : SettingsInput) (s : Settings) :
  init kw = Returns s ->
  (app_name s = DISPLAY_MODEL_NAME /\ model_name s = DISPLAY_MODEL_NAME
   /\ resolved_vllm_model_id s = DISPLAY_MODEL_NAME)
  /\ In (log_level s) ["CRITICAL"; "ERROR"; "WARNING"; "INFO"; "DEBUG"]
  /\ In (vllm_dtype s) ["auto"; "half"; "float16"; "bfloat16"; "float"; "float32"]
  /\ 1 <= vllm_port s <= 65535
  /\ 1 <= vllm_tensor_parallel_size s
  /\ 1 <= top_k s
  /\ PyFloat.le (vllm_gpu_memory_utilization s) (Fnum 0) = false
  /\ PyFloat.gt (vllm_gpu_memory_utilization s) (Fnum 1) = false
  /\ PyFloat.le (top_p s) (Fnum 0) = false
  /\ PyFloat.gt (top_p s) (Fnum 1) = false
  /\ vllm_base_url s <> ""
  /\ endswith (vllm_base_url s) "/" = false
  /\ model_filename s <> Some ""
  /\ hf_token s <> Some "".
Proof.
  unfold Settings_init; cbv zeta.
  match goal with
  | |- match ?errs with _ => _ end = _ -> _ => destruct errs eqn:Herrs
  end; [|discriminate].
  intros [= <-].
  unfold resolved_vllm_model_id.
  cbn [app_name model_name vllm_model_id log_level vllm_dtype vllm_port
       vllm_tensor_parallel_size top_k vllm_gpu_memory_utilization top_p
       vllm_base_url model_filename hf_token].
  split_errors Herrs.
  repeat match goal with |- _ /\ _ => split end.
  - by_validator "app_name"; [reflexivity | apply enforce_display_name_returns].
  - by_validator "model_name"; [reflexivity | apply enforce_display_name_returns].
  - by_validator "vllm_model_id"; [reflexivity | apply enforce_display_name_returns].
  - by_validator "log_level"; [simpl; tauto|].
    apply validate_log_level_returns.
  - by_validator "vllm_dtype"; [simpl; tauto|].
    apply validate_vllm_dtype_returns.
  - by_validator "vllm_port"; [lia|].
    intros x y Hy. apply ConfigSpec.validate_vllm_port_returns in Hy. lia.
  - by_validator "vllm_port"; [lia|].
    intros x y Hy. apply ConfigSpec.validate_vllm_port_returns in Hy. lia.
  - by_validator "vllm_tensor_parallel_size"; [lia|].
    intros x y. unfold validate_vllm_tensor_parallel_size.
    destruct (Z.ltb_spec x 1); [discriminate|]. intros [= <-]. lia.
  - by_validator "top_k"; [lia|].
    intros x y. unfold validate_top_k.
    destruct (Z.ltb_spec x 1); [discriminate|]. intros [= <-]. lia.
  - by_validator "vllm_gpu_memory_utilization"; [reflexivity|].
    intros x y. unfold validate_vllm_gpu_memory_utilization.
    destruct (PyFloat.le x (Fnum 0)) eqn:Hle; [discriminate|]. simpl.
    destruct (PyFloat.gt x (Fnum 1)) eqn:Hgt; [discriminate|]. by intros [= <-].
  - by_validator "vllm_gpu_memory_utilization"; [reflexivity|].
    intros x y. unfold validate_vllm_gpu_memory_utilization.
    destruct (PyFloat.le x (Fnum 0)) eqn:Hle; [discriminate|]. simpl.
    destruct (PyFloat.gt x (Fnum 1)) eqn:Hgt; [discriminate|]. by intros [= <-].
  - by_validator "top_p"; [reflexivity|].
    intros x y. unfold validate_top_p.
    destruct (PyFloat.le x (Fnum 0)) eqn:Hle; [discriminate|]. simpl.
    destruct (PyFloat.gt x (Fnum 1)) eqn:Hgt; [discriminate|]. by intros [= <-].
  - by_validator "top_p"; [reflexivity|].
    intros x y. unfold validate_top_p.
    destruct (PyFloat.le x (Fnum 0)) eqn:Hle; [discriminate|]. simpl.
    destruct (PyFloat.gt x (Fnum 1)) eqn:Hgt; [discriminate|]. by intros [= <-].
  - by_validator "vllm_base_url"; [discriminate|].
    intros x y Hy. apply normalize_vllm_base_url_returns in Hy. tauto.
  - by_validator "vllm_base_url"; [reflexivity|].
    intros x y Hy. apply normalize_vllm_base_url_returns in Hy.
    destruct Hy as [-> _]. by apply rstrip_by_last.
  - by_validator "model_filename"; [discriminate|].
    intros [v|] y; simpl; [|by intros [= <-]].
    destruct (String.eqb_spec (strip v) ""); intros [= <-]; congruence.
  - by_validator "hf_token"; [discriminate|].
    intros x y. unfold normalize_hf_token.
    destruct (stripped_nonempty x) as [t|] eqn:Hx.
    { intros [= <-] [= ->]. by destruct (stripped_nonempty_canonical _ _ Hx). }
    destruct (stripped_nonempty getenv_HF_TOKEN) as [t|] eqn:He;
      intros [= <-]; [|discriminate].
    intros [= ->]. by destruct (stripped_nonempty_canonical _ _ He).
Qed.

End Platform.

(** The validator drops the white space and the slashes around a URL. *)
Lemma base_url_without_trailing_slash_witness :
  normalize_vllm_base_url " http://127.0.0.1:8001// "
  = Returns "http://127.0.0.1:8001"
  /\ "http://127.0.0.1:8001" <> ""
  /\ endswith "http://127.0.0.1:8001" "/" = false.
Proof.
  assert (H : normalize_vllm_base_url " http://127.0.0.1:8001// "
              = Returns "http://127.0.0.1:8001") by reflexivity.
  split; [exact H|].
  exact (base_url_without_trailing_slash _ _ H).
Defined.

(** The validator is not idempotent: white space before a trailing slash
    survives the first pass and goes with the second. *)
Example base_url_keeps_inner_space :
  normalize_vllm_base_url "http://host /" = Returns "http://host "
  /\ normalize_vllm_base_url "http://host " = Returns "http://host".
Proof. split; reflexivity. Qed.

(** A snapshot built with port 9000 and nothing else. *)
Lemma constructed_snapshot_valid_witness :
  Sample.init (with_vllm_port (Some 9000) no_input)
  = Returns (with_vllm_port (F := fun T => T) 9000 Sample.defaults)
  /\ 1 <= vllm_port (with_vllm_port (F := fun T => T) 9000 Sample.defaults)
       <= 65535
  /\ resolved_vllm_model_id
       (with_vllm_port (F := fun T => T) 9000 Sample.defaults)
     = DISPLAY_MODEL_NAME.
Proof.
  assert (H : Sample.init (with_vllm_port (Some 9000) no_input)
              = Returns (with_vllm_port (F := fun T => T) 9000 Sample.defaults))
    by reflexivity.
  split; [exact H|].
  destruct (constructed_snapshot_valid Sample.expanduser None
              "/srv/ocr/model_store" "Transcribe the image." _ _ H)
    as ((_ & _ & Hname) & _ & _ & Hport & _).
  split; [exact Hport | exact Hname].
Defined.

End ConfigProps.

(** ** Order of paths *)

Module FsProps.

Import Fs FsSpec.

Lemma ascii_compare_refl (c : ascii) : Ascii.compare c c = Eq.
Proof. unfold Ascii.compare. apply N.compare_refl. Qed.

Lemma ascii_compare_eq (c d : ascii) : Ascii.compare c d = Eq -> c = d.
Proof.
  unfold Ascii.compare. intros H. apply N.compare_eq in H.
  rewrite <- (ascii_N_embedding c), <- (ascii_N_embedding d). by rewrite H.
Qed.

Lemma ascii_compare_lt_trans (a b c : ascii) :
  Ascii.compare a b = Lt -> Ascii.compare b c = Lt -> Ascii.compare a c = Lt.
Proof.
  unfold Ascii.compare. rewrite !N.compare_lt_iff. apply N.lt_trans.
Qed.

Lemma string_compare_refl (s : string) : String.compare s s = Eq.
Proof.
  induction s as [|c s IH]; [done|]. simpl. by rewrite ascii_compare_refl.
Qed.

Lemma string_compare_lt_trans (s : string) : forall t u : string,
  String.compare s t = Lt -> String.compare t u = Lt -> String.compare s u = Lt.
Proof.
  induction s as [|a s IH]; intros [|b t] [|c u]; simpl; try done.
  destruct (Ascii.compare a b) eqn:Hab; try done.
  - apply ascii_compare_eq in Hab as ->.
    destruct (Ascii.compare b c); try done. apply IH.
  - intros _. destruct (Ascii.compare b c) eqn:Hbc; try done.
    + apply ascii_compare_eq in Hbc as <-. by rewrite Hab.
    + by rewrite (ascii_compare_lt_trans _ _ _ Hab Hbc).
Qed.

Lemma path_leb_refl (p : Path) : path_leb p p = true.
Proof.
  induction p as [|x p IH]; [done|]. simpl. by rewrite string_compare_refl.
Qed.

Lemma path_leb_total (p : Path) : forall q : Path,
  path_leb p q = false -> path_leb q p = true.
Proof.
  induction p as [|x p IH]; intros [|y q]; simpl; try done.
  rewrite (String.compare_antisym x y).
  destruct (String.compare y x); simpl; try done. apply IH.
Qed.

Lemma path_leb_trans (p : Path) : forall q r : Path,
  path_leb p q = true -> path_leb q r = true -> path_leb p r = true.
Proof.
  induction p as [|x p IH]; intros [|y q] [|z r]; simpl; try done.
  destruct (String.compare x y) eqn:Hxy; try done.
  - apply String.compare_eq_iff in Hxy as ->.
    destruct (String.compare y z); try done. apply IH.
  - intros _. destruct (String.compare y z) eqn:Hyz; try done.
    + apply String.compare_eq_iff in Hyz as <-. by rewrite Hxy.
    + by rewrite (string_compare_lt_trans _ _ _ Hxy Hyz).
Qed.

Lemma insert_sorted_In (p q : Path) (l : list Path) :
  In q (insert_sorted p l) <-> q = p \/ In q l.
Proof.
  induction l as [|h t IH]; simpl; [intuition congruence|].
  destruct (path_leb p h); simpl; [intuition congruence|].
  rewrite IH. intuition congruence.
Qed.

Lemma sorted_In (q : Path) (l : list Path) : In q (sorted l) <-> In q l.
Proof.
  induction l as [|h t IH]; simpl; [done|].
  rewrite insert_sorted_In, IH. intuition congruence.
Qed.

(** The head of a sorted list is least. *)
Lemma sorted_head_least (l : list Path) (first : Path) (rest : list Path) :
  sorted l = first :: rest ->
  forall q, In q l -> path_leb first q = true.
Proof.
  intros Hs q Hq. apply sorted_In in Hq. revert first rest Hs q Hq.
  induction l as [|p l IH]; [done|]. simpl.
  destruct (sorted l) as [|h t] eqn:Hl; simpl.
  - intros first rest [= <- <-] q [<-|[]]. apply path_leb_refl.
  - destruct (path_leb p h) eqn:Hph.
    + intros first rest [= <- <-] q [<-|Hq]; [apply path_leb_refl|].
      eapply path_leb_trans; [exact Hph|]. by eapply IH.
    + intros first rest [= <- <-] q [<-|Hq]; [apply path_leb_refl|].
      apply insert_sorted_In in Hq as [->|Hq].
      * by apply path_leb_total.
      * eapply IH; [done|]. by right.
Qed.

End FsProps.

Module ModelStoreProps.

Import Config Fs ModelStore FsSpec ModelStoreSpec FsProps.

Section Platform.

Variable resolve : string -> Path.
Variable glob_match : string -> Path -> bool.

Local Abbreviation root s := (resolve (model_store_dir s)).
Local Abbreviation repo s := (resolve_repo_dir resolve s).
Local Abbreviation has_expected f s :=
  (_has_expected_artifacts glob_match f (resolve_repo_dir resolve s) (model_filename s)).
Local Abbreviation marker s := (joinpath (root s) ".model_store_ready").
Local Abbreviation ensure := (ensure_model_store resolve glob_match).
Local Abbreviation find := (_find_model_file glob_match).

(** The files that match a pattern below a directory, the path the pattern
    names directly, and whether the pattern holds a wildcard. *)
Local Abbreviation matches f dir pattern :=
  (List.filter (is_file f) (selected glob_match f dir (PyStr.strip pattern))).
Local Abbreviation direct dir pattern :=
  (resolve_lexical (joinpath dir (PyStr.strip pattern))).
Local Abbreviation wildcard pattern :=
  (existsb (fun char => PyStr.contains_char char (PyStr.strip pattern))
     ["*"; "?"; "["]%char).

(** *** [ensure_model_store] *)

Lemma after_mkdir_subseteq (p : Path) (w : World) :
  fs w ⊆ fs (after_mkdir p w).
Proof.
  unfold after_mkdir, mkdir_p. cbn [fs].
  destruct (mkdir_from (denied w) p (fs w) [] p) as [r f] eqn:H.
  by eapply mkdir_from_subseteq.
Qed.

(** A forced refresh that returns has fetched once. *)
Lemma forced_run_fetches_once (s : Settings) (w w' : World) (v : string) :
  model_force_download s = true ->
  ensure s w = (Returns (Some v), w') ->
  fetches (new_events w w') = 1%nat.
Proof.
  intros Hforce. rewrite ensure_model_store_unfold, Hforce.
  cbn [negb orb]. rewrite !orb_true_r. cbn [negb orb].
  destruct (os_outcome _) as [[]|e]; [|discriminate]. cbv zeta.
  destruct (has_expected _ s) as [has|e]; [|discriminate].
  rewrite andb_false_r.
  destruct (_download_model_snapshot _ _ _ _) as [[[]|e] w2] eqn:Hd;
    [|discriminate].
  destruct (has_expected _ s) as [[|]|e]; [|discriminate..].
  cbn [negb]. intros [= _ <-].
  apply _download_model_snapshot_run in Hd as (_ & _ & dl & Hdl & _ & Hend).
  destruct (after_marker_trace (root s) w2) as (added & Ht & Hn).
  rewrite (new_events_app w _ (added ++ dl ++ [EvMkdir (root s)])%list).
  2:{ by rewrite Ht, Hdl, <- !app_assoc. }
  rewrite !fetches_app, Hn.
  destruct Hend as [[_ [e [=]]]|[-> _]]. reflexivity.
Qed.

(** With the artifacts in place and no forced refresh, the call goes
    straight to the marker, and fetches nothing. *)
Lemma ensure_model_store_hit (s : Settings) (w : World) :
  model_force_download s = false ->
  (require_local_model_store s || auto_download_model_store s) = true ->
  has_expected (fs w) s = Returns true ->
  exists w',
    ensure s w = (Returns (Some (path_str (root s))), w')
    /\ fetches (new_events w w') = 0%nat
    /\ fs w ⊆ fs w'.
Proof.
  intros Hforce Hflags Hexp.
  assert (Hroot : is_dir (fs w) (root s) = true).
  { apply is_dir_root_of_repo. by eapply _has_expected_artifacts_is_dir. }
  pose proof (mkdir_p_dir (denied w) _ _ Hroot) as Hmk.
  assert (Hfs : fs (after_mkdir (root s) w) = fs w).
  { unfold after_mkdir. by rewrite Hmk. }
  rewrite ensure_model_store_unfold, Hforce, Hflags, Hmk.
  cbn [negb orb os_outcome fst]. cbv zeta. rewrite Hfs, Hexp. cbn [andb].
  eexists. split; [reflexivity|].
  destruct (after_marker_trace (root s) (after_mkdir (root s) w))
    as (added & Ht & Hn).
  destruct (after_marker_settled (root s) (after_mkdir (root s) w))
    as [Hsub _].
  rewrite Hfs in Hsub. split; [|done].
  rewrite (new_events_app w _ (added ++ [EvMkdir (root s)])%list).
  - by rewrite fetches_app, Hn.
  - by rewrite Ht, <- app_assoc.
Qed.

(** X6.  What a call that returns a path has established: the store root
    and the artifact directory are directories and the expected artifacts
    are in place; with a forced refresh the call has fetched exactly
    once. *)
Theorem ensure_model_store_postcondition (s : Settings) (w w' : World)
    (v : string) :
  ensure s w = (Returns (Some v), w') ->
  is_dir (fs w') (root s) = true
  /\ is_dir (fs w') (repo s) = true
  /\ has_expected (fs w') s = Returns true
  /\ (model_force_download s = true -> fetches (new_events w w') = 1%nat).
Proof.
  intros Hrun.
  destruct (ensure_model_store_returns_some _ _ _ _ _ _ Hrun)
    as (_ & _ & _ & Hroot & Hexp & _).
  split; [done|]. split; [by eapply _has_expected_artifacts_is_dir|].
  split; [done|]. intros Hforce. by eapply forced_run_fetches_once.
Qed.

(** X7.  A call returns no path exactly when the three bootstrap switches
    are off, and then it leaves the world as it was: the second
    [return None] of the function is never reached. *)
Theorem returns_none_iff_disabled (s : Settings) (w : World) :
  ((ensure s w).1 = Returns None
   <-> require_local_model_store s = false
       /\ auto_download_model_store s = false
       /\ model_force_download s = false)
  /\ ((ensure s w).1 = Returns None -> (ensure s w).2 = w).
Proof.
  destruct (ensure s w) as [r w'] eqn:Hrun. cbn [fst snd].
  split; [split|].
  - intros ->.
    destruct (ensure_model_store_returns_none _ _ _ _ _ Hrun) as [Hoff _].
    apply orb_false_iff in Hoff as [Hoff ?].
    by apply orb_false_iff in Hoff as [? ?].
  - intros (Hr & Ha & Hf). revert Hrun.
    rewrite ensure_model_store_unfold, Hr, Ha, Hf. by intros [= <- _].
  - intros ->.
    by destruct (ensure_model_store_returns_none _ _ _ _ _ Hrun).
Qed.



(** The fetch a download records is made with the filtered arguments. *)

(** X9.  With the artifacts in place, a bootstrap switch on and no forced
    refresh, the call returns the store root without a fetch, whether or
    not the registry client can be imported; the file system only grows and
    the artifacts stay in place. *)
Theorem present_artifacts_skip_download (settings : Settings) (w : World) :
  model_force_download settings = false ->
  (require_local_model_store settings || auto_download_model_store settings)
  = true ->
  has_expected (fs w) settings = Returns true ->
  exists w',
    ensure settings w = (Returns (Some (path_str (root settings))), w')
    /\ fetches (new_events w w') = 0%nat
    /\ fs w ⊆ fs w'
    /\ has_expected (fs w') settings = Returns true.
Proof.
  intros Hforce Hflags Hexp.
  destruct (ensure_model_store_hit settings w Hforce Hflags Hexp)
    as (w' & Hrun & Hn & Hsub).
  exists w'. split; [done|]. split; [done|]. split; [done|].
  by eapply _has_expected_artifacts_mono.
Qed.

Lemma _download_model_snapshot_fetch (s : Settings) (w w' : World)
    (r : outcome exn unit) (kw : kwargs) :
  _download_model_snapshot resolve s (root s) w = (r, w') ->
  In (EvSnapshotDownload kw) (new_events w w') ->
  exists h,
    hub w = Some h
    /\ kw = filter_kwargs (snapshot_download_params h)
              (download_kwargs s (repo s)).
Proof.
  rewrite _download_model_snapshot_unfold.
  destruct (hub w) as [h|].
  2:{ intros [= <- <-]. by rewrite (new_events_app w w []). }
  destruct (os_outcome _) as [[]|e].
  2:{ intros [= <- <-]. rewrite (new_events_app w _ [EvMkdir (root s)]); [|done].
      by intros [[=]|[]]. }
  cbv zeta. destruct (os_outcome _) as [[]|e].
  2:{ intros [= <- <-].
      rewrite (new_events_app w _ [EvMkdir (repo s); EvMkdir (root s)]); [|done].
      by intros [[=]|[[=]|[]]]. }
  destruct (snapshot_download _ _ _ _) as [[[]|d] f]; intros [= <- <-].
  - rewrite (new_events_app w _
      [EvLog "INFO" "Model snapshot ready";
       EvSnapshotDownload
         (filter_kwargs (snapshot_download_params h) (download_kwargs s (repo s)));
       EvLog "INFO" "Downloading model snapshot into model_store";
       EvMkdir (repo s); EvMkdir (root s)]); [|done].
    intros [[=]|[[= <-]|[[=]|[[=]|[[=]|[]]]]]]. by exists h.
  - rewrite (new_events_app w _
      [EvSnapshotDownload
         (filter_kwargs (snapshot_download_params h) (download_kwargs s (repo s)));
       EvLog "INFO" "Downloading model snapshot into model_store";
       EvMkdir (repo s); EvMkdir (root s)]); [|done].
    intros [[= <-]|[[=]|[[=]|[[=]|[]]]]]. by exists h.
Qed.

Lemma after_marker_no_fetch (dir : Path) (w : World) (kw : kwargs)
    (added : list event) :
  trace (after_marker dir w) = (added ++ trace w)%list ->
  ~ In (EvSnapshotDownload kw) added.
Proof.
  unfold after_marker. cbn [trace].
  destruct (touch _ _ _).1; intros H.
  - change (EvTouch (joinpath dir ".model_store_ready") :: trace w)
      with ([EvTouch (joinpath dir ".model_store_ready")] ++ trace w)%list in H.
    apply app_inv_tail in H as <-. by intros [[=]|[]].
  - change (marker_warning :: EvTouch (joinpath dir ".model_store_ready") :: trace w)
      with ([marker_warning; EvTouch (joinpath dir ".model_store_ready")] ++ trace w)%list in H.
    apply app_inv_tail in H as <-. by intros [[=]|[[=]|[]]].
Qed.

(** The fetches of a call are made with the filtered arguments. *)
Lemma ensure_model_store_fetch (s : Settings) (w w' : World)
    (r : outcome exn (option string)) (kw : kwargs) :
  ensure s w = (r, w') ->
  In (EvSnapshotDownload kw) (new_events w w') ->
  exists h,
    hub w = Some h
    /\ kw = filter_kwargs (snapshot_download_params h)
              (download_kwargs s (repo s)).
Proof.
  rewrite ensure_model_store_unfold.
  destruct (negb _).
  { intros [= <- <-]. by rewrite (new_events_app w w []). }
  destruct (os_outcome _) as [[]|e] eqn:Hmk.
  2:{ intros [= <- <-]. rewrite (new_events_app w _ [EvMkdir (root s)]); [|done].
      by intros [[=]|[]]. }
  cbv zeta. destruct (has_expected _ s) as [has|e].
  2:{ intros [= <- <-]. rewrite (new_events_app w _ [EvMkdir (root s)]); [|done].
      by intros [[=]|[]]. }
  destruct (has && _).
  { intros [= <- <-].
    destruct (after_marker_trace (root s) (after_mkdir (root s) w))
      as (added & Ht & Hn).
    rewrite (new_events_app w _ (added ++ [EvMkdir (root s)])%list).
    2:{ by rewrite Ht, <- app_assoc. }
    intros Hin. apply in_app_or in Hin as [Hin|[[=]|[]]].
    by eapply after_marker_no_fetch in Hin. }
  destruct (negb (_ || _)).
  { destruct (require_local_model_store s); intros [= <- <-];
      (rewrite (new_events_app w _ [EvMkdir (root s)]); [|done]);
      by intros [[=]|[]]. }
  destruct (_download_model_snapshot _ _ _ _) as [rd w2] eqn:Hd.
  pose proof (_download_model_snapshot_fetch _ _ _ _ kw Hd) as Hfetch.
  pose proof Hd as Hd'.
  apply _download_model_snapshot_run in Hd' as (_ & _ & dl & Hdl & _ & _).
  rewrite (new_events_app _ _ dl) in Hfetch; [|done].
  assert (Hcase : forall added,
            trace w' = (added ++ trace w2)%list ->
            ~ In (EvSnapshotDownload kw) added ->
            In (EvSnapshotDownload kw) (new_events w w') ->
            In (EvSnapshotDownload kw) dl).
  { intros added Ht Hno.
    rewrite (new_events_app w _ (added ++ dl ++ [EvMkdir (root s)])%list).
    2:{ by rewrite Ht, Hdl, <- !app_assoc. }
    intros Hin. apply in_app_or in Hin as [Hin|Hin]; [done|].
    by apply in_app_or in Hin as [Hin|[[=]|[]]]. }
  destruct rd as [[]|e].
  - destruct (has_expected _ s) as [[|]|e]; cbn [negb].
    + intros [= <- <-] Hin. apply Hfetch.
      destruct (after_marker_trace (root s) w2) as (added & Ht & Hn).
      apply (Hcase added Ht); [|done].
      by eapply after_marker_no_fetch.
    + intros [= <- <-] Hin. apply Hfetch. apply (Hcase []); [done | by intros [] | done].
    + intros [= <- <-] Hin. apply Hfetch. apply (Hcase []); [done | by intros [] | done].
  - intros [= <- <-] Hin. apply Hfetch. apply (Hcase []); [done | by intros [] | done].
Qed.

Lemma filter_kwargs_In (params : list string) (kw : kwargs) (key : string)
    (value : pyval) :
  In (key, value) (filter_kwargs params kw)
  <-> In (key, value) kw /\ In key params /\ value <> VNone.
Proof.
  unfold filter_kwargs. rewrite List.filter_In, andb_true_iff.
  unfold PyStr.mem. rewrite existsb_exists, negb_true_iff.
  split.
  - intros (Hin & (y & Hy & Heq) & Hv). apply String.eqb_eq in Heq as ->.
    split; [done|]. split; [done|]. by intros ->.
  - intros (Hin & Hk & Hv). split; [done|]. split.
    + exists key. split; [done|]. apply String.eqb_refl.
    + by destruct value.
Qed.

(** X10.  Every fetch a call makes is made with arguments the client's
    [snapshot_download] accepts: each keyword is a parameter of its
    signature and one of the five the code builds, and no value is [None].
    The values are those of the settings: the repo identifier, the artifact
    directory, the token only when one is set, the forced-refresh flag, and
    the file name pattern only when it is not empty.  The repo identifier
    and the artifact directory are passed whenever the client takes
    them. *)
Theorem fetch_arguments_filtered (s : Settings) (w w' : World)
    (r : outcome exn (option string)) (kw : kwargs) :
  ensure s w = (r, w') ->
  In (EvSnapshotDownload kw) (new_events w w') ->
  exists h,
    hub w = Some h
    /\ (forall key value,
          In (key, value) kw ->
          In key (snapshot_download_params h) /\ value <> VNone
          /\ In key ["repo_id"; "local_dir"; "token"; "force_download";
                     "allow_patterns"])
    /\ (forall value,
          In ("repo_id", value) kw -> value = VStr (model_repo_id s))
    /\ (forall value,
          In ("local_dir", value) kw -> value = VStr (path_str (repo s)))
    /\ (forall value,
          In ("token", value) kw ->
          exists token, hf_token s = Some token /\ value = VStr token)
    /\ (forall value,
          In ("force_download", value) kw ->
          value = VBool (model_force_download s))
    /\ (forall value,
          In ("allow_patterns", value) kw ->
          exists name,
            model_filename s = Some name /\ name <> "" /\ value = VList [name])
    /\ (In "repo_id" (snapshot_download_params h) ->
        In ("repo_id", VStr (model_repo_id s)) kw)
    /\ (In "local_dir" (snapshot_download_params h) ->
        In ("local_dir", VStr (path_str (repo s))) kw).
Proof.
  intros Hrun Hin.
  destruct (ensure_model_store_fetch _ _ _ _ _ Hrun Hin) as (h & Hh & ->).
  exists h. split; [done|].
  assert (Hkw : forall key value,
            In (key, value) (download_kwargs s (repo s)) ->
            (key = "repo_id" /\ value = VStr (model_repo_id s))
            \/ (key = "local_dir" /\ value = VStr (path_str (repo s)))
            \/ (key = "token" /\ value = opt_str (hf_token s))
            \/ (key = "force_download"
                /\ value = VBool (model_force_download s))
            \/ (key = "allow_patterns"
                /\ exists name, model_filename s = Some name /\ name <> ""
                                /\ value = VList [name])).
  { intros key value. unfold download_kwargs.
    intros Hk. apply in_app_or in Hk as [Hk|Hk].
    - destruct Hk as [[= <- <-]|[[= <- <-]|[[= <- <-]|[[= <- <-]|[]]]]]; tauto.
    - right; right; right; right.
      destruct (model_filename s) as [name|]; [|destruct Hk].
      unfold truthy in Hk.
      destruct (String.eqb_spec name ""); [destruct Hk|].
      destruct Hk as [[= <- <-]|[]]. split; [done|]. by exists name. }
  split.
  { intros key value H. apply filter_kwargs_In in H as (H & Hp & Hv).
    split; [done|]. split; [done|]. apply Hkw in H. simpl.
    destruct H as [[-> _]|[[-> _]|[[-> _]|[[-> _]|[-> _]]]]]; tauto. }
  split.
  { intros value H. apply filter_kwargs_In in H as [H _]. apply Hkw in H.
    by destruct H as [[_ ->]|[[[=] _]|[[[=] _]|[[[=] _]|[[=] _]]]]]. }
  split.
  { intros value H. apply filter_kwargs_In in H as [H _]. apply Hkw in H.
    by destruct H as [[[=] _]|[[_ ->]|[[[=] _]|[[[=] _]|[[=] _]]]]]. }
  split.
  { intros value H. apply filter_kwargs_In in H as (H & _ & Hv). apply Hkw in H.
    destruct H as [[[=] _]|[[[=] _]|[[_ ->]|[[[=] _]|[[=] _]]]]].
    destruct (hf_token s) as [t|]; [by exists t | done]. }
  split.
  { intros value H. apply filter_kwargs_In in H as [H _]. apply Hkw in H.
    by destruct H as [[[=] _]|[[[=] _]|[[[=] _]|[[_ ->]|[[=] _]]]]]. }
  split.
  { intros value H. apply filter_kwargs_In in H as [H _]. apply Hkw in H.
    by destruct H as [[[=] _]|[[[=] _]|[[[=] _]|[[[=] _]|[_ H]]]]]. }
  split.
  - intros Hp. apply filter_kwargs_In. split; [|done].
    unfold download_kwargs. apply in_or_app. left. by left.
  - intros Hp. apply filter_kwargs_In. split; [|done].
    unfold download_kwargs. apply in_or_app. left. right. by left.
Qed.


(** *** Looking for the artifacts *)

(** X12.  What [_find_model_file] returns is a regular file; the directory
    searched is a directory and the pattern is not blank.  The file is the
    one the pattern names directly, for a pattern without wildcards, or else
    the first of the matching files in path order. *)
Theorem _find_model_file_finds_first (f : FS) (repo_dir : Path)
    (filename_pattern : string) (found : Path) :
  find f repo_dir filename_pattern = Returns (Some found) ->
  is_file f found = true
  /\ is_dir f repo_dir = true
  /\ PyStr.strip filename_pattern <> ""
  /\ ((found = direct repo_dir filename_pattern
       /\ wildcard filename_pattern = false)
      \/ (In found (matches f repo_dir filename_pattern)
          /\ forall other,
               In other (matches f repo_dir filename_pattern) ->
               path_leb found other = true)).
Proof.
  clear resolve.
  unfold _find_model_file.
  destruct (exists_ f repo_dir); [|discriminate].
  destruct (is_dir f repo_dir); [|discriminate]. cbn [negb orb].
  destruct (String.eqb_spec (PyStr.strip filename_pattern) "") as [|Hne];
    [discriminate|].
  assert (Hsearch :
    match rglob glob_match f repo_dir (PyStr.strip filename_pattern) with
    | Returns entries =>
        match sorted (List.filter (is_file f) entries) with
        | first :: _ => Returns (Some first)
        | [] => Returns None
        end
    | Raises e => Raises e
    end = Returns (Some found) ->
    In found (matches f repo_dir filename_pattern)
    /\ forall other,
         In other (matches f repo_dir filename_pattern) ->
         path_leb found other = true).
  { unfold rglob. destruct (rglob_pattern _); [|discriminate].
    destruct (sorted _) as [|first rest] eqn:Hs; [discriminate|].
    intros [= <-]. split; [|by eapply sorted_head_least].
    apply sorted_In. rewrite Hs. by left. }
  destruct (wildcard filename_pattern) eqn:Hw; cbn [negb andb].
  - intros H. apply Hsearch in H as [Hin Hleast].
    split; [apply filter_In in Hin; tauto|]. split; [done|]. split; [done|].
    right. by split.
  - destruct (exists_ f _ && is_file f _) eqn:Hd.
    + intros [= <-]. apply andb_true_iff in Hd as [_ Hd].
      split; [done|]. split; [done|]. split; [done|]. by left.
    + intros H. apply Hsearch in H as [Hin Hleast].
      split; [apply filter_In in Hin; tauto|]. split; [done|]. split; [done|].
      right. by split.
Qed.


Lemma _model_store_has_files_mono (f f' : FS) (dir : Path) :
  f ⊆ f' ->
  _model_store_has_files f dir = true -> _model_store_has_files f' dir = true.
Proof.
  intros Hsub. unfold _model_store_has_files.
  destruct (exists_ f dir) eqn:He; [|discriminate].
  destruct (is_dir f dir) eqn:Hd; [|discriminate].
  rewrite (exists_mono _ _ _ Hsub He), (is_dir_mono _ _ _ Hsub Hd).
  by apply any_file_mono.
Qed.

(** X14.  A store that is ready stays ready when entries are added to the
    file system: the three checks ([_has_expected_artifacts],
    [_model_store_has_files], and [_find_model_file] finding a file) are
    monotone. *)
Theorem artifacts_survive_growth (f f' : FS) (dir : Path)
    (model_filename : option string) (pattern : string) :
  f ⊆ f' ->
  (_has_expected_artifacts glob_match f dir model_filename = Returns true ->
   _has_expected_artifacts glob_match f' dir model_filename = Returns true)
  /\ (_model_store_has_files f dir = true ->
      _model_store_has_files f' dir = true)
  /\ (forall found,
        find f dir pattern = Returns (Some found) ->
        exists found', find f' dir pattern = Returns (Some found')).
Proof.
  intros Hsub. split; [by apply _has_expected_artifacts_mono|].
  split; [by apply _model_store_has_files_mono|].
  intros found Hf. by eapply _find_model_file_mono.
Qed.

(** *** The marker *)

(** X15.  Writing the marker never raises and fetches nothing; the file
    system only grows; a warning is logged exactly when the marker could not
    be touched; and writing it again leaves the file system as it is. *)
Theorem _write_bootstrap_marker_never_raises (model_store_dir : Path)
    (w : World) :
  exists w',
    _write_bootstrap_marker model_store_dir w = (Returns tt, w')
    /\ fs w ⊆ fs w'
    /\ fetches (new_events w w') = 0%nat
    /\ (In marker_warning (new_events w w')
        <-> exists e,
              (touch (denied w) (fs w)
                 (joinpath model_store_dir ".model_store_ready")).1 = Raises e)
    /\ fs (_write_bootstrap_marker model_store_dir w').2 = fs w'.
Proof.
  exists (after_marker model_store_dir w).
  split; [apply _write_bootstrap_marker_run|].
  destruct (after_marker_settled model_store_dir w) as [Hsub [rt Hrt]].
  split; [done|].
  destruct (after_marker_trace model_store_dir w) as (added & Ht & Hn).
  split; [by rewrite (new_events_app _ _ _ Ht)|].
  split.
  - clear Ht Hn added. unfold after_marker in *. cbn [fs denied] in *.
    set (m := joinpath model_store_dir ".model_store_ready") in *.
    destruct (touch (denied w) (fs w) m) as [[[]|e] f] eqn:Htouch; cbn [fst snd] in *.
    + rewrite (new_events_app w _ [EvTouch m]); [|done].
      split; [by intros [[=]|[]] | by intros [e [=]]].
    + rewrite (new_events_app w _ [marker_warning; EvTouch m]); [|done].
      split; [by eauto | intros _; by left].
  - rewrite _write_bootstrap_marker_run.
    unfold after_marker at 1. cbn [snd fs denied].
    change (denied (after_marker model_store_dir w)) with (denied w).
    by rewrite Hrt.
Qed.

Lemma is_dir_walk (f : FS) (p : Path) :
  is_dir f p = true ->
  exists q, walk f [] p = Some q /\ node_at f q = Some KDir.
Proof.
  unfold is_dir, stat. destruct (walk f [] p) as [q|]; [|done].
  destruct (node_at f q) as [[]|] eqn:Hq; try done. by exists q.
Qed.

(** Where writes are permitted, the marker of a directory is written. *)
Lemma after_marker_present (dir : Path) (w : World) :
  is_dir (fs w) dir = true ->
  (forall p, denied w p = false) ->
  exists_ (fs (after_marker dir w)) (joinpath dir ".model_store_ready") = true
  /\ trace (after_marker dir w)
     = EvTouch (joinpath dir ".model_store_ready") :: trace w.
Proof.
  intros Hdir Hfree.
  assert (Hm : joinpath dir ".model_store_ready"
               = (dir ++ [".model_store_ready"])%list) by reflexivity.
  apply is_dir_walk in Hdir as (q & Hq & Hnode).
  assert (Hwalk : walk (fs w) [] (joinpath dir ".model_store_ready")
                  = Some (q ++ [".model_store_ready"])%list).
  { rewrite Hm, walk_app, Hq. simpl. by rewrite Hnode. }
  unfold after_marker. cbn [fs trace]. unfold touch.
  rewrite Hwalk, Hfree.
  destruct (node_at (fs w) (q ++ [".model_store_ready"])) as [k|] eqn:Hk;
    cbn [fst snd].
  - split; [|done]. unfold exists_, stat. by rewrite Hwalk, Hk.
  - split; [|done].
    assert (Hsub : fs w ⊆ <[(q ++ [".model_store_ready"])%list := KFile]> (fs w)).
    { apply insert_subseteq. destruct q; exact Hk. }
    unfold exists_, stat. rewrite (walk_mono _ _ _ _ _ Hsub Hwalk).
    assert (Hat : node_at (<[(q ++ [".model_store_ready"])%list := KFile]> (fs w))
                    (q ++ [".model_store_ready"]) = Some KFile).
    { destruct q; simpl; by rewrite lookup_insert_eq. }
    by rewrite Hat.
Qed.

(** X16.  Where no location refuses writes, a call that returns a path
    leaves the marker [.model_store_ready] in the store root, has touched
    it, and has logged no warning. *)
Theorem marker_present_after_ensure (s : Settings) (w w' : World)
    (v : string) :
  (forall p, denied w p = false) ->
  ensure s w = (Returns (Some v), w') ->
  exists_ (fs w') (marker s) = true
  /\ In (EvTouch (marker s)) (new_events w w')
  /\ ~ In marker_warning (new_events w w').
Proof.
  intros Hfree. rewrite ensure_model_store_unfold.
  destruct (negb _); [discriminate|].
  destruct (os_outcome _) as [[]|e] eqn:Hmk; [|discriminate]. cbv zeta.
  apply after_mkdir_ok in Hmk as [_ Hroot].
  destruct (has_expected _ s) as [has|e']; [|discriminate].
  destruct (has && _).
  { intros [= _ <-].
    destruct (after_marker_present (root s) (after_mkdir (root s) w) Hroot Hfree)
      as [Hex Ht].
    split; [done|].
    rewrite (new_events_app w _ [EvTouch (marker s); EvMkdir (root s)]);
      [|by rewrite Ht].
    split; [by left | unfold marker_warning; by intros [[=]|[[=]|[]]]]. }
  destruct (negb (_ || _)).
  { destruct (require_local_model_store s); discriminate. }
  destruct (_download_model_snapshot _ _ _ _) as [[[]|e] w2] eqn:Hd;
    [|discriminate].
  apply _download_model_snapshot_run in Hd as (Hden & _ & dl & Hdl & Hev & _).
  destruct (has_expected (fs w2) s) as [[|]|e'] eqn:Hexp; cbn [negb];
    [|discriminate..].
  intros [= _ <-].
  assert (Hroot2 : is_dir (fs w2) (root s) = true).
  { apply is_dir_root_of_repo. by eapply _has_expected_artifacts_is_dir. }
  assert (Hfree2 : forall p, denied w2 p = false).
  { intros p. rewrite Hden. apply Hfree. }
  destruct (after_marker_present (root s) w2 Hroot2 Hfree2) as [Hex Ht].
  split; [done|].
  rewrite (new_events_app w _ ([EvTouch (marker s)] ++ dl ++ [EvMkdir (root s)])%list).
  2:{ rewrite Ht, Hdl. by rewrite <- !app_assoc. }
  split; [by left|].
  intros Hin. apply in_app_or in Hin as [[Hin|[]]|Hin];
    [by unfold marker_warning in Hin|].
  apply in_app_or in Hin as [Hin|[Hin|[]]];
    [|by unfold marker_warning in Hin].
  by eapply not_download_event in Hin.
Qed.

Lemma replace_slash_no_slash (s : string) :
  PyStr.contains_char "/" (PyStr.replace_char "/" "--" s) = false.
Proof.
  induction s as [|c s IH]; [done|]. cbn [PyStr.replace_char].
  destruct (Ascii.eqb c "/") eqn:Hc.
  - change ("--" ++ ?x) with (String "-" (String "-" x)).
    cbn [PyStr.contains_char]. by rewrite IH.
  - cbn [PyStr.contains_char]. by rewrite IH, orb_false_r, Ascii.eqb_sym.
Qed.

Lemma replace_char_absent (old : ascii) (new s : string) :
  PyStr.contains_char old s = false -> PyStr.replace_char old new s = s.
Proof.
  induction s as [|c s IH]; [done|].
  cbn [PyStr.contains_char PyStr.replace_char].
  rewrite orb_false_iff. intros [Hc Hs]. rewrite Ascii.eqb_sym, Hc.
  by rewrite IH.
Qed.

Lemma split_char_absent (sep : ascii) (s : string) :
  PyStr.contains_char sep s = false -> PyStr.split_char sep s = [s].
Proof.
  induction s as [|c s IH]; [done|].
  cbn [PyStr.contains_char PyStr.split_char].
  rewrite orb_false_iff. intros [Hc Hs]. rewrite Ascii.eqb_sym, Hc.
  by rewrite IH.
Qed.

(** *** The artifact directory *)

(** X17.  The artifact directory is flat: the repo identifier, with every
    slash replaced, holds no slash, so the directory is the store root
    itself (for the identifiers that escape to [""] or ["."]) or the root
    extended by exactly one component.  The escaping is not injective: an
    identifier and its escaped form share a directory. *)
Theorem resolve_repo_dir_flat (settings : Settings) :
  PyStr.contains_char "/"
    (PyStr.replace_char "/" "--" (model_repo_id settings)) = false
  /\ resolve_repo_dir resolve settings
     = (if String.eqb (PyStr.replace_char "/" "--" (model_repo_id settings)) ""
           || String.eqb (PyStr.replace_char "/" "--" (model_repo_id settings)) "."
        then root settings
        else root settings
             ++ [PyStr.replace_char "/" "--" (model_repo_id settings)])%list
  /\ resolve_repo_dir resolve
       (with_model_repo_id (F := fun T => T)
          (PyStr.replace_char "/" "--" (model_repo_id settings)) settings)
     = resolve_repo_dir resolve settings.
Proof.
  pose proof (replace_slash_no_slash (model_repo_id settings)) as Hn.
  split; [exact Hn|]. split.
  - unfold resolve_repo_dir, joinpath.
    rewrite replace_slash_relative. unfold parts.
    rewrite (split_char_absent _ _ Hn). cbn [List.filter].
    destruct (String.eqb _ "" || String.eqb _ "."); cbn [negb];
      [by rewrite app_nil_r | done].
  - unfold resolve_repo_dir.
    cbn [model_repo_id model_store_dir with_model_repo_id].
    by rewrite (replace_char_absent _ _ _ Hn).
Qed.

End Platform.

(** *** The properties on the sample platform *)

Local Abbreviation forced_run :=
  (Sample.ensure_model_store Sample.force_settings Sample.stocked).
Local Abbreviation default_run :=
  (Sample.ensure_model_store Sample.defaults Sample.stocked).
Local Abbreviation first_run :=
  (Sample.ensure_model_store Sample.auto_settings Sample.fresh).
Local Abbreviation clientless :=
  (Sample.world Sample.stocked_disk false None).
Local Abbreviation clientless_run :=
  (Sample.ensure_model_store Sample.force_settings clientless).

(** A forced refresh of a store that holds the artifacts. *)
Lemma ensure_model_store_postcondition_witness :
  forced_run = (Returns (Some "/srv/ocr/model_store"), forced_run.2)
  /\ is_dir (fs forced_run.2)
       (Sample.resolve (model_store_dir Sample.force_settings)) = true
  /\ is_dir (fs forced_run.2)
       (resolve_repo_dir Sample.resolve Sample.force_settings) = true
  /\ _has_expected_artifacts Sample.glob_match (fs forced_run.2)
       (resolve_repo_dir Sample.resolve Sample.force_settings)
       (model_filename Sample.force_settings) = Returns true
  /\ (model_force_download Sample.force_settings = true ->
      fetches (new_events Sample.stocked forced_run.2) = 1%nat).
Proof.
  assert (Hr : forced_run.1 = Returns (Some "/srv/ocr/model_store"))
    by (vm_compute; reflexivity).
  assert (Hrun : forced_run
                 = (Returns (Some "/srv/ocr/model_store"), forced_run.2)).
  { rewrite <- Hr. apply run_pair. }
  split; [exact Hrun|].
  exact (ensure_model_store_postcondition Sample.resolve Sample.glob_match
           _ _ _ _ Hrun).
Defined.


Lemma present_artifacts_skip_download_witness :
  model_force_download Sample.defaults = false
  /\ (require_local_model_store Sample.defaults
      || auto_download_model_store Sample.defaults) = true
  /\ _has_expected_artifacts Sample.glob_match (fs Sample.stocked)
       (resolve_repo_dir Sample.resolve Sample.defaults)
       (model_filename Sample.defaults) = Returns true
  /\ exists w',
       Sample.ensure_model_store Sample.defaults Sample.stocked
       = (Returns (Some (path_str (Sample.resolve (model_store_dir Sample.defaults)))),
          w')
       /\ fetches (new_events Sample.stocked w') = 0%nat
       /\ fs Sample.stocked ⊆ fs w'
       /\ _has_expected_artifacts Sample.glob_match (fs w')
            (resolve_repo_dir Sample.resolve Sample.defaults)
            (model_filename Sample.defaults) = Returns true.
Proof.
  assert (Hexp : _has_expected_artifacts Sample.glob_match (fs Sample.stocked)
                   (resolve_repo_dir Sample.resolve Sample.defaults)
                   (model_filename Sample.defaults) = Returns true)
    by (vm_compute; reflexivity).
  split; [reflexivity|]. split; [reflexivity|]. split; [exact Hexp|].
  exact (present_artifacts_skip_download Sample.resolve Sample.glob_match
           Sample.defaults Sample.stocked eq_refl eq_refl Hexp).
Defined.

(** The first run on an empty disk: the fetch is made with the repo
    identifier, the artifact directory and the flag, and without a token. *)
Lemma fetch_arguments_filtered_witness :
  In (EvSnapshotDownload
        [("repo_id", VStr "allenai/olmOCR-2-7B-1025-FP8");
         ("local_dir", VStr "/srv/ocr/model_store/allenai--olmOCR-2-7B-1025-FP8");
         ("force_download", VBool false)])
     (new_events Sample.fresh first_run.2)
  /\ exists h,
       hub Sample.fresh = Some h
       /\ forall key value,
            In (key, value)
               [("repo_id", VStr "allenai/olmOCR-2-7B-1025-FP8");
                ("local_dir",
                 VStr "/srv/ocr/model_store/allenai--olmOCR-2-7B-1025-FP8");
                ("force_download", VBool false)] ->
            In key (snapshot_download_params h) /\ value <> VNone
            /\ In key ["repo_id"; "local_dir"; "token"; "force_download";
                       "allow_patterns"].
Proof.
  assert (Hin : In (EvSnapshotDownload
                      [("repo_id", VStr "allenai/olmOCR-2-7B-1025-FP8");
                       ("local_dir",
                        VStr "/srv/ocr/model_store/allenai--olmOCR-2-7B-1025-FP8");
                       ("force_download", VBool false)])
                   (new_events Sample.fresh first_run.2)).
  { vm_compute. do 2 right. left. reflexivity. }
  split; [exact Hin|].
  destruct (fetch_arguments_filtered Sample.resolve Sample.glob_match
              Sample.auto_settings Sample.fresh _ _ _
              (run_pair (Sample.ensure_model_store Sample.auto_settings) Sample.fresh) Hin) as (h & Hh & Hkw & _).
  exists h. split; [exact Hh | exact Hkw].
Defined.


Lemma _find_model_file_finds_first_witness :
  _find_model_file Sample.glob_match Sample.stocked_disk Sample.repo_dir
    " model.safetensors "
  = Returns (Some (Sample.repo_dir ++ ["model.safetensors"])%list)
  /\ is_file Sample.stocked_disk (Sample.repo_dir ++ ["model.safetensors"])
     = true
  /\ is_dir Sample.stocked_disk Sample.repo_dir = true
  /\ PyStr.strip " model.safetensors " <> "".
Proof.
  assert (H : _find_model_file Sample.glob_match Sample.stocked_disk
                Sample.repo_dir " model.safetensors "
              = Returns (Some (Sample.repo_dir ++ ["model.safetensors"])%list))
    by (vm_compute; reflexivity).
  split; [exact H|].
  destruct (_find_model_file_finds_first Sample.glob_match _ _ _ _ H)
    as (Hfile & Hdir & Hpattern & _).
  split; [exact Hfile|]. split; [exact Hdir | exact Hpattern].
Defined.

(** A file added beside the weights. *)
Lemma artifacts_survive_growth_witness :
  Sample.stocked_disk
  ⊆ <[(Sample.repo_dir ++ ["README.md"])%list := KFile]> Sample.stocked_disk
  /\ (_has_expected_artifacts Sample.glob_match Sample.stocked_disk
        Sample.repo_dir None = Returns true ->
      _has_expected_artifacts Sample.glob_match
        (<[(Sample.repo_dir ++ ["README.md"])%list := KFile]> Sample.stocked_disk)
        Sample.repo_dir None = Returns true).
Proof.
  assert (Hsub : Sample.stocked_disk
                 ⊆ <[(Sample.repo_dir ++ ["README.md"])%list := KFile]>
                     Sample.stocked_disk).
  { apply insert_subseteq. vm_compute. reflexivity. }
  split; [exact Hsub|].
  exact (proj1 (artifacts_survive_growth Sample.glob_match _ _ Sample.repo_dir
                  None "*" Hsub)).
Defined.

Lemma marker_present_after_ensure_witness :
  (forall p, denied Sample.stocked p = false)
  /\ default_run = (Returns (Some "/srv/ocr/model_store"), default_run.2)
  /\ exists_ (fs default_run.2)
       (joinpath (Sample.resolve (model_store_dir Sample.defaults))
          ".model_store_ready") = true.
Proof.
  assert (Hfree : forall p, denied Sample.stocked p = false)
    by (intros p; reflexivity).
  assert (Hr : default_run.1 = Returns (Some "/srv/ocr/model_store"))
    by (vm_compute; reflexivity).
  assert (Hrun : default_run
                 = (Returns (Some "/srv/ocr/model_store"), default_run.2)).
  { rewrite <- Hr. apply run_pair. }
  split; [exact Hfree|]. split; [exact Hrun|].
  exact (proj1 (marker_present_after_ensure Sample.resolve Sample.glob_match
                  _ _ _ _ Hfree Hrun)).
Defined.

(** Two repo identifiers, one directory. *)
Example escaped_repo_ids_collide :
  resolve_repo_dir Sample.resolve
    (with_model_repo_id (F := fun T => T) "org/model" Sample.defaults)
  = resolve_repo_dir Sample.resolve
      (with_model_repo_id (F := fun T => T) "org--model" Sample.defaults).
Proof. reflexivity. Qed.

End ModelStoreProps.

(** ** The validator kept for older start-up code *)

Module ValidateProps.

Import Config Fs ModelStore FsSpec ModelStoreSpec ModelStoreProps.

Section Platform.

Variable resolve : string -> Path.
Variable glob_match : string -> Path -> bool.
Variable expanduser : string -> string.
Variable get_settings : outcome (list field_error) Settings.

Local Abbreviation root s := (resolve (model_store_dir s)).
Local Abbreviation repo s := (resolve_repo_dir resolve s).
Local Abbreviation has_expected f s :=
  (_has_expected_artifacts glob_match f (resolve_repo_dir resolve s) (model_filename s)).
Local Abbreviation ensure := (ensure_model_store resolve glob_match).
Local Abbreviation validate :=
  (validate_model_store resolve glob_match expanduser get_settings).

(** The part of [validate_model_store] that follows the reading of its
    arguments. *)
Local Abbreviation finish settings require_non_empty :=
  (let* ensured_path := lift_exn (ensure settings) in
   let* _ := lift_exn (mkdir (root settings)) in
   match ensured_path with
   | Some ensured => ret ensured
   | None =>
       let* has_files :=
         gets (fun w => _model_store_has_files (fs w) (root settings)) in
       if require_non_empty && negb has_files
       then raise (Raised (RuntimeError (store_empty_message (root settings)) None))
       else
         let* _ := lift_exn (_write_bootstrap_marker (root settings)) in
         ret (path_str (root settings))
   end).

Lemma finish_run (s : Settings) (require : bool) (w : World) :
  finish s require w =
  match ensure s w with
  | (Raises e, w1) => (Raises (Raised e), w1)
  | (Returns ensured_path, w1) =>
      match os_outcome (mkdir_p (denied w1) (fs w1) (root s)).1 with
      | Raises e => (Raises (Raised e), after_mkdir (root s) w1)
      | Returns _ =>
          let w2 := after_mkdir (root s) w1 in
          match ensured_path with
          | Some ensured => (Returns ensured, w2)
          | None =>
              if require && negb (_model_store_has_files (fs w2) (root s))
              then (Raises (Raised (RuntimeError (store_empty_message (root s)) None)),
                    w2)
              else (Returns (path_str (root s)), after_marker (root s) w2)
          end
      end
  end.
Proof.
  unfold bind at 1, lift_exn at 1.
  destruct (ensure s w) as [[ens|e] w1]; [|done].
  unfold bind at 1, lift_exn at 1. rewrite mkdir_run.
  destruct (os_outcome _) as [[]|e]; [|done]. cbv zeta.
  destruct ens as [v|]; [done|].
  unfold bind at 1, gets at 1.
  destruct (require && _); [done|].
  unfold bind, lift_exn, ret. by rewrite _write_bootstrap_marker_run.
Qed.

(** X18.  Called with a snapshot, [validate_model_store] delegates: an
    exception of [ensure_model_store] is raised unchanged, with nothing done
    after it; a path [ensure_model_store] returns is returned, and the
    directory creation that follows changes nothing in the file system. *)
Theorem validate_model_store_delegates (settings : Settings)
    (require_non_empty : option bool) (w w1 : World) :
  (forall e,
     ensure settings w = (Raises e, w1) ->
     validate (PSettings settings) None require_non_empty ∅ w
     = (Raises (Raised e), w1))
  /\ (forall ensured,
        ensure settings w = (Returns (Some ensured), w1) ->
        exists w',
          validate (PSettings settings) None require_non_empty ∅ w
          = (Returns ensured, w')
          /\ fs w' = fs w1
          /\ new_events w1 w' = [EvMkdir (root settings)]).
Proof.
  assert (Hstart : validate (PSettings settings) None require_non_empty ∅ w
            = finish settings
                (match require_non_empty with Some b => b | None => true end) w).
  { reflexivity. }
  rewrite Hstart, finish_run. split.
  - by intros e ->.
  - intros v Hrun. rewrite Hrun.
    destruct (ensure_model_store_returns_some _ _ _ _ _ _ Hrun)
      as (_ & _ & _ & Hroot & _).
    unfold after_mkdir. rewrite (mkdir_p_dir _ _ _ Hroot). cbn [fst snd os_outcome].
    eexists. split; [reflexivity|]. split; [done|].
    by apply new_events_app.
Qed.


(** X19.  With the three bootstrap switches off, where
    [ensure_model_store] does nothing, [validate_model_store] still creates
    the store root and never fetches.  It returns the root, then a
    directory, and unless [require_non_empty] is [False] the store holds a
    file; it raises only an [OSError] of the directory creation or, for a
    store without a file, the error that the store is empty. *)
Theorem validate_model_store_without_bootstrap (settings : Settings)
    (require_non_empty : option bool) (w w' : World)
    (r : outcome failure string) :
  require_local_model_store settings = false ->
  auto_download_model_store settings = false ->
  model_force_download settings = false ->
  validate (PSettings settings) None require_non_empty ∅ w = (r, w') ->
  fetches (new_events w w') = 0%nat
  /\ fs w ⊆ fs w'
  /\ match r with
     | Returns v =>
         v = path_str (root settings)
         /\ is_dir (fs w') (root settings) = true
         /\ (require_non_empty <> Some false ->
             _model_store_has_files (fs w') (root settings) = true)
     | Raises raised =>
         (exists cls p, raised = Raised (OSError cls p))
         \/ (raised
             = Raised (RuntimeError (store_empty_message (root settings)) None)
             /\ require_non_empty <> Some false
             /\ _model_store_has_files (fs w') (root settings) = false)
     end.
Proof.
  intros Hr Ha Hf.
  assert (Hstart : validate (PSettings settings) None require_non_empty ∅ w
            = finish settings
                (match require_non_empty with Some b => b | None => true end) w).
  { reflexivity. }
  rewrite Hstart, finish_run, ensure_model_store_unfold, Hr, Ha, Hf.
  cbn [negb orb].
  pose proof (after_mkdir_subseteq (root settings) w) as Hsub.
  destruct (mkdir_p _ _ _).1 as [[]|[cls p]] eqn:Hmk; cbn [os_outcome].
  2:{ intros [= <- <-].
      split; [by rewrite (new_events_app w _ [EvMkdir (root settings)])|].
      split; [done|]. left. by exists cls, p. }
  assert (Hdir : is_dir (fs (after_mkdir (root settings) w)) (root settings) = true).
  { eapply (after_mkdir_ok _ _ tt). by rewrite Hmk. }
  cbv zeta.
  destruct (_model_store_has_files _ _) eqn:Hfiles.
  - rewrite andb_false_r. intros [= <- <-].
    destruct (after_marker_trace (root settings) (after_mkdir (root settings) w))
      as (added & Ht & Hn).
    destruct (after_marker_settled (root settings) (after_mkdir (root settings) w))
      as [Hsub2 _].
    split.
    { rewrite (new_events_app w _ (added ++ [EvMkdir (root settings)])%list).
      - by rewrite fetches_app, Hn.
      - by rewrite Ht, <- app_assoc. }
    split; [by etrans|]. split; [done|].
    split; [by eapply is_dir_mono|]. intros _.
    by eapply _model_store_has_files_mono.
  - rewrite andb_true_r.
    destruct require_non_empty as [[|]|]; intros [= <- <-].
    + split; [by rewrite (new_events_app w _ [EvMkdir (root settings)])|].
      split; [done|]. by right.
    + destruct (after_marker_trace (root settings) (after_mkdir (root settings) w))
        as (added & Ht & Hn).
      destruct (after_marker_settled (root settings) (after_mkdir (root settings) w))
        as [Hsub2 _].
      split.
      { rewrite (new_events_app w _ (added ++ [EvMkdir (root settings)])%list).
        - by rewrite fetches_app, Hn.
        - by rewrite Ht, <- app_assoc. }
      split; [by etrans|]. split; [done|].
      split; [by eapply is_dir_mono | done].
    + split; [by rewrite (new_events_app w _ [EvMkdir (root settings)])|].
      split; [done|]. by right.
Qed.


(** X20.  The legacy keywords are aliases: [settings=] stands for the
    positional argument when that is [None]; [model_store_path=] with a path
    stands for [path=] when that is [None]; [allow_empty=] stands for
    [require_non_empty=] with the opposite truth value, and is ignored when
    [require_non_empty] is given. *)
Theorem legacy_keywords_are_aliases (model_store_dir : pyobj)
    (path : option string) (require_non_empty : option bool)
    (legacy_kwargs : gmap string pyobj) (w : World) :
  (forall given,
     legacy_kwargs !! "settings" = Some given ->
     validate PNone path require_non_empty legacy_kwargs w
     = validate given path require_non_empty (delete "settings" legacy_kwargs) w)
  /\ (forall p,
        legacy_kwargs !! "model_store_path" = Some (PPath p) ->
        validate model_store_dir None require_non_empty legacy_kwargs w
        = validate model_store_dir (Some p) require_non_empty
            (delete "model_store_path" legacy_kwargs) w)
  /\ (forall allow_empty,
        legacy_kwargs !! "allow_empty" = Some allow_empty ->
        allow_empty <> PNone ->
        validate model_store_dir path None legacy_kwargs w
        = validate model_store_dir path (Some (negb (bool_of allow_empty)))
            (delete "allow_empty" legacy_kwargs) w)
  /\ (forall given,
        validate model_store_dir path (Some given) legacy_kwargs w
        = validate model_store_dir path (Some given)
            (delete "allow_empty" legacy_kwargs) w).
Proof.
  split; [|split; [|split]].
  - intros given Hs. unfold validate_model_store.
    rewrite Hs, lookup_delete_eq. by destruct given.
  - intros p Hp. unfold validate_model_store.
    rewrite (lookup_delete_ne legacy_kwargs "model_store_path" "settings")
      by done.
    assert (Hgone : forall m : gmap string pyobj,
              match delete "model_store_path" m !! "model_store_path", Some p with
              | Some maybe_path, None =>
                  (match maybe_path with PPath q => Some q | _ => None end,
                   delete "model_store_path" (delete "model_store_path" m))
              | _, _ => (Some p, delete "model_store_path" m)
              end = (Some p, delete "model_store_path" m)).
    { intros m. by rewrite lookup_delete_eq. }
    destruct (legacy_kwargs !! "settings") as [given|] eqn:Hs;
      [destruct model_store_dir|].
    + rewrite (lookup_delete_ne legacy_kwargs "settings" "model_store_path"), Hp
        by done.
      rewrite (delete_delete legacy_kwargs "settings" "model_store_path").
      by rewrite Hgone.
    + by rewrite Hp, Hgone.
    + by rewrite Hp, Hgone.
    + by rewrite Hp, Hgone.
    + by rewrite Hp, Hgone.
    + by rewrite Hp, Hgone.
  - intros allow_empty Ha Hne. unfold validate_model_store.
    rewrite (lookup_delete_ne legacy_kwargs "allow_empty" "settings") by done.
    destruct (legacy_kwargs !! "settings") as [given|]; [destruct model_store_dir|];
      rewrite ?(lookup_delete_ne _ "settings" "model_store_path") by done;
      rewrite ?(lookup_delete_ne _ "allow_empty" "model_store_path") by done;
      (destruct (legacy_kwargs !! "model_store_path") as [maybe_path|];
         [destruct path|]);
      rewrite ?(lookup_delete_ne _ "model_store_path" "allow_empty") by done;
      rewrite ?(lookup_delete_ne _ "settings" "allow_empty") by done;
      rewrite ?Ha, ?lookup_delete_eq;
      rewrite ?(delete_delete _ "settings" "allow_empty"),
        ?(delete_delete _ "model_store_path" "allow_empty"), ?delete_delete_eq;
      cbn [default]; by destruct allow_empty.
  - intros given. unfold validate_model_store.
    rewrite (lookup_delete_ne legacy_kwargs "allow_empty" "settings") by done.
    destruct (legacy_kwargs !! "settings") as [v|]; [destruct model_store_dir|];
      rewrite ?(lookup_delete_ne _ "settings" "model_store_path") by done;
      rewrite ?(lookup_delete_ne _ "allow_empty" "model_store_path") by done;
      (destruct (legacy_kwargs !! "model_store_path") as [maybe_path|];
         [destruct path|]);
      rewrite ?(delete_delete _ "settings" "allow_empty"),
        ?(delete_delete _ "model_store_path" "allow_empty"), ?delete_delete_eq;
      done.
Qed.


(** A log entry before the rest changes nothing but the trace. *)
Lemma log_then_finish (leftover : gmap string pyobj) (settings : Settings)
    (require : bool) (w : World) :
  exists logs,
    (let* _ :=
       if bool_decide (leftover = ∅) then ret tt
       else lift_exn
              (logger "DEBUG" "Ignoring unrecognized validate_model_store kwargs") in
     finish settings require) w
    = finish settings require
        {| fs := fs w; denied := denied w; hub := hub w;
           trace := (logs ++ trace w)%list |}
    /\ fetches logs = 0%nat.
Proof.
  destruct (bool_decide _).
  - exists []. split; [|done]. unfold bind at 1, ret at 1. by destruct w.
  - eexists [_]. split; [reflexivity | done].
Qed.

(** [validate_model_store] once the legacy keywords are merged into its
    arguments. *)
Local Abbreviation merged model_store_dir path require leftover :=
  (let* settings :=
     match model_store_dir with
     | PSettings settings => ret settings
     | _ =>
         match get_settings with
         | Returns settings => ret settings
         | Raises errors => raise (ValidationError errors)
         end
     end in
   let* settings :=
     match match path with
           | Some p => PPath p
           | None =>
               match model_store_dir with
               | PSettings _ => PNone
               | _ => model_store_dir
               end
           end with
     | PNone => ret settings
     | PPath p =>
         ret (with_model_store_dir (F := fun T => T) (expanduser p) settings)
     | _ => raise TypeError
     end in
   let* _ :=
     if bool_decide (leftover = ∅) then ret tt
     else lift_exn
            (logger "DEBUG" "Ignoring unrecognized validate_model_store kwargs") in
   finish settings require).

Lemma validate_model_store_merges (model_store_dir : pyobj)
    (path : option string) (require_non_empty : option bool)
    (legacy_kwargs : gmap string pyobj) (w : World) :
  exists model_store_dir' path' require (leftover : gmap string pyobj),
    validate model_store_dir path require_non_empty legacy_kwargs w
    = merged model_store_dir' path' require leftover w.
Proof.
  unfold validate_model_store.
  set (first :=
         match legacy_kwargs !! "settings", model_store_dir with
         | Some given, PNone => (given, delete "settings" legacy_kwargs)
         | _, _ => (model_store_dir, legacy_kwargs)
         end).
  destruct first as [msd1 m1].
  set (second :=
         match m1 !! "model_store_path", path with
         | Some maybe_path, None =>
             (match maybe_path with PPath p => Some p | _ => None end,
              delete "model_store_path" m1)
         | _, _ => (path, m1)
         end).
  destruct second as [path1 m2].
  exists msd1, path1. do 2 eexists. reflexivity.
Qed.

(** The reading of the arguments either fails, before anything is done, or
    settles on a snapshot and goes on, after at most a log entry. *)
Lemma validate_model_store_start (model_store_dir : pyobj)
    (path : option string) (require_non_empty : option bool)
    (legacy_kwargs : gmap string pyobj) (w : World) :
  (exists raised,
     validate model_store_dir path require_non_empty legacy_kwargs w
     = (Raises raised, w)
     /\ (raised = TypeError \/ exists errors, raised = ValidationError errors))
  \/ (exists settings require logs,
        validate model_store_dir path require_non_empty legacy_kwargs w
        = finish settings require
            {| fs := fs w; denied := denied w; hub := hub w;
               trace := (logs ++ trace w)%list |}
        /\ fetches logs = 0%nat).
Proof.
  destruct (validate_model_store_merges model_store_dir path require_non_empty
              legacy_kwargs w) as (msd & path' & require & leftover & ->).
  destruct msd as [|p1|s1|b1|t1], path' as [q|], get_settings as [s3|errors];
    first
      [ left; eexists; split; [reflexivity|]; by eauto
      | right;
        unfold bind at 1, ret at 1; cbv beta iota;
        unfold bind at 1, ret at 1; cbv beta iota;
        match goal with
        | |- context [ensure_model_store resolve glob_match ?s] =>
            destruct (log_then_finish leftover s require w)
              as (logs & Hlogs & Hn);
            exists s, require, logs; split; [exact Hlogs | exact Hn]
        end ].
Qed.

Lemma finish_post (s : Settings) (require : bool) (w w' : World)
    (r : outcome failure string) :
  finish s require w = (r, w') ->
  (exists added,
     trace w' = (added ++ trace w)%list /\ (fetches added <= 1)%nat)
  /\ (forall v, r = Returns v ->
        v = path_str (root s) /\ is_dir (fs w') (root s) = true)
  /\ (forall raised, r = Raises raised -> exists e, raised = Raised e).
Proof.
  rewrite finish_run.
  destruct (ensure s w) as [[ens|e] w1] eqn:Hrun.
  2:{ intros [= <- <-].
      destruct (ensure_model_store_paths _ _ _ _ _ _ Hrun) as (added & Ht & Hle & _).
      split; [by exists added|]. split; [done|].
      intros raised [= <-]. by exists e. }
  destruct (ensure_model_store_paths _ _ _ _ _ _ Hrun) as (added & Ht & Hle & _).
  assert (Hmkdir : exists added',
            trace (after_mkdir (root s) w1) = (added' ++ trace w)%list
            /\ (fetches added' <= 1)%nat).
  { exists ([EvMkdir (root s)] ++ added)%list. split.
    - cbn [trace after_mkdir]. by rewrite Ht.
    - by rewrite fetches_app. }
  destruct (os_outcome _) as [[]|e] eqn:Hmk.
  2:{ intros [= <- <-]. split; [done|]. split; [done|].
      intros raised [= <-]. by exists e. }
  apply after_mkdir_ok in Hmk as [Hsub Hdir]. cbv zeta.
  destruct ens as [v|].
  - intros [= <- <-]. split; [done|]. split; [|done].
    intros v' [= <-]. split; [|done].
    by destruct (ensure_model_store_returns_some _ _ _ _ _ _ Hrun).
  - destruct (require && _).
    + intros [= <- <-]. split; [done|]. split; [done|].
      intros raised [= <-]. by eexists.
    + intros [= <- <-].
      destruct (after_marker_trace (root s) (after_mkdir (root s) w1))
        as (marked & Hm & Hn).
      destruct (after_marker_settled (root s) (after_mkdir (root s) w1))
        as [Hsub2 _].
      destruct Hmkdir as (added' & Ht' & Hle').
      split; [|split; [|done]].
      * exists (marked ++ added')%list. split.
        -- by rewrite Hm, Ht', <- app_assoc.
        -- rewrite fetches_app, Hn. lia.
      * intros v [= <-]. split; [done|]. by eapply is_dir_mono.
Qed.

(** X21.  Whatever the arguments, [validate_model_store] fetches at most
    once; when it returns, it returns the path of a store root, which is
    then a directory (it never returns [None]); and a [TypeError] or a
    validation error of the settings is raised before anything is
    touched. *)
Theorem validate_model_store_returns_directory (model_store_dir : pyobj)
    (path : option string) (require_non_empty : option bool)
    (legacy_kwargs : gmap string pyobj) (w w' : World)
    (r : outcome failure string) :
  validate model_store_dir path require_non_empty legacy_kwargs w = (r, w') ->
  (fetches (new_events w w') <= 1)%nat
  /\ (forall v, r = Returns v ->
        exists settings : Settings,
          v = path_str (root settings)
          /\ is_dir (fs w') (root settings) = true)
  /\ (forall raised, r = Raises raised ->
        raised = TypeError \/ (exists errors, raised = ValidationError errors) ->
        w' = w).
Proof.
  destruct (validate_model_store_start model_store_dir path require_non_empty
              legacy_kwargs w)
    as [(raised & -> & _)|(s & require & logs & -> & Hn)].
  - intros [= <- <-]. split.
    { rewrite (new_events_app w w []); [|done]. unfold fetches. simpl. lia. }
    split; [done|]. done.
  - intros Hrun. apply finish_post in Hrun as ((added & Ht & Hle) & Hv & Hraised).
    cbn [trace] in Ht. split.
    + rewrite (new_events_app w w' (added ++ logs)%list).
      * rewrite fetches_app. lia.
      * by rewrite Ht, app_assoc.
    + split.
      * intros v Hr. exists s. exact (Hv v Hr).
      * intros raised Hr. destruct (Hraised raised Hr) as [e ->].
        by intros [[=]|[errors [=]]].
Qed.

End Platform.

Local Abbreviation offline_world :=
  (Sample.world Sample.stocked_disk false None).
Local Abbreviation offline_run :=
  (Sample.validate_model_store (PSettings Sample.offline_settings) None None ∅
     offline_world).
Local Abbreviation legacy_run :=
  (Sample.validate_model_store PNone None None
     {[ "model_store_path" := PPath "/srv/ocr/model_store" ]} Sample.stocked).

(** Bootstrap switched off, on a store that holds files. *)
Lemma validate_model_store_without_bootstrap_witness :
  require_local_model_store Sample.offline_settings = false
  /\ auto_download_model_store Sample.offline_settings = false
  /\ model_force_download Sample.offline_settings = false
  /\ fetches (new_events offline_world offline_run.2) = 0%nat
  /\ fs offline_world ⊆ fs offline_run.2.
Proof.
  assert (Hrun : validate_model_store Sample.resolve Sample.glob_match
                   Sample.expanduser (Returns Sample.defaults)
                   (PSettings Sample.offline_settings) None None ∅ offline_world
                 = (offline_run.1, offline_run.2))
    by exact (surjective_pairing offline_run).
  split; [reflexivity|]. split; [reflexivity|]. split; [reflexivity|].
  destruct (validate_model_store_without_bootstrap Sample.resolve
              Sample.glob_match Sample.expanduser (Returns Sample.defaults)
              Sample.offline_settings None offline_world
              offline_run.2 offline_run.1 eq_refl eq_refl eq_refl Hrun)
    as (Hfetch & Hgrow & _).
  split; [exact Hfetch | exact Hgrow].
Defined.

(** An older caller that passes the store by keyword. *)
Lemma validate_model_store_returns_directory_witness :
  legacy_run = (legacy_run.1, legacy_run.2)
  /\ (fetches (new_events Sample.stocked legacy_run.2) <= 1)%nat.
Proof.
  assert (Hrun : validate_model_store Sample.resolve Sample.glob_match
                   Sample.expanduser (Returns Sample.defaults)
                   PNone None None
                   {[ "model_store_path" := PPath "/srv/ocr/model_store" ]}
                   Sample.stocked
                 = (legacy_run.1, legacy_run.2))
    by exact (surjective_pairing legacy_run).
  split; [apply surjective_pairing|].
  exact (proj1 (validate_model_store_returns_directory Sample.resolve
                  Sample.glob_match Sample.expanduser (Returns Sample.defaults)
                  PNone None None
                  {[ "model_store_path" := PPath "/srv/ocr/model_store" ]}
                  Sample.stocked legacy_run.2 legacy_run.1 Hrun)).
Defined.

Example legacy_call_returns_store_root :
  legacy_run.1 = Returns "/srv/ocr/model_store".
Proof. vm_compute. reflexivity. Qed.

(** An object that is no path, handed over as the store, is a
    [TypeError]. *)
Example store_of_wrong_type :
  (Sample.validate_model_store (PBool true) None None ∅ Sample.stocked).1
  = Raises TypeError.
Proof. vm_compute. reflexivity. Qed.

End ValidateProps.

(** ** The launcher of the local backend *)

Module LauncherProps.

Import Config Fs ModelStore FsSpec ModelStoreSpec VllmLocalServer.

Lemma env_get_setdefault (env : list (string * string)) (key value k : string) :
  env_get (setdefault env key value) k
  = match env_get env k with
    | Some v => Some v
    | None => if String.eqb key k then Some value else None
    end.
Proof.
  unfold setdefault.
  destruct (existsb _ env) eqn:Hex.
  - destruct (env_get env k) as [v|] eqn:Hk; [done|].
    destruct (String.eqb_spec key k) as [->|]; [|done].
    exfalso. induction env as [|[k' v'] env IH]; [done|].
    simpl in Hex, Hk. destruct (String.eqb k' k); [done|]. by apply IH.
  - clear Hex. induction env as [|[k' v'] env IH]; simpl.
    + by destruct (String.eqb key k).
    + destruct (String.eqb k' k); [done|]. apply IH.
Qed.

Section Platform.

Variable resolve : string -> Path.
Variable glob_match : string -> Path -> bool.
Variable sys_executable : string.
Variable str_float : pyfloat -> string.
Variable shlex_split : string -> outcome string (list string).
Variable os_environ : list (string * string).

Local Abbreviation root s := (resolve (model_store_dir s)).
Local Abbreviation repo s := (resolve_repo_dir resolve s).
Local Abbreviation has_expected f s :=
  (_has_expected_artifacts glob_match f (resolve_repo_dir resolve s) (model_filename s)).
Local Abbreviation ensure := (ensure_model_store resolve glob_match).
Local Abbreviation launch :=
  (main resolve glob_match sys_executable str_float shlex_split os_environ).


(** The environment the launcher hands to the backend. *)
Lemma main_returns_env (settings : Settings) (w w' : World) (e : Exec) :
  launch settings w = (Returns e, w') ->
  exec_env e
  = match hf_token settings with
    | Some token =>
        if String.eqb token "" then os_environ
        else setdefault (setdefault os_environ "HF_TOKEN" token)
               "HUGGING_FACE_HUB_TOKEN" token
    | None => os_environ
    end.
Proof.
  unfold main, bind, gets.
  destruct (ensure settings w) as [[a|x] w1]; [|discriminate].
  destruct (negb _); [discriminate|].
  destruct (vllm_additional_args settings) as [args|];
    [destruct (String.eqb args ""); [|destruct (shlex_split args)]|];
    unfold ret, raise; by intros [= <- _].
Qed.

(** X23.  The backend inherits the launcher's environment unchanged: every
    variable that is set keeps its value, so a registry token that is already
    in the environment is not replaced by the one of the settings;
    [HF_TOKEN] and [HUGGING_FACE_HUB_TOKEN] are set to the token of the
    settings only where they are missing, and no other variable is
    added. *)
Theorem inherited_environment_kept (settings : Settings) (w w' : World)
    (e : Exec) :
  launch settings w = (Returns e, w') ->
  (forall key value,
     env_get os_environ key = Some value ->
     env_get (exec_env e) key = Some value)
  /\ (forall token,
        hf_token settings = Some token -> token <> "" ->
        (env_get os_environ "HF_TOKEN" = None ->
         env_get (exec_env e) "HF_TOKEN" = Some token)
        /\ (env_get os_environ "HUGGING_FACE_HUB_TOKEN" = None ->
            env_get (exec_env e) "HUGGING_FACE_HUB_TOKEN" = Some token))
  /\ (hf_token settings = None \/ hf_token settings = Some "" ->
      exec_env e = os_environ)
  /\ (forall key,
        key <> "HF_TOKEN" -> key <> "HUGGING_FACE_HUB_TOKEN" ->
        env_get (exec_env e) key = env_get os_environ key).
Proof.
  intros Hrun. rewrite (main_returns_env _ _ _ _ Hrun).
  destruct (hf_token settings) as [token|]; [|by intuition congruence].
  destruct (String.eqb_spec token "") as [->|Hne].
  { repeat split; try done; intros; congruence. }
  split; [|split; [|split]].
  - intros key value Hget. rewrite !env_get_setdefault. by rewrite Hget.
  - intros token' [= <-] _. split; intros Hnone.
    + rewrite !env_get_setdefault, Hnone. done.
    + rewrite !env_get_setdefault, Hnone. done.
  - intros [[=]|[= ->]]. done.
  - intros key H1 H2. rewrite !env_get_setdefault.
    destruct (env_get os_environ key); [done|].
    destruct (String.eqb_spec "HF_TOKEN" key); [congruence|].
    by destruct (String.eqb_spec "HUGGING_FACE_HUB_TOKEN" key); [congruence|].
Qed.

End Platform.

(** A launcher whose settings hold a token, in a process that has
    [HF_TOKEN] already. *)
Lemma inherited_environment_kept_witness :
  exists e,
    Sample.launch Sample.token_settings Sample.stocked
    = (Returns e, (Sample.launch Sample.token_settings Sample.stocked).2)
    /\ env_get (exec_env e) "HF_TOKEN" = Some "inherited"
    /\ env_get (exec_env e) "HUGGING_FACE_HUB_TOKEN" = Some "from-settings".
Proof.
  assert (Hr : exists e,
            (Sample.launch Sample.token_settings Sample.stocked).1 = Returns e)
    by (eexists; vm_compute; reflexivity).
  destruct Hr as [e Hr]. exists e.
  assert (Hrun : main Sample.resolve Sample.glob_match "/usr/bin/python3"
                   (fun _ => "0.9") Sample.shlex_split Sample.inherited_environ
                   Sample.token_settings Sample.stocked
                 = (Returns e, (Sample.launch Sample.token_settings Sample.stocked).2)).
  { rewrite <- Hr. exact (surjective_pairing _). }
  split; [exact Hrun|].
  destruct (inherited_environment_kept Sample.resolve Sample.glob_match
              "/usr/bin/python3" (fun _ => "0.9") Sample.shlex_split
              Sample.inherited_environ Sample.token_settings Sample.stocked _ e
              Hrun) as (Hkept & Hset & _).
  split.
  - exact (Hkept "HF_TOKEN" "inherited" eq_refl).
  - exact (proj2 (Hset "from-settings" eq_refl
                    ltac:(discriminate)) eq_refl).
Defined.

End LauncherProps.

(** ** The bootstrap command *)

Module BootstrapProps.

Import Config Fs ModelStore FsSpec ModelStoreSpec ModelStoreProps
  BootstrapModelStore.

Section Platform.

Variable resolve : string -> Path.
Variable glob_match : string -> Path -> bool.

Local Abbreviation root s := (resolve (model_store_dir s)).
Local Abbreviation repo s := (resolve_repo_dir resolve s).
Local Abbreviation has_expected f s :=
  (_has_expected_artifacts glob_match f (resolve_repo_dir resolve s) (model_filename s)).
Local Abbreviation ensure := (ensure_model_store resolve glob_match).
Local Abbreviation bootstrap := (BootstrapModelStore.main resolve glob_match).

(** X24.  The bootstrap command completes only with the artifacts in place:
    when it gets to print, it prints the artifact directory, which is then a
    directory that holds the expected artifacts.  It fetches at most once:
    exactly once with [--force], and not at all without it when the
    artifacts were in place already. *)
Theorem bootstrap_completes_with_artifacts (args_force : bool)
    (settings : Settings) (w w' : World) (printed : string) :
  bootstrap args_force settings w = (Returns printed, w') ->
  printed = path_str (repo settings)
  /\ is_dir (fs w') (repo settings) = true
  /\ has_expected (fs w') settings = Returns true
  /\ (fetches (new_events w w') <= 1)%nat
  /\ (args_force = true -> fetches (new_events w w') = 1%nat)
  /\ (args_force = false -> has_expected (fs w) settings = Returns true ->
      fetches (new_events w w') = 0%nat).
Proof.
  unfold BootstrapModelStore.main, bind.
  destruct (ensure (bootstrap_settings args_force settings) w)
    as [[a|x] w1] eqn:Hrun; [|discriminate].
  unfold logger, emit, modify, ret. intros [= <- <-].
  change (repo (bootstrap_settings args_force settings)) with (repo settings).
  split; [done|].
  destruct (ensure_model_store_paths _ _ _ _ _ _ Hrun) as (added & Ht & Hle & _).
  assert (Hnew : new_events w
                   {| fs := fs w1; denied := denied w1; hub := hub w1;
                      trace := EvLog "INFO" "Model bootstrap completed" :: trace w1 |}
                 = EvLog "INFO" "Model bootstrap completed" :: new_events w w1).
  { rewrite (new_events_app _ _ _ Ht).
    apply new_events_app. cbn [trace]. by rewrite Ht. }
  rewrite Hnew.
  assert (Hsame : forall t, fetches (EvLog "INFO" "Model bootstrap completed" :: t)
                            = fetches t) by done.
  rewrite Hsame. cbn [fs].
  destruct a as [v|].
  2:{ by destruct (ensure_model_store_returns_none _ _ _ _ _ Hrun). }
  destruct (ensure_model_store_returns_some _ _ _ _ _ _ Hrun)
    as (_ & _ & _ & _ & Hexp & _).
  change (has_expected (fs w1) settings = Returns true) in Hexp.
  split; [by eapply _has_expected_artifacts_is_dir|]. split; [done|].
  split; [by rewrite (new_events_app _ _ _ Ht)|].
  split.
  - intros ->.
    exact (forced_run_fetches_once resolve glob_match
             (bootstrap_settings true settings) _ _ _ eq_refl Hrun).
  - intros -> Hpresent.
    destruct (ensure_model_store_hit resolve glob_match
                (bootstrap_settings false settings) w eq_refl eq_refl Hpresent)
      as (w2 & Hrun2 & Hn & _).
    rewrite Hrun in Hrun2. by injection Hrun2 as _ <-.
Qed.

End Platform.

(** The command on an empty disk, without [--force]. *)
Lemma bootstrap_completes_with_artifacts_witness :
  Sample.bootstrap false Sample.defaults Sample.fresh
  = (Returns "/srv/ocr/model_store/allenai--olmOCR-2-7B-1025-FP8",
     (Sample.bootstrap false Sample.defaults Sample.fresh).2)
  /\ "/srv/ocr/model_store/allenai--olmOCR-2-7B-1025-FP8"
     = path_str (resolve_repo_dir Sample.resolve Sample.defaults)
  /\ is_dir (fs (Sample.bootstrap false Sample.defaults Sample.fresh).2)
       (resolve_repo_dir Sample.resolve Sample.defaults) = true.
Proof.
  assert (Hr : (Sample.bootstrap false Sample.defaults Sample.fresh).1
               = Returns "/srv/ocr/model_store/allenai--olmOCR-2-7B-1025-FP8")
    by (vm_compute; reflexivity).
  assert (Hrun : BootstrapModelStore.main Sample.resolve Sample.glob_match
                   false Sample.defaults Sample.fresh
                 = (Returns "/srv/ocr/model_store/allenai--olmOCR-2-7B-1025-FP8",
                    (Sample.bootstrap false Sample.defaults Sample.fresh).2)).
  { rewrite <- Hr. exact (surjective_pairing _). }
  split; [exact Hrun|].
  destruct (bootstrap_completes_with_artifacts Sample.resolve Sample.glob_match
              false Sample.defaults Sample.fresh _ _ Hrun)
    as (Hprinted & Hdir & _).
  split; [exact Hprinted | exact Hdir].
Defined.

End BootstrapProps.

(** ** Request pipeline *)

Module PipelineProps.

Import Config Pipeline PipelineSpec.

Section Service.

Variable ALLOWED_CONTENT_TYPES : list string.
Variable normalize_image_mime_type : string -> outcome exn string.
Variable to_data_url : list byte -> string -> outcome exn string.
Variable str_validation_error : Request -> string.
Variable framework_answer : Request -> Z * string.

Local Abbreviation ocr :=
  (Pipeline.ocr ALLOWED_CONTENT_TYPES normalize_image_mime_type to_data_url).
Local Abbreviation router :=
  (Pipeline.router ALLOWED_CONTENT_TYPES normalize_image_mime_type to_data_url
     str_validation_error framework_answer).
Local Abbreviation app :=
  (Pipeline.app ALLOWED_CONTENT_TYPES normalize_image_mime_type to_data_url
     str_validation_error framework_answer).
Local Abbreviation allowed := (Pipeline.allowed ALLOWED_CONTENT_TYPES).

(** What the handler answers and records, case by case. *)
Lemma ocr_cases (s : Settings) (file : UploadFile) (w w' : World)
    (rid : string) (r : outcome exn body) :
  state_request_id w = Some rid ->
  ocr s file w = (r, w') ->
  exists added,
    trace w' = (added ++ trace w)%list
    /\ ((r = Raises (APIError 415 "unsupported_media_type"
                       ("Unsupported file type: " ++ str_opt (content_type file)))
         /\ allowed (content_type file) = false
         /\ added = [])
        \/ (r = Raises (APIError 400 "empty_file" "Uploaded file is empty.")
            /\ allowed (content_type file) = true /\ content file = []
            /\ added = [EvFileClose; EvFileRead])
        \/ (r = Raises (APIError 413 "file_too_large"
                          ("File exceeds " ++ str_int (max_upload_megabytes s)
                           ++ "MB limit."))
            /\ allowed (content_type file) = true
            /\ Z.of_nat (length (content file)) > max_upload_bytes s
            /\ added = [EvFileClose; EvFileRead])
        \/ (exists e,
              r = Raises e
              /\ (normalize_image_mime_type (declared_type file) = Raises e
                  \/ exists mime,
                       normalize_image_mime_type (declared_type file) = Returns mime
                       /\ to_data_url (content file) mime = Raises e)
              /\ added = [EvLog "INFO" "OCR request accepted" rid;
                          EvFileClose; EvFileRead])
        \/ (exists mime url,
              normalize_image_mime_type (declared_type file) = Returns mime
              /\ to_data_url (content file) mime = Returns url
              /\ allowed (content_type file) = true
              /\ content file <> []
              /\ Z.of_nat (length (content file)) <= max_upload_bytes s
              /\ match (wait_for (run_ocr w url) (inference_timeout_seconds s) w).1 with
                 | Returns markdown =>
                     r = Returns
                           (OCRResponse rid (model_name s) (PyStr.strip markdown)
                              (elapsed_ms (perf_counter w (clock_count w))
                                 (perf_counter w (S (clock_count w)))))
                     /\ added = [EvRunOcr url;
                                 EvLog "INFO" "OCR request accepted" rid;
                                 EvFileClose; EvFileRead]
                 | Raises AsyncioTimeoutError | Raises (VLLMTimeoutError _) =>
                     r = Raises (APIError 408 "inference_timeout"
                                   "Inference timed out.")
                     /\ added = [EvLog "ERROR" "vLLM inference timeout" rid;
                                 EvRunOcr url;
                                 EvLog "INFO" "OCR request accepted" rid;
                                 EvFileClose; EvFileRead]
                 | Raises (VLLMError _ _ _ _) =>
                     r = Raises (APIError 503 "inference_failure"
                                   "Model inference failed.")
                     /\ added = [EvLog "ERROR" "vLLM inference failure" rid;
                                 EvRunOcr url;
                                 EvLog "INFO" "OCR request accepted" rid;
                                 EvFileClose; EvFileRead]
                 | Raises _ =>
                     r = Raises (APIError 503 "inference_failure"
                                   "Model inference failed.")
                     /\ added = [EvLog "ERROR" "Unexpected inference failure" rid;
                                 EvRunOcr url;
                                 EvLog "INFO" "OCR request accepted" rid;
                                 EvFileClose; EvFileRead]
                 end)).
Proof.
  intros Hstate.
  unfold Pipeline.ocr; unfold bind at 1, gets at 1; rewrite Hstate;
    unfold bind at 1, time_perf_counter at 1.
  destruct (allowed (content_type file)) eqn:Hct; cbn [negb].
  2:{ unfold raise. intros [= <- <-]. exists []. split; [done|]. by left. }
  unfold file_read, file_close, logger, call_run_ocr, lift, bind, try_except,
    emit, modify, gets, ret, raise.
  destruct (content file) as [|b bs] eqn:Hc.
  { intros [= <- <-]. exists [EvFileClose; EvFileRead]. split; [reflexivity|].
    right; left. done. }
  destruct (Z.of_nat (length (b :: bs)) >? max_upload_bytes s) eqn:Hlen.
  { intros [= <- <-]. exists [EvFileClose; EvFileRead]. split; [reflexivity|].
    right; right; left.
    split; [done|]. split; [done|]. split; [|done].
    by apply Z.gtb_lt, Z.lt_gt in Hlen. }
  fold (declared_type file).
  destruct (normalize_image_mime_type (declared_type file)) as [mime|e] eqn:Hmime.
  2:{ intros [= <- <-]. eexists [_; _; _]. split; [reflexivity|].
      right; right; right; left. exists e. by eauto. }
  destruct (to_data_url (b :: bs) mime) as [url|e] eqn:Hurl.
  2:{ intros [= <- <-]. eexists [_; _; _]. split; [reflexivity|].
      right; right; right; left. exists e. by eauto 10. }
  cbn [run_ocr trace perf_counter clock_count].
  assert (Hle : Z.of_nat (length (b :: bs)) <= max_upload_bytes s).
  { rewrite Z.gtb_ltb in Hlen. by apply Z.ltb_ge in Hlen. }
  assert (Hwait : forall w1 w2,
            wait_for (run_ocr w url) (inference_timeout_seconds s) w1
            = ((wait_for (run_ocr w url) (inference_timeout_seconds s) w2).1, w1)).
  { intros w1 w2. unfold wait_for, raise, ret.
    destruct (_ <=? 0); [done|]. destruct (Qle_bool _ _); [|done].
    by destruct (result _). }
  rewrite (Hwait _ w).
  destruct (wait_for (run_ocr w url) (inference_timeout_seconds s) w).1
    as [markdown|[st c m|d| |d|a b0 c d|n]] eqn:Hw;
    cbn [trace perf_counter clock_count]; intros [= <- <-];
    first [ eexists [_; _; _; _]; split; [reflexivity|]
          | eexists [_; _; _; _; _]; split; [reflexivity|] ];
    right; right; right; right; exists mime, url;
    (split; [done|]); (split; [done|]); (split; [done|]);
    (split; [done|]); (split; [done|]); rewrite Hw; done.
Qed.


(** The application's answer to a request that reaches the handler. *)
Lemma app_ocr_run (s : Settings) (request : Request) (file : UploadFile)
    (w w4 : World) (r : outcome exn body) :
  ocr_request request file ->
  ocr s file (entered request w) = (r, w4) ->
  exists w' logs,
    app s request w
    = (Returns
         (respond (correlation_id request w)
            match r with
            | Returns b => Returns (ok b)
            | Raises e => Raises e
            end),
       w')
    /\ trace w' = (logs ++ trace w4)%list
    /\ forallb is_log logs = true.
Proof.
  intros Hroute Hocr. apply app_run.
  rewrite (router_ocr _ _ _ _ _ _ _ _ Hroute). unfold bind. rewrite Hocr.
  by destruct r.
Qed.

(** The events of a run other than log entries. *)
Local Abbreviation effects w w' :=
  (List.filter (fun e => negb (is_log e)) (new_events w w')).

Lemma effects_of_logs (logs added : list event) :
  forallb is_log logs = true ->
  List.filter (fun e => negb (is_log e)) (logs ++ added)
  = List.filter (fun e => negb (is_log e)) added.
Proof.
  intros Hlogs. rewrite List.filter_app.
  induction logs as [|e logs IH]; [done|]. simpl in *.
  apply andb_true_iff in Hlogs as [-> Hlogs]. by apply IH.
Qed.



(** X26.  A gateway call that fails in time with anything but a timeout
    (the gateway's own error, or any other exception) is answered 503
    [inference_failure] with the fixed message, the correlation id in the
    header and in the body; the gateway was called once. *)
Theorem gateway_failure_answered (s : Settings) (request : Request)
    (file : UploadFile) (w : World) (mime url : string) (failure : exn) :
  ocr_request request file ->
  allowed (content_type file) = true ->
  content file <> [] ->
  Z.of_nat (length (content file)) <= max_upload_bytes s ->
  normalize_image_mime_type (declared_type file) = Returns mime ->
  to_data_url (content file) mime = Returns url ->
  0 < inference_timeout_seconds s ->
  exceeds_timeout (run_ocr w url) (inference_timeout_seconds s) = false ->
  result (run_ocr w url) = Failed failure ->
  failure <> AsyncioTimeoutError ->
  (forall detail, failure <> VLLMTimeoutError detail) ->
  exists w',
    app s request w
    = (Returns
         {| status_code := 503;
            response_headers := [("x-request-id", correlation_id request w)];
            response_body :=
              ErrorResponse (correlation_id request w) "inference_failure"
                "Model inference failed." |},
       w')
    /\ effects w w' = [EvRunOcr url; EvFileClose; EvFileRead].
Proof.
  intros Hroute Hct Hne Hlen Hmime Hurl Hpos Hfast Hres Hnt1 Hnt2.
  destruct (ocr s file (entered request w)) as [r w4] eqn:Hocr.
  destruct (ocr_cases s file (entered request w) w4 (correlation_id request w) r
              eq_refl Hocr) as (added & Ht & Hcase).
  destruct Hcase as [(_ & Hct' & _)|[(_ & _ & Hc & _)|[(_ & _ & Hbig & _)|
                     [(e & _ & Hfail & _)|Hrun]]]].
  - congruence.
  - congruence.
  - lia.
  - destruct Hfail as [Hf|(mime' & Hm & Hf)]; congruence.
  - destruct Hrun as (mime' & url' & Hm & Hu & _ & _ & _ & Hwait).
    assert (mime' = mime) as -> by congruence.
    assert (url' = url) as -> by congruence.
    cbn [run_ocr entered] in Hwait.
    assert (Hw : forall w0, (wait_for (run_ocr w url) (inference_timeout_seconds s) w0).1
                 = Raises failure).
    { intros w0. unfold wait_for.
      destruct (Z.leb_spec (inference_timeout_seconds s) 0); [lia|].
      unfold exceeds_timeout in Hfast. apply negb_false_iff in Hfast.
      by rewrite Hfast, Hres. }
    rewrite Hw in Hwait.
    destruct (app_ocr_run _ _ _ _ _ _ Hroute Hocr) as (w' & logs & Happ & Ht' & Hlogs).
    exists w'.
    assert (Hr : r = Raises (APIError 503 "inference_failure" "Model inference failed.")
                 /\ exists entry,
                      added = [EvLog "ERROR" entry (correlation_id request w);
                               EvRunOcr url;
                               EvLog "INFO" "OCR request accepted"
                                 (correlation_id request w);
                               EvFileClose; EvFileRead]).
    { destruct failure as [st c m|d| |d|a b c d|n];
        try (destruct Hwait as [-> ->]; split; [done|]; by eexists).
      by destruct (Hnt2 d). }
    destruct Hr as [-> [entry ->]].
    split; [exact Happ|].
    rewrite (new_request_events_app w w'
               (logs ++ [EvLog "ERROR" entry (correlation_id request w);
                         EvRunOcr url;
                         EvLog "INFO" "OCR request accepted" (correlation_id request w);
                         EvFileClose; EvFileRead])%list).
    + by rewrite effects_of_logs.
    + rewrite Ht', Ht. cbn [trace entered]. by rewrite <- app_assoc.
Qed.

(** X27.  When the two image helpers do not raise, an upload to the OCR
    route is always answered, with one of six pairs of status and error
    code: 200 (no error), 400 [empty_file], 408 [inference_timeout], 413
    [file_too_large], 415 [unsupported_media_type], 503
    [inference_failure]; the response carries the correlation id in its
    header and in its body. *)
Theorem handler_status_codes (s : Settings) (request : Request)
    (file : UploadFile) (w : World) :
  ocr_request request file ->
  (forall declared e, normalize_image_mime_type declared <> Raises e) ->
  (forall payload mime e, to_data_url payload mime <> Raises e) ->
  exists resp w',
    app s request w = (Returns resp, w')
    /\ In (status_code resp, body_error_code (response_body resp))
         [(200, None); (400, Some "empty_file");
          (408, Some "inference_timeout"); (413, Some "file_too_large");
          (415, Some "unsupported_media_type");
          (503, Some "inference_failure")]
    /\ response_headers resp = [("x-request-id", correlation_id request w)]
    /\ body_request_id (response_body resp) = Some (correlation_id request w).
Proof.
  intros Hroute Hnorm Hurl.
  destruct (ocr s file (entered request w)) as [r w4] eqn:Hocr.
  destruct (ocr_cases s file (entered request w) w4 (correlation_id request w) r
              eq_refl Hocr) as (added & Ht & Hcase).
  destruct (app_ocr_run _ _ _ _ _ _ Hroute Hocr) as (w' & logs & Happ & _ & _).
  eexists _, w'. split; [exact Happ|].
  destruct Hcase as [(-> & _)|[(-> & _)|[(-> & _)|[(e & _ & Hfail & _)|Hrun]]]].
  - cbn. tauto.
  - cbn. tauto.
  - cbn. tauto.
  - destruct Hfail as [Hf|(mime & _ & Hf)]; [by apply Hnorm in Hf|by apply Hurl in Hf].
  - destruct Hrun as (mime & url & _ & _ & _ & _ & _ & Hwait).
    destruct (wait_for _ _ _).1 as [markdown|[st c m|d| |d|a b c d|n]];
      destruct Hwait as [-> _]; cbn; tauto.
Qed.

(** X28.  A POST to the OCR route without a file part is answered 422
    [validation_error], with the correlation id in the header and in the
    body, and as message the text of the framework's validation error;
    nothing is read and the gateway is not called. *)
Theorem missing_upload_answered (s : Settings) (request : Request) (w : World) :
  path request = "/api/v1/ocr" ->
  method request = "POST" ->
  upload request = None ->
  exists w',
    app s request w
    = (Returns
         {| status_code := 422;
            response_headers := [("x-request-id", correlation_id request w)];
            response_body :=
              ErrorResponse (correlation_id request w) "validation_error"
                (str_validation_error request) |},
       w')
    /\ effects w w' = [].
Proof.
  intros Hp Hm Hu.
  assert (Hr : router s request (entered request w)
               = (Raises (RequestValidationError (str_validation_error request)),
                  entered request w)).
  { unfold Pipeline.router. by rewrite Hp, Hm, Hu. }
  destruct (app_run _ _ _ _ _ _ _ _ _ _ Hr) as (w' & logs & Happ & Ht & Hlogs).
  exists w'. split; [exact Happ|].
  rewrite (new_request_events_app w w' (logs ++ [])%list).
  - by rewrite effects_of_logs.
  - by rewrite Ht, app_nil_r.
Qed.

(** X29.  When an image helper raises an exception that is no API error,
    the request is answered 500 [internal_server_error] with the fixed
    message and the correlation id in the body, and, the only such
    response, without the correlation header; the upload was read and
    closed and the gateway was not called. *)
Theorem helper_failure_answered (s : Settings) (request : Request)
    (file : UploadFile) (w : World) (class_name : string) :
  ocr_request request file ->
  allowed (content_type file) = true ->
  content file <> [] ->
  Z.of_nat (length (content file)) <= max_upload_bytes s ->
  (normalize_image_mime_type (declared_type file)
   = Raises (OtherException class_name)
   \/ exists mime,
        normalize_image_mime_type (declared_type file) = Returns mime
        /\ to_data_url (content file) mime = Raises (OtherException class_name)) ->
  exists w',
    app s request w
    = (Returns
         {| status_code := 500;
            response_headers := [];
            response_body :=
              ErrorResponse (correlation_id request w) "internal_server_error"
                "Unexpected server error." |},
       w')
    /\ effects w w' = [EvFileClose; EvFileRead].
Proof.
  intros Hroute Hct Hne Hlen Hhelper.
  destruct (ocr s file (entered request w)) as [r w4] eqn:Hocr.
  destruct (ocr_cases s file (entered request w) w4 (correlation_id request w) r
              eq_refl Hocr) as (added & Ht & Hcase).
  destruct (app_ocr_run _ _ _ _ _ _ Hroute Hocr) as (w' & logs & Happ & Ht' & Hlogs).
  exists w'.
  destruct Hcase as [(_ & Hct' & _)|[(_ & _ & Hc & _)|[(_ & _ & Hbig & _)|
                     [(e & -> & Hfail & ->)|Hrun]]]].
  - congruence.
  - congruence.
  - lia.
  - assert (e = OtherException class_name) as ->.
    { destruct Hhelper as [Hh|(mime & Hm & Hh)], Hfail as [Hf|(mime' & Hm' & Hf)];
        congruence. }
    split; [exact Happ|].
    rewrite (new_request_events_app w w'
               (logs ++ [EvLog "INFO" "OCR request accepted" (correlation_id request w);
                         EvFileClose; EvFileRead])%list).
    + by rewrite effects_of_logs.
    + rewrite Ht', Ht. cbn [trace entered]. by rewrite <- app_assoc.
  - destruct Hrun as (mime & url & Hm & Hu & _).
    destruct Hhelper as [Hh|(mime' & Hm' & Hh)]; congruence.
Qed.

(** The health check answers 200 whatever the settings and the gateway,
    and touches neither the upload nor the gateway. *)
Lemma healthz_answered (s : Settings) (request : Request) (w : World) :
  path request = "/healthz" ->
  method request = "GET" ->
  exists w',
    app s request w
    = (Returns
         {| status_code := 200;
            response_headers := [("x-request-id", correlation_id request w)];
            response_body := HealthStatus "ok" |},
       w')
    /\ effects w w' = [].
Proof.
  intros Hp Hm.
  assert (Hr : router s request (entered request w)
               = (Returns (ok (HealthStatus "ok")), entered request w)).
  { unfold Pipeline.router. by rewrite Hp, Hm. }
  destruct (app_run _ _ _ _ _ _ _ _ _ _ Hr) as (w' & logs & Happ & Ht & Hlogs).
  exists w'. split; [exact Happ|].
  rewrite (new_request_events_app w w' (logs ++ [])%list).
  - by rewrite effects_of_logs.
  - by rewrite Ht, app_nil_r.
Qed.

Lemma router_cases (s : Settings) (request : Request) (w : World) :
  (exists file, ocr_request request file)
  \/ exists r,
       router s request w = (r, w)
       /\ forall resp, r = Returns resp ->
            body_request_id (response_body resp) = None.
Proof.
  unfold Pipeline.router, ocr_request.
  destruct (String.eqb (path request) "/healthz"
            && String.eqb (method request) "GET").
  { right. eexists; split; [reflexivity|]. by intros resp [= <-]. }
  destruct (String.eqb_spec (path request) "/api/v1/ocr") as [Hp|];
    [|right; eexists; split; [reflexivity|]; by intros resp [= <-]].
  destruct (String.eqb_spec (method request) "POST") as [Hm|];
    [|right; eexists; split; [reflexivity|]; by intros resp [= <-]].
  cbn [andb].
  destruct (upload request) as [file|]; [left; by exists file|].
  right. eexists; split; [reflexivity|]. by intros resp [=].
Qed.

(** X30.  Every request is answered, and its effects besides log entries
    have one of three shapes: none; the upload read, then closed; the upload
    read, then closed, then one gateway call.  So an upload is read at most
    once and closed whenever it was read, the gateway is called at most once
    and only after the upload is closed; and a response with an OCR body
    comes from exactly one gateway call. *)
Theorem request_effects (s : Settings) (request : Request) (w : World) :
  exists resp w',
    app s request w = (Returns resp, w')
    /\ (effects w w' = []
        \/ effects w w' = [EvFileClose; EvFileRead]
        \/ exists url, effects w w' = [EvRunOcr url; EvFileClose; EvFileRead])
    /\ (forall rid model markdown ms,
          response_body resp = OCRResponse rid model markdown ms ->
          exists url, effects w w' = [EvRunOcr url; EvFileClose; EvFileRead]).
Proof.
  destruct (router_cases s request (entered request w))
    as [[file Hroute]|(r & Hr & Hbody)].
  - destruct (ocr s file (entered request w)) as [r w4] eqn:Hocr.
    destruct (ocr_cases s file (entered request w) w4 (correlation_id request w) r
                eq_refl Hocr) as (added & Ht & Hcase).
    destruct (app_ocr_run _ _ _ _ _ _ Hroute Hocr) as (w' & logs & Happ & Ht' & Hlogs).
    eexists _, w'. split; [exact Happ|].
    assert (Heff : effects w w' = List.filter (fun e => negb (is_log e)) added).
    { rewrite (new_request_events_app w w' (logs ++ added)%list).
      - by rewrite effects_of_logs.
      - rewrite Ht', Ht. cbn [trace entered]. by rewrite <- app_assoc. }
    rewrite Heff.
    destruct Hcase as [(-> & _ & ->)|[(-> & _ & _ & ->)|[(-> & _ & _ & ->)|
                       [(e & -> & _ & ->)|Hrun]]]].
    + split; [by left|]. done.
    + split; [by right; left|]. done.
    + split; [by right; left|]. done.
    + split; [by right; left|].
      by destruct e as [st c m|d| |d|a b c d|n].
    + destruct Hrun as (mime & url & _ & _ & _ & _ & _ & Hwait).
      destruct (wait_for _ _ _).1 as [markdown|[st c m|d| |d|a b c d|n]];
        destruct Hwait as [-> ->]; (split; [right; right; by exists url|]);
        cbn; try done; intros; by exists url.
  - destruct (app_run _ _ _ _ _ _ _ _ _ _ Hr) as (w' & logs & Happ & Ht & Hlogs).
    eexists _, w'. split; [exact Happ|].
    assert (Heff : effects w w' = []).
    { rewrite (new_request_events_app w w' (logs ++ [])%list).
      - by rewrite effects_of_logs.
      - by rewrite Ht, app_nil_r. }
    rewrite Heff. split; [by left|].
    intros rid model markdown ms.
    destruct r as [resp|e].
    + specialize (Hbody resp eq_refl). cbn [respond set_header response_body].
      intros Hb. by rewrite Hb in Hbody.
    + by destruct e.
Qed.

End Service.

Local Abbreviation png := (Sample.post_ocr [] (Some "image/png") [x89; x50]).
Local Abbreviation png_file :=
  {| content_type := Some "image/png"; filename := Some "scan";
     content := [x89; x50] |}.

Lemma png_within_ceiling :
  Z.of_nat (length (content png_file)) <= max_upload_bytes Sample.defaults.
Proof. by vm_compute. Qed.


(** The gateway reports an error of the backend. *)
Lemma gateway_failure_answered_witness :
  exists w',
    Sample.app Sample.defaults png
      (Sample.process
         (Sample.failing_gateway (VLLMError (Some 500) None None None)))
    = (Returns
         {| status_code := 503;
            response_headers := [("x-request-id", "generated-0")];
            response_body :=
              ErrorResponse "generated-0" "inference_failure"
                "Model inference failed." |},
       w')
    /\ List.filter (fun e => negb (is_log e))
         (new_events
            (Sample.process
               (Sample.failing_gateway (VLLMError (Some 500) None None None)))
            w')
       = [EvRunOcr "data:image/png;base64,2-bytes"; EvFileClose; EvFileRead].
Proof.
  exact (gateway_failure_answered Sample.ALLOWED_CONTENT_TYPES
           Sample.normalize_image_mime_type Sample.to_data_url
           Sample.str_validation_error Sample.framework_answer
           Sample.defaults png png_file
           (Sample.process
              (Sample.failing_gateway (VLLMError (Some 500) None None None)))
           "image/png" "data:image/png;base64,2-bytes"
           (VLLMError (Some 500) None None None)
           (sample_ocr_request _ _ _) eq_refl ltac:(discriminate)
           png_within_ceiling eq_refl eq_refl ltac:(reflexivity) eq_refl eq_refl
           ltac:(discriminate) ltac:(intros; discriminate)).
Defined.

(** The sample helpers never raise. *)
Lemma handler_status_codes_witness :
  (forall declared e, Sample.normalize_image_mime_type declared <> Raises e)
  /\ (forall payload mime e, Sample.to_data_url payload mime <> Raises e)
  /\ exists resp w',
       Sample.app Sample.defaults png
         (Sample.process (Sample.gateway 2 "Hello World"))
       = (Returns resp, w')
       /\ In (status_code resp, body_error_code (response_body resp))
            [(200, None); (400, Some "empty_file");
             (408, Some "inference_timeout"); (413, Some "file_too_large");
             (415, Some "unsupported_media_type");
             (503, Some "inference_failure")].
Proof.
  assert (Hnorm : forall declared e,
            Sample.normalize_image_mime_type declared <> Raises e)
    by (intros; discriminate).
  assert (Hurl : forall payload mime e,
            Sample.to_data_url payload mime <> Raises e)
    by (intros; discriminate).
  split; [exact Hnorm|]. split; [exact Hurl|].
  destruct (handler_status_codes Sample.ALLOWED_CONTENT_TYPES
              Sample.normalize_image_mime_type Sample.to_data_url
              Sample.str_validation_error Sample.framework_answer
              Sample.defaults png png_file
              (Sample.process (Sample.gateway 2 "Hello World"))
              (sample_ocr_request _ _ _) Hnorm Hurl)
    as (resp & w' & Happ & Hstatus & _).
  exists resp, w'. split; [exact Happ | exact Hstatus].
Defined.

Local Abbreviation bare_post :=
  {| method := "POST"; path := "/api/v1/ocr";
     headers := [("X-Request-ID", "req-9")]; upload := None;
     client_host := None |}.

(** A POST without a file part. *)
Lemma missing_upload_answered_witness :
  exists w',
    Sample.app Sample.defaults bare_post
      (Sample.process (Sample.gateway 2 "Hello World"))
    = (Returns
         {| status_code := 422;
            response_headers := [("x-request-id", "req-9")];
            response_body :=
              ErrorResponse "req-9" "validation_error"
                "[{'type': 'missing', 'loc': ('body', 'file'), 'msg': 'Field required', 'input': None}]" |},
       w')
    /\ List.filter (fun e => negb (is_log e))
         (new_events (Sample.process (Sample.gateway 2 "Hello World")) w')
       = [].
Proof.
  exact (missing_upload_answered Sample.ALLOWED_CONTENT_TYPES
           Sample.normalize_image_mime_type Sample.to_data_url
           Sample.str_validation_error Sample.framework_answer
           Sample.defaults bare_post
           (Sample.process (Sample.gateway 2 "Hello World"))
           eq_refl eq_refl eq_refl).
Defined.

(** The encoder of the upload raises a [ValueError]. *)
Lemma helper_failure_answered_witness :
  exists w',
    Pipeline.app Sample.ALLOWED_CONTENT_TYPES Sample.normalize_image_mime_type
      Sample.broken_to_data_url
      Sample.str_validation_error Sample.framework_answer Sample.defaults png
      (Sample.process (Sample.gateway 2 "Hello World"))
    = (Returns
         {| status_code := 500;
            response_headers := [];
            response_body :=
              ErrorResponse "generated-0" "internal_server_error"
                "Unexpected server error." |},
       w')
    /\ List.filter (fun e => negb (is_log e))
         (new_events (Sample.process (Sample.gateway 2 "Hello World")) w')
       = [EvFileClose; EvFileRead].
Proof.
  exact (helper_failure_answered Sample.ALLOWED_CONTENT_TYPES
           Sample.normalize_image_mime_type Sample.broken_to_data_url
           Sample.str_validation_error Sample.framework_answer
           Sample.defaults png png_file
           (Sample.process (Sample.gateway 2 "Hello World")) "ValueError"
           (sample_ocr_request _ _ _) eq_refl ltac:(discriminate)
           png_within_ceiling
           (or_intror (ex_intro _ "image/png" (conj eq_refl eq_refl)))).
Defined.

End PipelineProps.
